(** * Session and kernel lifecycle of the sandboxed Jupyter code-execution server

    A shallow embedding of [fastapi_jupyter_server.py]: the
    [JupyterController] class (readiness polling, execution correlation,
    restart, teardown), the in-memory [sessions] registry with its helpers
    ([_create_session], [_install_dependencies], [get_session]), the
    inactivity sweep and the three request handlers.

    The interpreter process, the clock, the package installer and the
    rendering of exceptions as text are external collaborators.  They are
    modelled as an environment the code queries: every theorem below is
    stated for all behaviours of that environment. *)

From Stdlib Require Import Ascii String QArith.
From stdpp Require Import gmap strings list fin_maps.

Local Open Scope string_scope.

(** ** Python text *)

(** A Python [str] whose code points are below 256 is a [string]: one
    [ascii] per code point. *)

Definition code_point (c : ascii) : N := N_of_ascii c.

(** [str.isspace] on one code point below 256: TAB, LF, VT, FF, CR, the four
    separators FS GS RS US, SPACE, NEL and NBSP. *)
Definition isspace (c : ascii) : bool :=
  let n := code_point c in
  ((9 <=? n) && (n <=? 13) || (28 <=? n) && (n <=? 32)
   || (n =? 133) || (n =? 160))%N.

(** [s.lstrip()], [s.rstrip()] and [s.strip()] without arguments. *)
Fixpoint lstrip (s : string) : string :=
  match s with
  | EmptyString => EmptyString
  | String c s' => if isspace c then lstrip s' else s
  end.

Fixpoint rstrip (s : string) : string :=
  match s with
  | EmptyString => EmptyString
  | String c s' =>
      match rstrip s' with
      | EmptyString => if isspace c then EmptyString else String c EmptyString
      | r => String c r
      end
  end.

Definition strip (s : string) : string := rstrip (lstrip s).

(** [sep.join(parts)]. *)
Definition join (sep : string) (parts : list string) : string :=
  String.concat sep parts.

(** The line feed, written "\n" in the source. *)
Definition LF : string := String (ascii_of_nat 10) EmptyString.

(** Truthiness of a [str]: non-empty. *)
Definition truthy (s : string) : bool :=
  match s with EmptyString => false | _ => true end.

(** [d.get(k)] on a dict kept as an association list. *)
Fixpoint dict_get {V} (k : string) (d : list (string * V)) : option V :=
  match d with
  | [] => None
  | (k', v) :: d' => if String.eqb k k' then Some v else dict_get k d'
  end.

Definition dict_has {V} (k : string) (d : list (string * V)) : bool :=
  match dict_get k d with Some _ => true | None => false end.

(** ** Messages of the interpreter's output channel *)

(** The [content] dict of a message, restricted to the keys the server
    reads; [None] is an absent key.  The [data] mime bundle maps a mime
    type to its payload. *)
Record content_t := {
  text : option string;
  data : option (list (string * string));
  ename : option string;
  evalue : option string;
  traceback : option (list string);
  execution_state : option string
}.

(** A message: [msg['header']['msg_type']], the [msg_id] entry of
    [msg['parent_header']] (absent on messages that answer no request) and
    [msg['content']]. *)
Record message := {
  msg_type : string;
  parent_msg_id : option string;
  content : content_t
}.

Definition no_content : content_t :=
  {| text := None; data := None; ename := None; evalue := None;
     traceback := None; execution_state := None |}.

Definition stream_msg (parent t : string) : message :=
  {| msg_type := "stream"; parent_msg_id := Some parent;
     content := {| text := Some t; data := None; ename := None; evalue := None;
                   traceback := None; execution_state := None |} |}.

Definition execute_result_msg (parent plain : string) : message :=
  {| msg_type := "execute_result"; parent_msg_id := Some parent;
     content := {| text := None; data := Some [("text/plain", plain)];
                   ename := None; evalue := None;
                   traceback := None; execution_state := None |} |}.

Definition display_data_msg (parent : string) (bundle : list (string * string))
  : message :=
  {| msg_type := "display_data"; parent_msg_id := Some parent;
     content := {| text := None; data := Some bundle;
                   ename := None; evalue := None;
                   traceback := None; execution_state := None |} |}.

Definition error_msg (parent en ev : string) (tb : list string) : message :=
  {| msg_type := "error"; parent_msg_id := Some parent;
     content := {| text := None; data := None; ename := Some en;
                   evalue := Some ev; traceback := Some tb;
                   execution_state := None |} |}.

Definition status_msg (parent st : string) : message :=
  {| msg_type := "status"; parent_msg_id := Some parent;
     content := {| text := None; data := None; ename := None; evalue := None;
                   traceback := None; execution_state := Some st |} |}.

(** ** Exceptions *)

(** The [detail] of an [HTTPException]: a string, or the [error_detail]
    dict that [execute_code] builds for an interpreter error. *)
Inductive detail :=
| DetailStr (s : string)
| DetailError (error ename evalue : string) (traceback : list string).

Inductive exn :=
| HTTPException (status_code : Z) (d : detail)
| RuntimeError (msg : string)
| TimeoutError (msg : string)
| KeyError (key : string)
| AttributeError (attr : string)
| QueueEmpty
| TimeoutExpired
| OSError (msg : string).

Definition is_HTTPException (e : exn) : bool :=
  match e with HTTPException _ _ => true | _ => false end.

Definition is_TimeoutError (e : exn) : bool :=
  match e with TimeoutError _ => true | _ => false end.

Definition is_QueueEmpty (e : exn) : bool :=
  match e with QueueEmpty => true | _ => false end.

Definition is_TimeoutExpired (e : exn) : bool :=
  match e with TimeoutExpired => true | _ => false end.

Definition status_of (e : exn) : option Z :=
  match e with HTTPException c _ => Some c | _ => None end.

(** ** The environment *)

(** The interpreter process behind one controller, as the adapter observes
    it.  [life] is the number of further [is_alive()] polls that answer
    [True]: a process that has died stays dead until it is restarted.
    [iopub] holds the successive results of [get_iopub_msg]: a message, or
    [None] when the wait expires ([queue.Empty]); after the last entry the
    channel stays silent.  [msg_ids] gives the token [execute] returns for
    the n-th submission and [submitted] counts the submissions.  [restarts]
    holds the results of the successive [restart_kernel()] calls: the life of
    the new process, or [None] when the restart raises, as it does when no
    result is left. *)
Record Kernel := {
  life : nat;
  iopub : list (option message);
  msg_ids : nat -> string;
  submitted : nat;
  restarts : list (option nat)
}.

(** The attributes of a [JupyterController].  [kernel_manager] stands for the
    manager and the client it hands out: both talk to the same process. *)
Record JupyterController := {
  folder_path : string;
  notebook_path : option string;
  kernel_manager : option Kernel;
  kernel_client : bool;
  _kernel_ready : bool
}.

(** Controllers are objects shared by reference: the registry, the request
    handlers and the scheduled teardown tasks all hold the same controller.
    A reference is an index into the store of controllers. *)
Definition loc := nat.

(** A [SessionInfo].  The time stamps are readings of [time.time()], kept
    as rationals.  The object is only written through its entry in the dict
    ([last_activity], on every access), so the registry holds it by value
    and the controller it owns by reference. *)
Record SessionInfo := {
  controller : loc;
  created_at : Q;
  last_activity : Q
}.

(** What [subprocess.run] does for one [pip install]. *)
Inductive pip_result :=
| Completed (returncode : Z) (stdout stderr : string)
| PipTimeoutExpired
| PipRaises (msg : string).

(** The calls that leave the server, in the order they are made. *)
Inductive action :=
| StartKernel (c : loc)
| RestartKernel (c : loc)
| ShutdownKernel (c : loc)
| StopChannels (c : loc)
| Execute (c : loc) (src : string)
| PipInstall (package_name : string)
| RemoveNotebook (path : string)
| CleanupTask (c : loc).

(** The state of the server: the [sessions] dict, the store of controllers,
    and the environment.  [clock] holds the successive readings of
    [time.time()], [spawn] the processes the successive [start_kernel()]
    calls bring up ([None], or no entry left: the start raises), [pip] the
    result of the n-th install as a function of the package name, [files]
    the notebook files that exist, [trace] the calls made so far.  [raising]
    tells of each call of the teardown ([stop_channels()],
    [shutdown_kernel()], [os.remove()]) whether it raises. *)
Record state := {
  sessions : gmap string SessionInfo;
  store : list JupyterController;
  clock : list Q;
  spawn : list (option Kernel);
  pip : nat -> string -> pip_result;
  pip_runs : nat;
  files : gset string;
  trace : list action;
  raising : action -> bool
}.

Definition with_sessions (f : gmap string SessionInfo -> gmap string SessionInfo)
  (st : state) : state :=
  {| sessions := f (sessions st); store := store st; clock := clock st;
     spawn := spawn st; pip := pip st; pip_runs := pip_runs st;
     files := files st; trace := trace st; raising := raising st |}.

Definition with_store (f : list JupyterController -> list JupyterController)
  (st : state) : state :=
  {| sessions := sessions st; store := f (store st); clock := clock st;
     spawn := spawn st; pip := pip st; pip_runs := pip_runs st;
     files := files st; trace := trace st; raising := raising st |}.

Definition with_clock (c : list Q) (st : state) : state :=
  {| sessions := sessions st; store := store st; clock := c;
     spawn := spawn st; pip := pip st; pip_runs := pip_runs st;
     files := files st; trace := trace st; raising := raising st |}.

Definition with_spawn (s : list (option Kernel)) (st : state) : state :=
  {| sessions := sessions st; store := store st; clock := clock st;
     spawn := s; pip := pip st; pip_runs := pip_runs st;
     files := files st; trace := trace st; raising := raising st |}.

Definition with_pip_runs (n : nat) (st : state) : state :=
  {| sessions := sessions st; store := store st; clock := clock st;
     spawn := spawn st; pip := pip st; pip_runs := n;
     files := files st; trace := trace st; raising := raising st |}.

Definition with_files (f : gset string -> gset string) (st : state) : state :=
  {| sessions := sessions st; store := store st; clock := clock st;
     spawn := spawn st; pip := pip st; pip_runs := pip_runs st;
     files := f (files st); trace := trace st;
     raising := raising st |}.

Definition with_trace (a : action) (st : state) : state :=
  {| sessions := sessions st; store := store st; clock := clock st;
     spawn := spawn st; pip := pip st; pip_runs := pip_runs st;
     files := files st; trace := trace st ++ [a];
     raising := raising st |}.

Definition set_notebook_path (p : string) (c : JupyterController) :=
  {| folder_path := folder_path c; notebook_path := Some p;
     kernel_manager := kernel_manager c; kernel_client := kernel_client c;
     _kernel_ready := _kernel_ready c |}.

Definition set_kernel_manager (k : Kernel) (c : JupyterController) :=
  {| folder_path := folder_path c; notebook_path := notebook_path c;
     kernel_manager := Some k; kernel_client := kernel_client c;
     _kernel_ready := _kernel_ready c |}.

Definition set_kernel_client (c : JupyterController) :=
  {| folder_path := folder_path c; notebook_path := notebook_path c;
     kernel_manager := kernel_manager c; kernel_client := true;
     _kernel_ready := _kernel_ready c |}.

Definition set_kernel_ready (b : bool) (c : JupyterController) :=
  {| folder_path := folder_path c; notebook_path := notebook_path c;
     kernel_manager := kernel_manager c; kernel_client := kernel_client c;
     _kernel_ready := b |}.

Definition set_life (n : nat) (k : Kernel) : Kernel :=
  {| life := n; iopub := iopub k; msg_ids := msg_ids k;
     submitted := submitted k; restarts := restarts k |}.

Definition set_iopub (q : list (option message)) (k : Kernel) : Kernel :=
  {| life := life k; iopub := q; msg_ids := msg_ids k;
     submitted := submitted k; restarts := restarts k |}.

Definition set_submitted (n : nat) (k : Kernel) : Kernel :=
  {| life := life k; iopub := iopub k; msg_ids := msg_ids k;
     submitted := n; restarts := restarts k |}.

Definition set_restarts (r : list (option nat)) (k : Kernel) : Kernel :=
  {| life := life k; iopub := iopub k; msg_ids := msg_ids k;
     submitted := submitted k; restarts := r |}.

Definition set_last_activity (t : Q) (s : SessionInfo) : SessionInfo :=
  {| controller := controller s; created_at := created_at s;
     last_activity := t |}.

(** ** Computations: state, exceptions, and a scenario that ends *)

(** A call returns a value, raises, or is still waiting when the scripted
    clock has no reading left ([Pending]). *)
Inductive outcome (A : Type) :=
| Return (a : A)
| Raise (e : exn)
| Pending.
Arguments Return {A} a.
Arguments Raise {A} e.
Arguments Pending {A}.

Definition M (A : Type) : Type := state -> outcome A * state.

Definition ret {A} (a : A) : M A := fun st => (Return a, st).
Definition raise {A} (e : exn) : M A := fun st => (Raise e, st).
Definition pending {A} : M A := fun st => (Pending, st).

Definition bind {A B} (m : M A) (k : A -> M B) : M B :=
  fun st =>
    match m st with
    | (Return a, st') => k a st'
    | (Raise e, st') => (Raise e, st')
    | (Pending, st') => (Pending, st')
    end.

(** [try: m  except ...: h e]: the handler receives whatever [m] raises and
    re-raises what no clause matches. *)
Definition try_except {A} (m : M A) (h : exn -> M A) : M A :=
  fun st =>
    match m st with
    | (Raise e, st') => h e st'
    | r => r
    end.

Definition get_state : M state := fun st => (Return st, st).
Definition modify (f : state -> state) : M unit := fun st => (Return tt, f st).
Definition emit (a : action) : M unit := modify (with_trace a).

Declare Scope py_scope.
Delimit Scope py_scope with py.
Notation "x <- m ;; k" := (bind m (fun x => k))
  (at level 100, m at next level, k at level 200, right associativity,
   only parsing) : py_scope.
Notation "m ;; k" := (bind m (fun _ => k))
  (at level 100, k at level 200, right associativity, only parsing)
  : py_scope.
Local Open Scope py_scope.

(** [time.time()]. *)
Definition time_time : M Q :=
  fun st =>
    match clock st with
    | [] => (Pending, st)
    | t :: c => (Return t, with_clock c st)
    end.

(** [a > b] on clock readings. *)
Definition Qgtb (a b : Q) : bool := negb (Qle_bool a b).

(** Reading and writing the attributes of the controller at [self]. *)
Definition deref (self : loc) : M JupyterController :=
  fun st =>
    match store st !! self with
    | Some c => (Return c, st)
    | None => (Raise (AttributeError "self"), st)
    end.

Definition update (self : loc) (f : JupyterController -> JupyterController)
  : M unit :=
  modify (with_store (fun h =>
    match h !! self with Some c => <[self := f c]> h | None => h end)).

Definition the_kernel (self : loc) : M Kernel :=
  c <- deref self ;;
  match kernel_manager c with
  | Some k => ret k
  | None => raise (AttributeError "kernel_manager")
  end.

(** ** Scenarios *)

(** Environments and states for the examples at the end of the file. *)
Module Scenario.

(** A rendering of exceptions and details as text. *)
Definition str_exn (e : exn) : string :=
  match e with
  | RuntimeError msg | TimeoutError msg | OSError msg => msg
  | KeyError key => "'" ++ key ++ "'"
  | AttributeError attr => attr
  | HTTPException _ _ => "HTTPException"
  | QueueEmpty | TimeoutExpired => ""
  end.

Definition str_detail (d : detail) : string :=
  match d with
  | DetailStr s => s
  | DetailError error _ _ _ => error
  end.

(** The tokens [execute] hands out. *)
Definition token (n : nat) : string :=
  match n with
  | 0 => "msg-0"
  | 1 => "msg-1"
  | 2 => "msg-2"
  | _ => "msg-n"
  end.

Definition kernel (alive_for : nat) (channel : list (option message))
  (restart_results : list (option nat)) : Kernel :=
  {| life := alive_for; iopub := channel; msg_ids := token; submitted := 0;
     restarts := restart_results |}.

(** A controller that went through [create_notebook] and is ready. *)
Definition ready_controller (k : Kernel) : JupyterController :=
  {| folder_path := "/mnt/jupyter_sessions/c";
     notebook_path := Some "/mnt/jupyter_sessions/c/notebook_c.ipynb";
     kernel_manager := Some k; kernel_client := true; _kernel_ready := true |}.

Definition registered : SessionInfo :=
  {| controller := 0; created_at := 100; last_activity := 100 |}.

Definition installer_succeeds (n : nat) (package_name : string) : pip_result :=
  Completed 0 "Successfully installed" "".

(** A server that holds the session "c" on a ready controller whose process
    behaves as [k]; the clock has the readings [readings] left. *)
Definition serving (k : Kernel) (readings : list Q) : state :=
  {| sessions := {[ "c" := registered ]};
     store := [ready_controller k];
     clock := readings;
     spawn := [];
     pip := installer_succeeds; pip_runs := 0;
     files := {[ "/mnt/jupyter_sessions/c/notebook_c.ipynb" ]};
     trace := []; raising := fun _ => false |}.

(** A server that has not served any request; the first kernel it starts
    answers the readiness probe, the bootstrap snippet and one request that
    prints a greeting. *)
Definition first_kernel : Kernel :=
  kernel 20
    [ Some (status_msg "msg-0" "busy");
      Some (execute_result_msg "msg-0" "2");
      Some (status_msg "msg-0" "idle");
      None;
      None;
      Some (status_msg "msg-1" "busy");
      Some (stream_msg "msg-1"
              ("Initial imports (pandas, numpy, matplotlib, os) loaded." ++ LF));
      Some (status_msg "msg-1" "idle");
      None;
      Some (status_msg "msg-2" "busy");
      Some (stream_msg "msg-2" ("Hello World!" ++ LF));
      Some (status_msg "msg-2" "idle") ]
    [].

Definition fresh_server : state :=
  {| sessions := ∅; store := []; clock := [100; 101; 102; 103]%Q;
     spawn := [Some first_kernel];
     pip := installer_succeeds; pip_runs := 0; files := ∅; trace := [];
     raising := fun _ => false |}.

(** The process prints a line and then shows the value of the last
    expression: two messages for one request. *)
Definition two_outputs : list message :=
  [ status_msg "msg-0" "busy";
    stream_msg "msg-0" ("x" ++ LF);
    execute_result_msg "msg-0" "2" ].

Definition prints_then_value : Kernel :=
  kernel 5
    (None :: map Some two_outputs ++ [Some (status_msg "msg-0" "idle")])%list
    [].

(** The process prints a line, shows a figure and then the value of the
    last expression. *)
Definition three_outputs : list message :=
  [ status_msg "msg-0" "busy";
    stream_msg "msg-0" ("x" ++ LF);
    display_data_msg "msg-0"
      [ ("image/png", "iVBORw0KGgo=");
        ("text/plain", "<Figure size 640x480 with 1 Axes>") ];
    execute_result_msg "msg-0" "2" ].

Definition prints_shows_and_values : Kernel :=
  kernel 5
    (None :: map Some three_outputs ++ [Some (status_msg "msg-0" "idle")])%list
    [].

(** An idle status of an earlier request arrives first. *)
Definition stale_idle_first : Kernel :=
  kernel 5
    [ None;
      Some (status_msg "msg-earlier" "idle");
      Some (stream_msg "msg-0" "done");
      Some (status_msg "msg-0" "idle") ]
    [].

(** The only idle status that arrives is the one of an earlier request. *)
Definition foreign_idle_only : Kernel :=
  kernel 5
    [ None;
      Some (stream_msg "msg-0" "partial");
      Some (status_msg "msg-earlier" "idle") ]
    [].

(** The first request sleeps before it prints: the wait for its output
    expires, and the output arrives while the next request is served, after
    that request has cleared the queue and submitted its code. *)
Definition late_messages : list message :=
  [ stream_msg "msg-0" ("A" ++ LF);
    status_msg "msg-0" "idle";
    status_msg "msg-1" "busy";
    stream_msg "msg-1" ("B" ++ LF) ].

Definition answers_late : Kernel :=
  kernel 9
    ([None; None; None] ++ map Some late_messages
       ++ [Some (status_msg "msg-1" "idle")])%list
    [].

(** The interpreter raises a [NameError]. *)
Definition name_error : message :=
  error_msg "msg-0" "NameError" "name 'non_existent_variable' is not defined"
    ["Traceback (most recent call last)";
     "NameError: name 'non_existent_variable' is not defined"].

Definition raises_name_error : Kernel :=
  kernel 5
    [ None; Some (status_msg "msg-0" "busy"); Some name_error;
      Some (status_msg "msg-0" "idle") ]
    [].

(** The channel stays silent; the process outlives the wait, or dies
    during it. *)
Definition silent_alive : Kernel := kernel 5 [] [].
Definition silent_dying : Kernel := kernel 1 [] [].

(** The process has died. *)
Definition dead : Kernel := kernel 0 [] [].

(** The process is alive, and its restart fails. *)
Definition restart_fails : Kernel := kernel 5 [] [None].

(** The process has died, and its restart fails. *)
Definition dead_beyond_restart : Kernel := kernel 0 [] [None].

(** A server whose first kernel comes up and then fails the bootstrap
    snippet with an [ImportError]. *)
Definition bootstrap_fails : state :=
  {| sessions := ∅; store := []; clock := [100; 101; 102]%Q;
     spawn :=
       [Some (kernel 20
                [ Some (status_msg "msg-0" "idle"); None; None;
                  Some (error_msg "msg-1" "ImportError" "No module named pandas" []) ]
                [])];
     pip := installer_succeeds; pip_runs := 0; files := ∅; trace := [];
     raising := fun _ => false |}.

(** Two sessions: "old" was last used at 1000, "recent" at 5000. *)
Definition two_sessions (readings : list Q) : state :=
  {| sessions :=
       {[ "old" := {| controller := 0; created_at := 900;
                      last_activity := 1000 |};
          "recent" := {| controller := 1; created_at := 900;
                         last_activity := 5000 |} ]};
     store := [ready_controller silent_alive; ready_controller silent_alive];
     clock := readings;
     spawn := [];
     pip := installer_succeeds; pip_runs := 0; files := ∅; trace := [];
     raising := fun _ => false |}.

End Scenario.

(** ** Further scenarios *)

(** Controllers at other moments of their life, for the examples at the end
    of the file. *)
Module Lifecycle.

Import Scenario.

(** A controller whose kernel was started and which has not been declared
    ready. *)
Definition unready_controller (k : Kernel) : JupyterController :=
  {| folder_path := "/mnt/jupyter_sessions/c";
     notebook_path := Some "/mnt/jupyter_sessions/c/notebook_c.ipynb";
     kernel_manager := Some k; kernel_client := true; _kernel_ready := false |}.

(** The session "c" on such a controller. *)
Definition waiting (k : Kernel) (readings : list Q) : state :=
  {| sessions := {[ "c" := registered ]};
     store := [unready_controller k];
     clock := readings;
     spawn := [];
     pip := installer_succeeds; pip_runs := 0;
     files := {[ "/mnt/jupyter_sessions/c/notebook_c.ipynb" ]};
     trace := []; raising := fun _ => false |}.

(** A controller that was made for the conversation "c" and not brought up
    yet, on a server whose next kernel comes up. *)
Definition made : JupyterController :=
  {| folder_path := "/mnt/jupyter_sessions/c"; notebook_path := None;
     kernel_manager := None; kernel_client := false; _kernel_ready := false |}.

Definition bringing_up : state :=
  {| sessions := ∅; store := [made]; clock := [100; 101]%Q;
     spawn := [Some first_kernel];
     pip := installer_succeeds; pip_runs := 0; files := ∅; trace := [];
     raising := fun _ => false |}.

(** The channel still holds the late output of an earlier request when the
    next one arrives. *)
Definition late_output : list message :=
  [ stream_msg "msg-earlier" "late output";
    status_msg "msg-earlier" "idle" ].

Definition answer : list (option message) :=
  [ Some (stream_msg "msg-0" "fresh"); Some (status_msg "msg-0" "idle") ].

Definition stale_then_answer : Kernel :=
  kernel 5 (map Some late_output ++ None :: answer)%list [].

(** A kernel whose restart succeeds: silent during the probe, it answers
    the bootstrap snippet that follows. *)
Definition restartable : Kernel :=
  kernel 5
    [ None; None; None;
      Some (stream_msg "msg-1" "Re-running initial imports after manual reset.");
      Some (status_msg "msg-1" "idle") ]
    [Some 9].

(** A kernel that answers one request without output. *)
Definition answers_once : Kernel :=
  kernel 9 [None; Some (status_msg "msg-0" "idle")] [].

(** The session "c" on a server whose teardown calls all raise. *)
Definition teardown_raises (k : Kernel) : state :=
  {| sessions := {[ "c" := registered ]};
     store := [ready_controller k];
     clock := [];
     spawn := [];
     pip := installer_succeeds; pip_runs := 0;
     files := {[ "/mnt/jupyter_sessions/c/notebook_c.ipynb" ]};
     trace := []; raising := fun _ => true |}.

End Lifecycle.

(** ** The server *)

Section Server.

(** [str(e)] of an exception and [str(d)] of an [HTTPException] detail, as
    the f-strings of the source render them: Python's and the web
    framework's business, so they are parameters here. *)
Variable str_exn : exn -> string.
Variable str_detail : detail -> string.

(** *** Calls on the kernel manager and its client *)

(** [kernel_manager.is_alive()]. *)
Definition is_alive (self : loc) : M bool :=
  k <- the_kernel self ;;
  match life k with
  | O => ret false
  | S n => update self (set_kernel_manager (set_life n k)) ;; ret true
  end.

(** [self.kernel_manager and self.kernel_manager.is_alive()]. *)
Definition manager_and_alive (self : loc) : M bool :=
  c <- deref self ;;
  match kernel_manager c with
  | None => ret false
  | Some _ => is_alive self
  end.

(** [kernel_client.execute(src)]: submits the code and returns its token. *)
Definition kc_execute (self : loc) (src : string) : M string :=
  k <- the_kernel self ;;
  update self (set_kernel_manager (set_submitted (S (submitted k)) k)) ;;
  emit (Execute self src) ;;
  ret (msg_ids k (submitted k)).

(** A loop that only reads the output channel runs on the queue of the
    kernel and leaves what it has not consumed. *)
Definition on_iopub {A} (self : loc)
  (f : list (option message) -> A * list (option message)) : M A :=
  k <- the_kernel self ;;
  let '(a, q) := f (iopub k) in
  update self (set_kernel_manager (set_iopub q k)) ;;
  ret a.

(** [kernel_client.stop_channels()]. *)
Definition stop_channels (self : loc) : M unit :=
  emit (StopChannels self) ;;
  st <- get_state ;;
  if raising st (StopChannels self) then raise (RuntimeError "stop_channels")
  else ret tt.

(** [kernel_manager.shutdown_kernel(now=True)]: the process is gone when
    the call returns; a call that raises leaves it as it was. *)
Definition shutdown_kernel (self : loc) : M unit :=
  k <- the_kernel self ;;
  st <- get_state ;;
  if raising st (ShutdownKernel self) then
    emit (ShutdownKernel self) ;;
    raise (RuntimeError "shutdown_kernel")
  else
    update self (set_kernel_manager (set_life 0 k)) ;;
    emit (ShutdownKernel self).

(** [os.remove(path)] on a file that exists: the file is gone when the call
    returns; a call that raises leaves it. *)
Definition os_remove (path : string) : M unit :=
  st <- get_state ;;
  if raising st (RemoveNotebook path) then
    emit (RemoveNotebook path) ;;
    raise (OSError "remove")
  else
    modify (with_files (fun fs => fs ∖ {[ path ]})) ;;
    emit (RemoveNotebook path).

(** A manager whose process was never brought up. *)
Definition no_process : Kernel :=
  {| life := 0; iopub := []; msg_ids := fun _ => ""; submitted := 0;
     restarts := [] |}.

(** [self.kernel_manager = KernelManager(); self.kernel_manager.start_kernel()]. *)
Definition start_kernel (self : loc) : M unit :=
  emit (StartKernel self) ;;
  st <- get_state ;;
  match spawn st with
  | Some k :: rest =>
      modify (with_spawn rest) ;; update self (set_kernel_manager k)
  | None :: rest =>
      modify (with_spawn rest) ;;
      update self (set_kernel_manager no_process) ;;
      raise (OSError "start_kernel")
  | [] =>
      update self (set_kernel_manager no_process) ;;
      raise (OSError "start_kernel")
  end.

(** [kernel_manager.restart_kernel()]. *)
Definition restart_kernel (self : loc) : M unit :=
  emit (RestartKernel self) ;;
  k <- the_kernel self ;;
  match restarts k with
  | Some n :: r =>
      update self (set_kernel_manager (set_restarts r (set_life n k)))
  | None :: r =>
      update self (set_kernel_manager (set_restarts r k)) ;;
      raise (OSError "restart_kernel")
  | [] => raise (OSError "restart_kernel")
  end.

(** *** JupyterController *)

(** [_clear_output_queue]: reads until the channel is empty. *)
Fixpoint drain (q : list (option message)) : list (option message) :=
  match q with
  | Some _ :: q' => drain q'
  | None :: q' => q'
  | [] => []
  end.

Definition _clear_output_queue (self : loc) : M unit :=
  on_iopub self (fun q => (tt, drain q)).

(** The inner loop of [_wait_for_kernel_ready]: reads until an idle status
    (of any request) or an empty channel. *)
Fixpoint until_idle (q : list (option message))
  : outcome unit * list (option message) :=
  match q with
  | [] => (Return tt, [])
  | None :: q' => (Return tt, q')
  | Some msg :: q' =>
      if String.eqb (msg_type msg) "status" then
        match execution_state (content msg) with
        | None => (Raise (KeyError "execution_state"), q')
        | Some s => if String.eqb s "idle" then (Return tt, q') else until_idle q'
        end
      else until_idle q'
  end.

(** The [try] block of the polling loop; [true] when it reaches [break]. *)
Definition probe (self : loc) : M bool :=
  alive <- manager_and_alive self ;;
  if alive then
    kc_execute self "1+1" ;;
    r <- on_iopub self until_idle ;;
    match r with
    | Return _ => update self (set_kernel_ready true) ;; ret true
    | Raise e => raise e
    | Pending => pending
    end
  else ret false.

(** The [while not self._kernel_ready] loop.  Every turn reads the clock, so
    the turns are bounded by the readings the scenario has left. *)
Fixpoint wait_loop (fuel : nat) (self : loc) (start_time timeout : Q)
  : M unit :=
  c <- deref self ;;
  if _kernel_ready c then ret tt
  else
    match fuel with
    | O => pending
    | S fuel' =>
        now <- time_time ;;
        if Qgtb (now - start_time) timeout then
          raise (TimeoutError "Kernel failed to start within timeout period")
        else
          done <- try_except (probe self) (fun _ => ret false) ;;
          if done then ret tt
          else wait_loop fuel' self start_time timeout
    end.

Definition _wait_for_kernel_ready (self : loc) (timeout : Q) : M unit :=
  start_time <- time_time ;;
  st <- get_state ;;
  wait_loop (S (length (clock st))) self start_time timeout.

(** [os.path.join(a, b)] for two components. *)
Definition os_path_join (a b : string) : string :=
  match b with
  | String "/" _ => b
  | _ =>
      match a with
      | EmptyString => b
      | _ => if String.eqb (substring (String.length a - 1) 1 a) "/"
             then a ++ b else a ++ "/" ++ b
      end
  end.

Definition create_notebook (self : loc) (notebook_name : string) : M string :=
  c <- deref self ;;
  let path := os_path_join (folder_path c) (notebook_name ++ ".ipynb") in
  update self (set_notebook_path path) ;;
  modify (with_files (fun fs => {[ path ]} ∪ fs)) ;;
  start_kernel self ;;
  update self set_kernel_client ;;
  _wait_for_kernel_ready self 30 ;;
  _clear_output_queue self ;;
  ret path.

(** What one turn of the consumption loop of [execute_code] does with the
    message it has read: go on with the outputs collected so far, leave the
    loop, or raise. *)
Inductive step :=
| Next (outputs : list string)
| Break
| Throw (e : exn).

Definition on_message (msg_id : string) (outputs : list string)
  (msg : message) : step :=
  let content := content msg in
  if String.eqb (msg_type msg) "stream" then
    match text content with
    | Some t => Next (outputs ++ [t])
    | None => Throw (KeyError "text")
    end
  else if String.eqb (msg_type msg) "execute_result" then
    match data content with
    | Some d => Next (outputs ++ [default "" (dict_get "text/plain" d)])
    | None => Throw (KeyError "data")
    end
  else if String.eqb (msg_type msg) "display_data" then
    match data content with
    | Some d =>
        if dict_has "image/png" d then
          Next (outputs ++ ["[Image data: base64 PNG omitted]"])
        else if dict_has "text/html" d then
          Next (outputs ++ ["[HTML data omitted]"])
        else
          let text_data := default "" (dict_get "text/plain" d) in
          if truthy text_data then Next (outputs ++ [text_data])
          else Next outputs
    | None => Throw (KeyError "data")
    end
  else if String.eqb (msg_type msg) "error" then
    let error_detail :=
      DetailError "Execution error"
        (default "UnknownError" (ename content))
        (default "Unknown error value" (evalue content))
        (default [] (traceback content)) in
    Throw (HTTPException 400 error_detail)
  else if String.eqb (msg_type msg) "status" then
    match execution_state content with
    | None => Throw (KeyError "execution_state")
    | Some s =>
        if String.eqb s "idle" then
          match parent_msg_id msg with
          | None => Throw (KeyError "msg_id")
          | Some p => if String.eqb p msg_id then Break else Next outputs
          end
        else Next outputs
    end
  else Next outputs.

(** How the [while True] loop ends: by [break] with the outputs collected,
    or by an exception raised inside its [try] block, [queue.Empty] from
    [get_iopub_msg(timeout=20)] included. *)
Inductive loop_end :=
| Broke (outputs : list string)
| Threw (e : exn).

Fixpoint consume (msg_id : string) (outputs : list string)
  (q : list (option message)) : loop_end * list (option message) :=
  match q with
  | [] => (Threw QueueEmpty, [])
  | None :: q' => (Threw QueueEmpty, q')
  | Some msg :: q' =>
      match on_message msg_id outputs msg with
      | Next outputs' => consume msg_id outputs' q'
      | Break => (Broke outputs, q')
      | Throw e => (Threw e, q')
      end
  end.

(** The guard at the head of [execute_code]. *)
Definition ensure_ready (self : loc) : M unit :=
  c <- deref self ;;
  if negb (_kernel_ready c) then
    try_except (_wait_for_kernel_ready self 5)
      (fun e =>
         if is_TimeoutError e then
           raise (RuntimeError
             "Kernel not ready. Please wait for initialization or restart session.")
         else raise e) ;;
    c' <- deref self ;;
    if negb (_kernel_ready c') then
      raise (RuntimeError
        "Kernel not ready after waiting. Please restart session.")
    else ret tt
  else ret tt.

(** [execute_code] from the submission on: submit, consume the output
    channel, and turn the way the loop ended into the result. *)
Definition correlate (self : loc) (src : string) : M string :=
  msg_id <- kc_execute self src ;;
  ending <- on_iopub self (consume msg_id []) ;;
  match ending with
  | Broke outputs =>
      ret (match outputs with [] => "" | _ => strip (join LF outputs) end)
  | Threw e =>
      if is_QueueEmpty e then
        (* except queue.Empty *)
        still_alive <- is_alive self ;;
        if negb still_alive then
          update self (set_kernel_ready false) ;;
          raise (RuntimeError
            "Kernel died during execution. Please restart session.")
        else
          raise (HTTPException 408 (DetailStr
            "Code execution timed out waiting for response from kernel."))
      else
        (* except Exception as e *)
        raise (HTTPException 500 (DetailStr
          ("Internal error processing kernel output: " ++ str_exn e)))
  end.

Definition execute_code (self : loc) (src : string) : M string :=
  ensure_ready self ;;
  alive <- is_alive self ;;
  (if negb alive then
     update self (set_kernel_ready false) ;;
     raise (RuntimeError "Kernel died. Please restart session.")
   else ret tt) ;;
  _clear_output_queue self ;;
  correlate self src.

(** [cleanup]: each of the three steps runs in a [try] of its own, whose
    [except Exception] clause prints the error and goes on with the next
    step. *)
Definition cleanup (self : loc) : M unit :=
  c <- deref self ;;
  (if kernel_client c then
     try_except (stop_channels self) (fun e => ret tt)
   else ret tt) ;;
  (match kernel_manager c with
   | Some _ =>
       try_except
         (alive <- is_alive self ;;
          if alive then shutdown_kernel self else ret tt)
         (fun e => ret tt)
   | None => ret tt
   end) ;;
  match notebook_path c with
  | Some p =>
      st <- get_state ;;
      if decide (p ∈ files st) then
        try_except (os_remove p) (fun e => ret tt)
      else ret tt
  | None => ret tt
  end.

Definition reset_kernel (self : loc) : M unit :=
  c <- deref self ;;
  match kernel_manager c with
  | None => ret tt
  | Some _ =>
      update self (set_kernel_ready false) ;;
      try_except
        (restart_kernel self ;;
         _wait_for_kernel_ready self 30 ;;
         _clear_output_queue self)
        (fun e =>
           cleanup self ;;
           raise (RuntimeError ("Failed to reset kernel: " ++ str_exn e)))
  end.

(** *** The registry and its helpers *)

Definition SESSIONS_FOLDER : string := "/mnt/jupyter_sessions".

(** The double quote, for the code snippets that contain one. *)
Definition DQ : string := String (ascii_of_nat 34) EmptyString.

(** A triple-quoted snippet: a line feed, the lines, and the indentation of
    the closing quotes. *)
Definition snippet (lines : list string) (indent : string) : string :=
  LF ++ join LF lines ++ LF ++ indent.

Definition setup_code : string :=
  snippet
    [ "import pandas as pd";
      "import numpy as np";
      "import matplotlib.pyplot as plt";
      "import os";
      "# Set backend for matplotlib to Agg to avoid GUI issues in non-interactive env";
      "import matplotlib";
      "matplotlib.use('Agg')";
      "print(" ++ DQ ++ "Initial imports (pandas, numpy, matplotlib, os) loaded."
        ++ DQ ++ ")" ]
    "        ".

Definition reset_setup_code (announce indent : string) : string :=
  snippet
    [ "import pandas as pd";
      "import numpy as np";
      "import matplotlib.pyplot as plt";
      "import os";
      "import matplotlib";
      "matplotlib.use('Agg')";
      "print(" ++ DQ ++ announce ++ DQ ++ ")" ]
    indent.

(** [del sessions[conversation_id]]. *)
Definition del_session (conversation_id : string) : M unit :=
  st <- get_state ;;
  match sessions st !! conversation_id with
  | Some _ => modify (with_sessions (delete conversation_id))
  | None => raise (KeyError conversation_id)
  end.

(** [JupyterController(folder_path)]: a new object in the store. *)
Definition new_controller (folder : string) : M loc :=
  st <- get_state ;;
  modify (with_store (fun h => (h ++
    [ {| folder_path := folder; notebook_path := None; kernel_manager := None;
         kernel_client := false; _kernel_ready := false |} ])%list)) ;;
  ret (length (store st)).

Definition _create_session (conversation_id : string) : M SessionInfo :=
  st <- get_state ;;
  (match sessions st !! conversation_id with
   | Some existing =>
       cleanup (controller existing) ;;
       del_session conversation_id
   | None => ret tt
   end) ;;
  let session_folder := os_path_join SESSIONS_FOLDER conversation_id in
  controller <- new_controller session_folder ;;
  try_except
    (create_notebook controller ("notebook_" ++ conversation_id) ;;
     now <- time_time ;;
     let session_info :=
       {| controller := controller; created_at := now; last_activity := now |} in
     modify (with_sessions <[conversation_id := session_info]>) ;;
     try_except
       (execute_code controller setup_code ;; ret tt)
       (fun setup_error =>
          cleanup controller ;;
          del_session conversation_id ;;
          raise (HTTPException 500 (DetailStr
            ("Failed to initialize session environment: "
               ++ str_exn setup_error)))) ;;
     ret session_info)
    (fun e =>
       cleanup controller ;;
       raise (HTTPException 500 (DetailStr
         ("Failed to create session: " ++ str_exn e)))).

(** [s.split(sep)[0]]: what precedes the first [sep], all of [s] without. *)
Definition before (sep s : string) : string :=
  match index 0 sep s with
  | Some n => substring 0 n s
  | None => s
  end.

(** [s.replace('-', '_')]. *)
Fixpoint dashes_to_underscores (s : string) : string :=
  match s with
  | EmptyString => EmptyString
  | String c s' =>
      String (if Ascii.eqb c "-" then "_"%char else c) (dashes_to_underscores s')
  end.

Definition import_name_of (package_name : string) : string :=
  dashes_to_underscores
    (before ">" (before "<" (before "==" (before "[" package_name)))).

(** [subprocess.run(["python", "-m", "pip", "install", package_name], ...)]. *)
Definition pip_install (package_name : string) : M (Z * string * string) :=
  emit (PipInstall package_name) ;;
  st <- get_state ;;
  modify (with_pip_runs (S (pip_runs st))) ;;
  match pip st (pip_runs st) package_name with
  | Completed returncode stdout stderr => ret (returncode, stdout, stderr)
  | PipTimeoutExpired => raise TimeoutExpired
  | PipRaises msg => raise (OSError msg)
  end.

(** The body of the [for package_name in dependencies] loop, for a name that
    is not empty. *)
Definition install_one (controller : loc) (package_name : string) : M unit :=
  try_except
    (result <- pip_install package_name ;;
     let '(returncode, stdout, stderr) := result in
     (if negb (returncode =? 0)%Z then
        raise (HTTPException 400 (DetailStr
          ("Failed to install dependency '" ++ package_name ++ "': "
             ++ (if truthy stderr then stderr else stdout))))
      else ret tt) ;;
     let import_name := import_name_of package_name in
     let import_code := "import " ++ import_name in
     try_except
       (execute_code controller import_code ;; ret tt)
       (fun import_error =>
          match import_error with
          | HTTPException _ d =>
              raise (HTTPException 400 (DetailStr
                ("Package '" ++ package_name
                   ++ "' installed but failed to import in kernel: "
                   ++ str_detail d)))
          | _ => raise import_error
          end))
    (fun e =>
       if is_TimeoutExpired e then
         raise (HTTPException 408 (DetailStr
           ("Package installation timed out for '" ++ package_name ++ "'")))
       else if is_HTTPException e then raise e
       else
         raise (HTTPException 500 (DetailStr
           ("Unexpected error installing dependency '" ++ package_name
              ++ "': " ++ str_exn e)))).

Fixpoint install_each (controller : loc) (dependencies : list string)
  : M unit :=
  match dependencies with
  | [] => ret tt
  | package_name :: rest =>
      if negb (truthy package_name) then install_each controller rest
      else install_one controller package_name ;; install_each controller rest
  end.

Definition _install_dependencies (session_info : SessionInfo)
  (dependencies : list string) : M unit :=
  match dependencies with
  | [] => ret tt
  | _ => install_each (controller session_info) dependencies
  end.

(** [reset_kernel()] followed by the bootstrap snippet, as [get_session]
    runs them inside one [try]; when either raises, the session is torn
    down, removed from the registry, and the request fails with [failure]. *)
Definition reset_or_remove (conversation_id : string) (controller : loc)
  (indent failure : string) : M unit :=
  try_except
    (reset_kernel controller ;;
     execute_code controller
       (reset_setup_code "Re-running initial imports after kernel reset." indent) ;;
     ret tt)
    (fun reset_error =>
       cleanup controller ;;
       del_session conversation_id ;;
       raise (HTTPException 500 (DetailStr failure))).

Definition get_session (conversation_id : string) : M SessionInfo :=
  st <- get_state ;;
  match sessions st !! conversation_id with
  | None =>
      raise (HTTPException 404 (DetailStr
        ("Session '" ++ conversation_id
           ++ "' not found. Please start a new session or check the ID.")))
  | Some found =>
      now <- time_time ;;
      let session_info := set_last_activity now found in
      modify (with_sessions <[conversation_id := session_info]>) ;;
      let controller := controller session_info in
      alive <- manager_and_alive controller ;;
      if negb alive then
        update controller (set_kernel_ready false) ;;
        reset_or_remove conversation_id controller "             "
          ("Kernel for session '" ++ conversation_id
             ++ "' died and could not be reset. Please start a new session.") ;;
        ret session_info
      else
        c <- deref controller ;;
        if negb (_kernel_ready c) then
          try_except (_wait_for_kernel_ready controller 15)
            (fun e =>
               if is_TimeoutError e then
                 reset_or_remove conversation_id controller "                "
                   ("Kernel for session '" ++ conversation_id
                      ++ "' failed to become ready and could not be reset. Please start a new session.")
               else raise e) ;;
          ret session_info
        else ret session_info
  end.

(** *** The inactivity sweep *)

(** [current_time - session_info.last_activity > 3600]. *)
Definition inactive (current_time : Q) (session_info : SessionInfo) : bool :=
  Qgtb (current_time - last_activity session_info) 3600.

(** [list(sessions.keys())], in the order of the map rather than in the
    insertion order of the dict; only the order in which the teardown tasks
    are created depends on it. *)
Definition keys (m : gmap string SessionInfo) : list string :=
  (map_to_list m).*1.

(** The first loop of a cycle: the ids to remove, among the ids of the
    snapshot that are still registered. *)
Fixpoint collect (current_time : Q) (m : gmap string SessionInfo)
  (session_ids : list string) (to_remove : list string) : list string :=
  match session_ids with
  | [] => to_remove
  | conversation_id :: rest =>
      match m !! conversation_id with
      | Some session_info =>
          if inactive current_time session_info
          then collect current_time m rest (to_remove ++ [conversation_id])%list
          else collect current_time m rest to_remove
      | None => collect current_time m rest to_remove
      end
  end.

(** The second loop: pop each id that is still registered and hand its
    teardown to a task of its own. *)
Fixpoint remove_each (to_remove : list string) : M unit :=
  match to_remove with
  | [] => ret tt
  | conversation_id :: rest =>
      st <- get_state ;;
      (match sessions st !! conversation_id with
       | Some session_info =>
           modify (with_sessions (delete conversation_id)) ;;
           emit (CleanupTask (controller session_info))
       | None => ret tt
       end) ;;
      remove_each rest
  end.

(** One cycle of [cleanup_inactive_sessions], after its sleep. *)
Definition sweep : M unit :=
  current_time <- time_time ;;
  st <- get_state ;;
  let session_ids := keys (sessions st) in
  let to_remove := collect current_time (sessions st) session_ids [] in
  remove_each to_remove.

(** The task itself, for a number of cycles. *)
Fixpoint cleanup_inactive_sessions (cycles : nat) : M unit :=
  match cycles with
  | O => ret tt
  | S n => sweep ;; cleanup_inactive_sessions n
  end.

(** *** The request handlers *)

Record RunRequest := {
  conversation_id : string;
  code : string;
  dependencies : list string
}.

(** [POST /run]; the value returned is the [output] of the response. *)
Definition run_code_in_session (request : RunRequest) : M string :=
  let conversation_id := conversation_id request in
  try_except
    (st <- get_state ;;
     session_info <-
       (match sessions st !! conversation_id with
        | Some _ => get_session conversation_id
        | None => _create_session conversation_id
        end) ;;
     (match dependencies request with
      | [] => ret tt
      | _ => _install_dependencies session_info (dependencies request)
      end) ;;
     output <- execute_code (controller session_info) (code request) ;;
     ret output)
    (fun e =>
       if is_HTTPException e then raise e
       else
         raise (HTTPException 500 (DetailStr
           ("An unexpected internal server error occurred: " ++ str_exn e)))).

(** [POST /reset]; the value returned is the [message] of the response. *)
Definition reset_session (conversation_id : string) : M string :=
  try_except
    (session_info <- get_session conversation_id ;;
     reset_kernel (controller session_info) ;;
     try_except
       (execute_code (controller session_info)
          (reset_setup_code "Re-running initial imports after manual reset."
             "        ") ;;
        ret tt)
       (fun setup_error =>
          (* Session might be unstable, but don't kill it automatically here *)
          raise (HTTPException 500 (DetailStr
            ("Kernel reset, but failed to re-initialize environment: "
               ++ str_exn setup_error)))) ;;
     ret ("Kernel for session '" ++ conversation_id ++ "' reset successful"))
    (fun e =>
       if is_HTTPException e then raise e
       else
         raise (HTTPException 500 (DetailStr
           ("Failed to reset session '" ++ conversation_id ++ "': "
              ++ str_exn e)))).

(** [POST /end_session]. *)
Definition end_session (conversation_id : string) : M string :=
  st <- get_state ;;
  match sessions st !! conversation_id with
  | None =>
      raise (HTTPException 404 (DetailStr
        ("Session '" ++ conversation_id ++ "' not found.")))
  | Some session_info =>
      modify (with_sessions (delete conversation_id)) ;;
      emit (CleanupTask (controller session_info)) ;;
      ret ("Session '" ++ conversation_id
             ++ "' ended successfully and cleanup initiated.")
  end.

(** ** Vocabulary of the statements *)

(** The idle status that answers the request [msg_id]. *)
Definition is_idle_for (msg_id : string) (m : message) : bool :=
  String.eqb (msg_type m) "status"
  && match execution_state (content m) with
     | Some s => String.eqb s "idle"
     | None => false
     end
  && match parent_msg_id m with
     | Some p => String.eqb p msg_id
     | None => false
     end.

(** An idle status that carries a token, but not [msg_id]. *)
Definition is_idle_for_other (msg_id : string) (m : message) : bool :=
  String.eqb (msg_type m) "status"
  && match execution_state (content m) with
     | Some s => String.eqb s "idle"
     | None => false
     end
  && match parent_msg_id m with
     | Some p => negb (String.eqb p msg_id)
     | None => false
     end.

Definition is_error (m : message) : bool := String.eqb (msg_type m) "error".

(** A message that lacks a key the loop subscripts. *)
Definition malformed (m : message) : bool :=
  if String.eqb (msg_type m) "stream" then
    match text (content m) with None => true | Some _ => false end
  else if String.eqb (msg_type m) "execute_result"
          || String.eqb (msg_type m) "display_data" then
    match data (content m) with None => true | Some _ => false end
  else if String.eqb (msg_type m) "status" then
    match execution_state (content m), parent_msg_id m with
    | None, _ => true
    | Some s, None => String.eqb s "idle"
    | Some _, Some _ => false
    end
  else false.

(** A message after which the loop of the request [msg_id] goes on. *)
Definition ordinary (msg_id : string) (m : message) : bool :=
  negb (is_error m) && negb (is_idle_for msg_id m) && negb (malformed m).

(** The text a message adds to the output: the text of a stream message, the
    plain rendering of a result value, and for a rich display a placeholder
    for an image or for HTML, else its plain text when it has one. *)
Definition rendered (m : message) : list string :=
  if String.eqb (msg_type m) "stream" then
    match text (content m) with Some t => [t] | None => [] end
  else if String.eqb (msg_type m) "execute_result" then
    match data (content m) with
    | Some d => [default "" (dict_get "text/plain" d)]
    | None => []
    end
  else if String.eqb (msg_type m) "display_data" then
    match data (content m) with
    | Some d =>
        if dict_has "image/png" d then ["[Image data: base64 PNG omitted]"]
        else if dict_has "text/html" d then ["[HTML data omitted]"]
        else match dict_get "text/plain" d with
             | Some (String c t) => [String c t]
             | _ => []
             end
    | None => []
    end
  else [].

(** The output as the specification words it: the texts of the stream and
    result-value messages that belong to the execution [msg_id],
    concatenated in arrival order and trimmed. *)
Definition belongs_to (msg_id : string) (m : message) : bool :=
  match parent_msg_id m with
  | Some p => String.eqb p msg_id
  | None => false
  end.

Definition stream_or_result_text (msg_id : string) (m : message)
  : list string :=
  if belongs_to msg_id m then
    if String.eqb (msg_type m) "stream" then
      match text (content m) with Some t => [t] | None => [] end
    else if String.eqb (msg_type m) "execute_result" then
      match data (content m) with
      | Some d => [default "" (dict_get "text/plain" d)]
      | None => []
      end
    else []
  else [].

Definition concatenated_output (msg_id : string) (emitted : list message)
  : string :=
  strip (String.concat "" (flat_map (stream_or_result_text msg_id) emitted)).

(** The texts that the messages of the execution [msg_id] add to the
    output, and the output made of them as the code makes it: joined with
    line feeds and trimmed. *)
Definition output_text (msg_id : string) (m : message) : list string :=
  if belongs_to msg_id m then rendered m else [].

Definition joined_output (msg_id : string) (emitted : list message)
  : string :=
  strip (join LF (flat_map (output_text msg_id) emitted)).

(** The messages of a queue, as [get_iopub_msg] hands them out. *)
Definition arrivals (pre : list message) : list (option message) :=
  map Some pre.

(** The packages handed to the installer, in the order of the calls. *)
Definition installs (tr : list action) : list string :=
  flat_map (fun a => match a with PipInstall p => [p] | _ => [] end) tr.

(** The names the loop does not skip. *)
Definition named (dependencies : list string) : list string :=
  List.filter truthy dependencies.

(** The stage an error of [_install_dependencies] speaks of for the package
    [p], read off its wording. *)
Inductive stage := InstallStage | ImportStage.

Definition install_failed (p out : string) : exn :=
  HTTPException 400 (DetailStr
    ("Failed to install dependency '" ++ p ++ "': " ++ out)).

Definition install_timed_out (p : string) : exn :=
  HTTPException 408 (DetailStr
    ("Package installation timed out for '" ++ p ++ "'")).

Definition import_failed (p why : string) : exn :=
  HTTPException 400 (DetailStr
    ("Package '" ++ p ++ "' installed but failed to import in kernel: " ++ why)).

Definition unexpected_installing (p why : string) : exn :=
  HTTPException 500 (DetailStr
    ("Unexpected error installing dependency '" ++ p ++ "': " ++ why)).

Definition speaks_of (s : stage) (p : string) (e : exn) : Prop :=
  match s with
  | InstallStage =>
      (exists out, e = install_failed p out) \/ e = install_timed_out p
      \/ (exists why, e = unexpected_installing p why)
  | ImportStage => exists why, e = import_failed p why
  end.

(** The exceptions of a call on a controller or its kernel: a missing
    object. *)
Definition from_kernel_call (e : exn) : Prop :=
  match e with AttributeError _ => True | _ => False end.

(** The exceptions of [_wait_for_kernel_ready]. *)
Definition from_wait (e : exn) : Prop :=
  match e with TimeoutError _ | AttributeError _ => True | _ => False end.

(** The exceptions of [execute_code]. *)
Definition from_execute (e : exn) : Prop :=
  match e with
  | HTTPException c _ => c = 408%Z \/ c = 500%Z
  | RuntimeError _ | AttributeError _ => True
  | _ => False
  end.

(** Any exception but the 404 answer. *)
Definition not_404 (e : exn) : Prop := status_of e <> Some 404%Z.

(** The error [_install_dependencies] ends with when the package [p] fails,
    by what the installer did for it: a failed or timed-out install is
    reported as such; after an install that succeeded the failure is the
    import, and the error follows what [execute_code] raised for it: the
    import failure for an [HTTPException], the unexpected-error report for
    anything else. *)
Definition reported_failure (p : string) (res : pip_result) (e : exn) : Prop :=
  match res with
  | Completed returncode stdout stderr =>
      if (returncode =? 0)%Z then
        exists raised,
          from_execute raised
          /\ match raised with
             | HTTPException _ d => e = import_failed p (str_detail d)
             | _ => e = unexpected_installing p (str_exn raised)
             end
      else e = install_failed p (if truthy stderr then stderr else stdout)
  | PipTimeoutExpired => e = install_timed_out p
  | PipRaises msg => e = unexpected_installing p (str_exn (OSError msg))
  end.

(** What [_install_dependencies] adds to the trace: installs and
    submissions, and nothing that restarts or tears down a kernel. *)
Definition is_install_or_Execute (a : action) : Prop :=
  match a with PipInstall _ | Execute _ _ => True | _ => False end.

(** The status code a call answers with when it raises an [HTTPException]. *)
Definition answered_status {A} (r : outcome A) : option Z :=
  match r with
  | Raise e => status_of e
  | _ => None
  end.

Definition not_found (conversation_id : string) : exn :=
  HTTPException 404 (DetailStr
    ("Session '" ++ conversation_id
       ++ "' not found. Please start a new session or check the ID.")).


(** *** Relations between the state before and after a call *)

(** What a call can raise. *)
Definition raises_only {A} (P : exn -> Prop) (m : M A) : Prop :=
  forall st e st', m st = (Raise e, st') -> P e.

(** A relation every run of a call satisfies. *)
Definition preserves {A} (R : state -> state -> Prop) (m : M A) : Prop :=
  forall st, R st (snd (m st)).

(** A call that does not wait: it returns or raises, whatever the clock has
    left. *)
Definition never_pending {A} (m : M A) : Prop :=
  forall st st', m st <> (Pending, st').

Definition is_Execute (a : action) : Prop :=
  match a with Execute _ _ => True | _ => False end.

(** The call only talks to kernels: the registry, the installer and the
    files are as before, and what it adds to the trace are submissions. *)
Definition kernel_calls_only (st st' : state) : Prop :=
  sessions st' = sessions st /\ pip st' = pip st
  /\ pip_runs st' = pip_runs st /\ files st' = files st
  /\ exists l, trace st' = (trace st ++ l)%list /\ Forall is_Execute l.

(** The call leaves the registry alone. *)
Definition registry_untouched (st st' : state) : Prop :=
  sessions st' = sessions st
  /\ exists l, trace st' = (trace st ++ l)%list.

(** The trace only grows. *)
Definition trace_grows (st st' : state) : Prop :=
  exists l, trace st' = (trace st ++ l)%list.

(** No controller is allocated. *)
Definition store_kept (st st' : state) : Prop :=
  length (store st') = length (store st).

(** The call leaves every controller but [self] as it was. *)
Definition only_controller (self : loc) (st st' : state) : Prop :=
  forall l, l <> self -> store st' !! l = store st !! l.

(** The call keeps the files and every controller, with its folder, its
    notebook path and its client; a controller that has a manager still has
    one. *)
Definition controllers_persist (st st' : state) : Prop :=
  files st' = files st
  /\ forall l c,
       store st !! l = Some c ->
       exists c', store st' !! l = Some c'
                  /\ folder_path c' = folder_path c
                  /\ notebook_path c' = notebook_path c
                  /\ kernel_client c' = kernel_client c
                  /\ (is_Some (kernel_manager c)
                      -> is_Some (kernel_manager c')).

(** The call does not change which of the teardown calls raise. *)
Definition raising_kept (st st' : state) : Prop := raising st' = raising st.

(** The call leaves the registry entries of every conversation but
    [conversation_id] as they were. *)
Definition other_sessions_kept (conversation_id : string) (st st' : state)
  : Prop :=
  forall other, other <> conversation_id ->
    sessions st' !! other = sessions st !! other.

(** The process behind a controller is not running: no manager was made, or
    its process has died or was shut down. *)
Definition not_running (c : JupyterController) : Prop :=
  match kernel_manager c with
  | Some k => life k = 0
  | None => True
  end.

(** A status message without the [execution_state] key, at which the read
    loop of the readiness probe raises. *)
Definition lacks_state (m : message) : bool :=
  String.eqb (msg_type m) "status"
  && match execution_state (content m) with None => true | Some _ => false end.

(** What the consumption loop of [execute_code] raises inside its [try],
    the empty read apart: a missing key of a message, or the 400 exception
    it builds for an error message. *)
Definition loop_failure (cause : exn) : Prop :=
  (exists key, cause = KeyError key)
  \/ exists ename evalue traceback,
       cause = HTTPException 400
                 (DetailError "Execution error" ename evalue traceback).

(** The ways [execute_code] fails. *)
Definition execute_failure (e : exn) : Prop :=
  e = RuntimeError
        "Kernel not ready. Please wait for initialization or restart session."
  \/ e = RuntimeError "Kernel died. Please restart session."
  \/ e = RuntimeError "Kernel died during execution. Please restart session."
  \/ e = HTTPException 408 (DetailStr
           "Code execution timed out waiting for response from kernel.")
  \/ (exists cause,
        loop_failure cause
        /\ e = HTTPException 500 (DetailStr
                 ("Internal error processing kernel output: "
                    ++ str_exn cause)))
  \/ from_kernel_call e.

(** An exception that, if it is an HTTP answer, has its status among
    [codes]. *)
Definition http_among (codes : list Z) (e : exn) : Prop :=
  match e with
  | HTTPException c _ => In c codes
  | _ => True
  end.

(** An HTTP answer with its status among [codes]. *)
Definition answers (codes : list Z) (e : exn) : Prop :=
  match e with
  | HTTPException c _ => In c codes
  | _ => False
  end.

(** The session registered under an id has been idle for more than an hour
    at [current_time]. *)
Definition expired (current_time : Q) (m : gmap string SessionInfo)
  (conversation_id : string) : bool :=
  match m !! conversation_id with
  | Some session_info => inactive current_time session_info
  | None => false
  end.

(** The teardown tasks of the sessions registered under [ids], one for the
    controller of each. *)
Definition teardown_tasks (m : gmap string SessionInfo) (ids : list string)
  : list action :=
  flat_map
    (fun conversation_id =>
       match m !! conversation_id with
       | Some session_info => [CleanupTask (controller session_info)]
       | None => []
       end) ids.

(** The result of the consumption loop of [execute_code] as the caller
    sees it; [still_alive] is what the process answers to the poll that
    follows an empty read. *)
Definition outcome_of_loop (still_alive : bool) (ending : loop_end)
  : outcome string :=
  match ending with
  | Broke outputs =>
      Return (match outputs with [] => "" | _ => strip (join LF outputs) end)
  | Threw e =>
      if is_QueueEmpty e then
        if still_alive then
          Raise (HTTPException 408 (DetailStr
            "Code execution timed out waiting for response from kernel."))
        else
          Raise (RuntimeError
            "Kernel died during execution. Please restart session.")
      else
        Raise (HTTPException 500 (DetailStr
          ("Internal error processing kernel output: " ++ str_exn e)))
  end.

(** The next restart of the kernel raises. *)
Definition restart_raises (k : Kernel) : Prop :=
  match restarts k with
  | Some _ :: _ => False
  | _ => True
  end.

(** * Properties *)

(** ** Text *)

Lemma join_nil sep : join sep [] = "".
Proof. reflexivity. Qed.

Lemma strip_empty : strip "" = "".
Proof. reflexivity. Qed.

Lemma output_of_outputs (outputs : list string) :
  match outputs with [] => "" | _ => strip (join LF outputs) end
  = strip (join LF outputs).
Proof. destruct outputs; reflexivity. Qed.

(** ** One turn of the consumption loop *)

Lemma on_message_ordinary msg_id outputs m :
  ordinary msg_id m = true ->
  on_message msg_id outputs m = Next (outputs ++ rendered m).
Proof.
  unfold ordinary, is_error, is_idle_for, malformed, on_message, rendered.
  destruct m as [ty par [tx da en ev tb es]]; simpl.
  intros H.
  destruct (String.eqb_spec ty "stream") as [->|Hs]; simpl in *.
  { destruct tx; simpl in *; [reflexivity | discriminate]. }
  destruct (String.eqb_spec ty "execute_result") as [->|Hr]; simpl in *.
  { destruct da; simpl in *; [reflexivity | discriminate]. }
  destruct (String.eqb_spec ty "display_data") as [->|Hd]; simpl in *.
  { destruct da as [d|]; simpl in *; [| discriminate].
    destruct (dict_has "image/png" d); [reflexivity |].
    destruct (dict_has "text/html" d); [reflexivity |].
    destruct (dict_get "text/plain" d) as [[|c t]|]; simpl;
      rewrite ?app_nil_r; reflexivity. }
  destruct (String.eqb_spec ty "error") as [->|He]; simpl in *;
    [discriminate |].
  destruct (String.eqb_spec ty "status") as [->|Ht]; simpl in *;
    [| rewrite app_nil_r; reflexivity].
  destruct es as [s|]; simpl in *; [| discriminate].
  destruct (String.eqb s "idle"); simpl in *;
    [| rewrite app_nil_r; reflexivity].
  destruct par as [p|]; simpl in *; [| discriminate].
  destruct (String.eqb p msg_id); simpl in *;
    [discriminate | rewrite app_nil_r; reflexivity].
Qed.

Lemma on_message_idle msg_id outputs m :
  is_idle_for msg_id m = true -> on_message msg_id outputs m = Break.
Proof.
  unfold is_idle_for, on_message.
  destruct m as [ty par [tx da en ev tb es]]; simpl.
  destruct (String.eqb_spec ty "status") as [->|]; simpl; [| discriminate].
  destruct es as [s|]; simpl; [| discriminate].
  destruct (String.eqb s "idle"); simpl; [| discriminate].
  destruct par as [p|]; simpl; [| discriminate].
  intros ->. reflexivity.
Qed.

Lemma on_message_Break msg_id outputs m :
  on_message msg_id outputs m = Break -> is_idle_for msg_id m = true.
Proof.
  unfold is_idle_for, on_message.
  destruct m as [ty par [tx da en ev tb es]]; simpl.
  destruct (String.eqb_spec ty "stream"); [destruct tx; discriminate |].
  destruct (String.eqb_spec ty "execute_result"); [destruct da; discriminate |].
  destruct (String.eqb_spec ty "display_data").
  { destruct da as [d|]; [| discriminate].
    destruct (dict_has "image/png" d); [discriminate |].
    destruct (dict_has "text/html" d); [discriminate |].
    destruct (truthy _); discriminate. }
  destruct (String.eqb_spec ty "error"); [discriminate |].
  destruct (String.eqb_spec ty "status"); [| discriminate]. simpl.
  destruct es as [s|]; [| discriminate].
  destruct (String.eqb s "idle"); [| discriminate].
  destruct par as [p|]; [| discriminate].
  destruct (String.eqb p msg_id); [reflexivity | discriminate].
Qed.

Lemma on_message_idle_other msg_id outputs m :
  is_idle_for_other msg_id m = true ->
  on_message msg_id outputs m = Next outputs.
Proof.
  unfold is_idle_for_other, on_message.
  destruct m as [ty par [tx da en ev tb es]]; simpl.
  destruct (String.eqb_spec ty "status") as [->|]; simpl; [| discriminate].
  destruct es as [s|]; simpl; [| discriminate].
  destruct (String.eqb s "idle"); simpl; [| discriminate].
  destruct par as [p|]; simpl; [| discriminate].
  destruct (String.eqb p msg_id); [discriminate | reflexivity].
Qed.

Lemma on_message_error msg_id outputs m :
  is_error m = true ->
  on_message msg_id outputs m
  = Throw (HTTPException 400
      (DetailError "Execution error"
         (default "UnknownError" (ename (content m)))
         (default "Unknown error value" (evalue (content m)))
         (default [] (traceback (content m))))).
Proof.
  unfold is_error, on_message.
  destruct m as [ty par c]; simpl.
  destruct (String.eqb_spec ty "error") as [->|]; [| discriminate].
  reflexivity.
Qed.

(** ** The consumption loop *)

Lemma consume_ordinary msg_id pre : forall outputs q,
  forallb (ordinary msg_id) pre = true ->
  consume msg_id outputs (arrivals pre ++ q)
  = consume msg_id (outputs ++ flat_map rendered pre) q.
Proof.
  induction pre as [|m pre IH]; intros outputs q H; simpl in *.
  - rewrite app_nil_r. reflexivity.
  - apply andb_prop in H as [Hm Hpre].
    rewrite (on_message_ordinary _ _ _ Hm).
    unfold arrivals in IH. rewrite (IH _ _ Hpre).
    rewrite <- app_assoc. reflexivity.
Qed.

Lemma on_message_Next msg_id outputs outputs' m :
  on_message msg_id outputs m = Next outputs' ->
  ordinary msg_id m = true.
Proof.
  unfold ordinary, is_error, is_idle_for, malformed, on_message.
  destruct m as [ty par [tx da en ev tb es]]; simpl.
  destruct (String.eqb_spec ty "stream") as [->|Hs]; simpl.
  { destruct tx; [reflexivity | discriminate]. }
  destruct (String.eqb_spec ty "execute_result") as [->|Hr]; simpl.
  { destruct da; [reflexivity | discriminate]. }
  destruct (String.eqb_spec ty "display_data") as [->|Hd]; simpl.
  { destruct da; [reflexivity | discriminate]. }
  destruct (String.eqb_spec ty "error") as [->|He]; simpl; [discriminate |].
  destruct (String.eqb_spec ty "status") as [->|Ht]; simpl; [| reflexivity].
  destruct es as [s|]; simpl; [| discriminate].
  destruct (String.eqb s "idle"); simpl; [| destruct par; reflexivity].
  destruct par as [p|]; simpl; [| discriminate].
  destruct (String.eqb p msg_id); [discriminate | reflexivity].
Qed.

Lemma consume_Broke msg_id : forall q outputs outputs' q',
  consume msg_id outputs q = (Broke outputs', q') ->
  exists pre m,
    q = (arrivals pre ++ Some m :: q')%list
    /\ forallb (ordinary msg_id) pre = true
    /\ is_idle_for msg_id m = true
    /\ outputs' = (outputs ++ flat_map rendered pre)%list.
Proof.
  induction q as [|[m|] q IH]; intros outputs outputs' q' H; simpl in H;
    try discriminate.
  destruct (on_message msg_id outputs m) as [o| |e] eqn:Hm.
  - destruct (IH _ _ _ H) as (pre & m' & -> & Hpre & Hidle & ->).
    pose proof (on_message_Next _ _ _ _ Hm) as Hord.
    rewrite (on_message_ordinary _ outputs _ Hord) in Hm.
    inversion Hm; subst o.
    exists (m :: pre), m'. simpl. rewrite Hord, Hpre, <- app_assoc.
    repeat split; [exact Hidle].
  - inversion H; subst. exists [], m. simpl. rewrite app_nil_r.
    repeat split. eapply on_message_Break; eassumption.
  - discriminate.
Qed.

(** ** Running the calls on a controller that exists *)

Lemma bind_Return {A B} (m : M A) (k : A -> M B) st a st' :
  m st = (Return a, st') -> bind m k st = k a st'.
Proof. intros H. unfold bind. rewrite H. reflexivity. Qed.

Lemma bind_Raise {A B} (m : M A) (k : A -> M B) st e st' :
  m st = (Raise e, st') -> bind m k st = (Raise e, st').
Proof. intros H. unfold bind. rewrite H. reflexivity. Qed.

Lemma bind_Return_inv {A B} (m : M A) (k : A -> M B) st b st' :
  bind m k st = (Return b, st') ->
  exists a st1, m st = (Return a, st1) /\ k a st1 = (Return b, st').
Proof.
  unfold bind. destruct (m st) as [[a|e|] st1]; intros H; try discriminate.
  exists a, st1. split; [reflexivity | exact H].
Qed.

Lemma deref_spec self st c :
  store st !! self = Some c -> deref self st = (Return c, st).
Proof. intros H. unfold deref. rewrite H. reflexivity. Qed.

Lemma update_spec self f st c :
  store st !! self = Some c ->
  exists st', update self f st = (Return tt, st')
              /\ store st' !! self = Some (f c).
Proof.
  intros H. eexists. split; [reflexivity |]. simpl. rewrite H.
  apply list_lookup_insert_eq. eapply lookup_lt_Some; eassumption.
Qed.

Lemma the_kernel_spec self st c k :
  store st !! self = Some c -> kernel_manager c = Some k ->
  the_kernel self st = (Return k, st).
Proof.
  intros H Hk. unfold the_kernel.
  rewrite (bind_Return _ _ _ _ _ (deref_spec _ _ _ H)), Hk. reflexivity.
Qed.

Lemma is_alive_alive self st c k n :
  store st !! self = Some c -> kernel_manager c = Some k -> life k = S n ->
  exists st', is_alive self st = (Return true, st')
              /\ store st' !! self
                 = Some (set_kernel_manager (set_life n k) c).
Proof.
  intros H Hk Hl. unfold is_alive.
  rewrite (bind_Return _ _ _ _ _ (the_kernel_spec _ _ _ _ H Hk)), Hl.
  destruct (update_spec self (set_kernel_manager (set_life n k)) st c H)
    as (st' & E & L).
  exists st'. rewrite (bind_Return _ _ _ _ _ E). split; [reflexivity | exact L].
Qed.

Lemma is_alive_dead self st c k :
  store st !! self = Some c -> kernel_manager c = Some k -> life k = 0 ->
  is_alive self st = (Return false, st).
Proof.
  intros H Hk Hl. unfold is_alive.
  rewrite (bind_Return _ _ _ _ _ (the_kernel_spec _ _ _ _ H Hk)), Hl.
  reflexivity.
Qed.

Lemma on_iopub_spec {A} self
  (f : list (option message) -> A * list (option message)) st c k :
  store st !! self = Some c -> kernel_manager c = Some k ->
  exists st', on_iopub self f st = (Return (fst (f (iopub k))), st')
              /\ store st' !! self
                 = Some (set_kernel_manager (set_iopub (snd (f (iopub k))) k) c).
Proof.
  intros H Hk. unfold on_iopub.
  rewrite (bind_Return _ _ _ _ _ (the_kernel_spec _ _ _ _ H Hk)).
  destruct (f (iopub k)) as [a q]; simpl.
  destruct (update_spec self (set_kernel_manager (set_iopub q k)) st c H)
    as (st' & E & L).
  exists st'. rewrite (bind_Return _ _ _ _ _ E). split; [reflexivity | exact L].
Qed.

Lemma kc_execute_spec self src st c k :
  store st !! self = Some c -> kernel_manager c = Some k ->
  exists st', kc_execute self src st = (Return (msg_ids k (submitted k)), st')
              /\ store st' !! self
                 = Some (set_kernel_manager
                           (set_submitted (S (submitted k)) k) c).
Proof.
  intros H Hk. unfold kc_execute.
  rewrite (bind_Return _ _ _ _ _ (the_kernel_spec _ _ _ _ H Hk)).
  destruct (update_spec self
              (set_kernel_manager (set_submitted (S (submitted k)) k)) st c H)
    as (st' & E & L).
  rewrite (bind_Return _ _ _ _ _ E).
  eexists. split; [reflexivity | exact L].
Qed.

(** [execute_code] on a ready controller whose process answers the liveness
    check: the guard passes, the queue is drained, and the rest is
    [correlate] on a controller whose queue is what the drain left. *)
Lemma execute_code_ready self src st c k n :
  store st !! self = Some c -> _kernel_ready c = true ->
  kernel_manager c = Some k -> life k = S n ->
  exists st1 c1 k1,
    execute_code self src st = correlate self src st1
    /\ store st1 !! self = Some c1
    /\ kernel_manager c1 = Some k1
    /\ _kernel_ready c1 = true
    /\ life k1 = n /\ iopub k1 = drain (iopub k)
    /\ msg_ids k1 = msg_ids k /\ submitted k1 = submitted k.
Proof.
  intros H Hr Hk Hl. unfold execute_code, ensure_ready.
  rewrite (bind_Return _ _ _ tt st).
  2:{ rewrite (bind_Return _ _ _ _ _ (deref_spec _ _ _ H)), Hr. reflexivity. }
  destruct (is_alive_alive _ _ _ _ _ H Hk Hl) as (st0 & E0 & L0).
  rewrite (bind_Return _ _ _ _ _ E0). simpl negb. cbv iota.
  rewrite (bind_Return _ _ _ tt st0) by reflexivity.
  destruct (on_iopub_spec self (fun q => (tt, drain q)) st0 _ (set_life n k)
              L0 eq_refl) as (st1 & E1 & L1).
  unfold _clear_output_queue. rewrite (bind_Return _ _ _ _ _ E1).
  simpl in L1.
  eexists st1, _, _. split; [reflexivity |].
  split; [exact L1 |]. simpl. rewrite Hr. repeat split; reflexivity.
Qed.

Lemma correlate_spec self src st c k :
  store st !! self = Some c -> kernel_manager c = Some k ->
  exists st2 c2 k2,
    store st2 !! self = Some c2
    /\ kernel_manager c2 = Some k2
    /\ _kernel_ready c2 = _kernel_ready c
    /\ life k2 = life k
    /\ iopub k2 = snd (consume (msg_ids k (submitted k)) [] (iopub k))
    /\ correlate self src st
       = match fst (consume (msg_ids k (submitted k)) [] (iopub k)) with
         | Broke outputs =>
             ret (match outputs with
                  | [] => ""
                  | _ => strip (join LF outputs)
                  end)
         | Threw e =>
             if is_QueueEmpty e then
               still_alive <- is_alive self ;;
               if negb still_alive then
                 update self (set_kernel_ready false) ;;
                 raise (RuntimeError
                   "Kernel died during execution. Please restart session.")
               else
                 raise (HTTPException 408 (DetailStr
                   "Code execution timed out waiting for response from kernel."))
             else
               raise (HTTPException 500 (DetailStr
                 ("Internal error processing kernel output: " ++ str_exn e)))
         end st2.
Proof.
  intros H Hk. unfold correlate.
  destruct (kc_execute_spec self src st c k H Hk) as (st1 & E1 & L1).
  rewrite (bind_Return _ _ _ _ _ E1).
  destruct (on_iopub_spec self (consume (msg_ids k (submitted k)) []) st1 _
              (set_submitted (S (submitted k)) k) L1 eq_refl)
    as (st2 & E2 & L2).
  rewrite (bind_Return _ _ _ _ _ E2). simpl in *.
  eexists st2, _, _. split; [exact L2 |]. simpl. repeat split; reflexivity.
Qed.

(** The three ways [correlate] ends, by what the channel delivers. *)

Lemma correlate_idle self src st c k pre m rest :
  store st !! self = Some c -> kernel_manager c = Some k ->
  iopub k = (arrivals pre ++ Some m :: rest)%list ->
  forallb (ordinary (msg_ids k (submitted k))) pre = true ->
  is_idle_for (msg_ids k (submitted k)) m = true ->
  exists st', correlate self src st
              = (Return (strip (join LF (flat_map rendered pre))), st').
Proof.
  intros H Hk Hq Hpre Hm.
  destruct (correlate_spec self src st c k H Hk)
    as (st2 & c2 & k2 & _ & _ & _ & _ & _ & E).
  rewrite E, Hq, (consume_ordinary _ _ _ _ Hpre). simpl.
  rewrite (on_message_idle _ _ _ Hm). simpl.
  exists st2. unfold ret. rewrite output_of_outputs. reflexivity.
Qed.

Lemma correlate_error self src st c k pre m rest :
  store st !! self = Some c -> kernel_manager c = Some k ->
  iopub k = (arrivals pre ++ Some m :: rest)%list ->
  forallb (ordinary (msg_ids k (submitted k))) pre = true ->
  is_error m = true ->
  exists st', correlate self src st
    = (Raise (HTTPException 500 (DetailStr
         ("Internal error processing kernel output: "
            ++ str_exn (HTTPException 400
                 (DetailError "Execution error"
                    (default "UnknownError" (ename (content m)))
                    (default "Unknown error value" (evalue (content m)))
                    (default [] (traceback (content m)))))))), st').
Proof.
  intros H Hk Hq Hpre Hm.
  destruct (correlate_spec self src st c k H Hk)
    as (st2 & c2 & k2 & _ & _ & _ & _ & _ & E).
  rewrite E, Hq, (consume_ordinary _ _ _ _ Hpre). simpl.
  rewrite (on_message_error _ _ _ Hm). simpl.
  exists st2. reflexivity.
Qed.

Lemma consume_silence msg_id outputs q :
  q = [] \/ (exists rest, q = None :: rest) ->
  fst (consume msg_id outputs q) = Threw QueueEmpty.
Proof. intros [->|[rest ->]]; reflexivity. Qed.

Lemma correlate_silence self src st c k pre q :
  store st !! self = Some c -> kernel_manager c = Some k ->
  iopub k = (arrivals pre ++ q)%list ->
  forallb (ordinary (msg_ids k (submitted k))) pre = true ->
  q = [] \/ (exists rest, q = None :: rest) ->
  exists st' c',
    store st' !! self = Some c'
    /\ match life k with
       | S _ =>
           correlate self src st
           = (Raise (HTTPException 408 (DetailStr
                "Code execution timed out waiting for response from kernel.")),
              st')
           /\ _kernel_ready c' = _kernel_ready c
       | O =>
           correlate self src st
           = (Raise (RuntimeError
                "Kernel died during execution. Please restart session."), st')
           /\ _kernel_ready c' = false
           /\ exists k', kernel_manager c' = Some k' /\ life k' = 0
       end.
Proof.
  intros H Hk Hq Hpre Hsil.
  destruct (correlate_spec self src st c k H Hk)
    as (st2 & c2 & k2 & L2 & Hk2 & Hr2 & Hl2 & _ & E).
  rewrite Hq, (consume_ordinary _ _ _ _ Hpre), (consume_silence _ _ _ Hsil)
    in E.
  cbv beta iota in E.
  change (is_QueueEmpty QueueEmpty) with true in E. cbv iota in E.
  destruct (life k) as [|n] eqn:Hl.
  - rewrite (bind_Return _ _ _ _ _ (is_alive_dead _ _ _ _ L2 Hk2 Hl2)) in E.
    cbv beta in E. change (negb false) with true in E. cbv iota in E.
    destruct (update_spec self (set_kernel_ready false) st2 c2 L2)
      as (st3 & E3 & L3).
    rewrite (bind_Return _ _ _ _ _ E3) in E.
    eexists st3, _. split; [exact L3 |]. split; [exact E |].
    split; [reflexivity |]. exists k2. simpl. split; assumption.
  - destruct (is_alive_alive _ _ _ _ _ L2 Hk2 Hl2) as (st3 & E3 & L3).
    rewrite (bind_Return _ _ _ _ _ E3) in E.
    cbv beta in E. change (negb true) with false in E. cbv iota in E.
    eexists st3, _. split; [exact L3 |]. split; [exact E |].
    simpl. exact Hr2.
Qed.

(** ** What a call can raise *)

Lemma raises_only_ret {A} P (a : A) : raises_only P (ret a).
Proof. intros st e st' H. discriminate. Qed.

Lemma raises_only_pending {A} P : raises_only P (@pending A).
Proof. intros st e st' H. discriminate. Qed.

Lemma raises_only_raise {A} (P : exn -> Prop) e :
  P e -> raises_only P (@raise A e).
Proof. intros He st e' st' H. inversion H; subst. exact He. Qed.

Lemma raises_only_modify P f : raises_only P (modify f).
Proof. intros st e st' H. discriminate. Qed.

Lemma raises_only_get_state P : raises_only P get_state.
Proof. intros st e st' H. discriminate. Qed.

Lemma raises_only_bind {A B} P (m : M A) (k : A -> M B) :
  raises_only P m -> (forall a, raises_only P (k a)) ->
  raises_only P (bind m k).
Proof.
  intros Hm Hk st e st'. unfold bind.
  destruct (m st) as [[a|e0|] st1] eqn:E; intros H.
  - eapply Hk; eassumption.
  - inversion H; subst. eapply Hm; eassumption.
  - discriminate.
Qed.

Lemma raises_only_try_except {A} P (m : M A) (h : exn -> M A) :
  (forall e, raises_only P (h e)) -> raises_only P (try_except m h).
Proof.
  intros Hh st e st'. unfold try_except.
  destruct (m st) as [[a|e0|] st1] eqn:E; intros H; try discriminate.
  eapply Hh; eassumption.
Qed.

Lemma raises_only_try_except_from {A} (Q P : exn -> Prop) (m : M A)
  (h : exn -> M A) :
  raises_only Q m -> (forall e, Q e -> raises_only P (h e)) ->
  raises_only P (try_except m h).
Proof.
  intros Hm Hh st e st'. unfold try_except.
  destruct (m st) as [[a|e0|] st1] eqn:E; intros H; try discriminate.
  eapply Hh; [eapply Hm |]; eassumption.
Qed.

Lemma raises_only_weaken {A} (Q P : exn -> Prop) (m : M A) :
  (forall e, Q e -> P e) -> raises_only Q m -> raises_only P m.
Proof. intros HQP Hm st e st' H. apply HQP. eapply Hm; eassumption. Qed.

(** ** Calls that do not wait *)

Lemma never_pending_ret {A} (a : A) : never_pending (ret a).
Proof. intros st st' H. discriminate. Qed.

Lemma never_pending_raise {A} e : never_pending (@raise A e).
Proof. intros st st' H. discriminate. Qed.

Lemma never_pending_modify f : never_pending (modify f).
Proof. intros st st' H. discriminate. Qed.

Lemma never_pending_get_state : never_pending get_state.
Proof. intros st st' H. discriminate. Qed.

Lemma never_pending_deref self : never_pending (deref self).
Proof.
  intros st st'. unfold deref. destruct (store st !! self); discriminate.
Qed.

Lemma never_pending_bind {A B} (m : M A) (k : A -> M B) :
  never_pending m -> (forall a, never_pending (k a)) ->
  never_pending (bind m k).
Proof.
  intros Hm Hk st st'. unfold bind.
  destruct (m st) as [[a|e|] st1] eqn:E.
  - apply Hk.
  - discriminate.
  - exfalso. exact (Hm _ _ E).
Qed.

Ltac nowait_step :=
  match goal with
  | |- never_pending (bind _ _) => apply never_pending_bind; [ | intros ? ]
  | |- never_pending (ret _) => apply never_pending_ret
  | |- never_pending (raise _) => apply never_pending_raise
  | |- never_pending (modify _) => apply never_pending_modify
  | |- never_pending (emit _) => apply never_pending_modify
  | |- never_pending (update _ _) => apply never_pending_modify
  | |- never_pending get_state => apply never_pending_get_state
  | |- never_pending (deref _) => apply never_pending_deref
  | |- never_pending (match ?x with _ => _ end) => destruct x
  end.

Ltac nowait := repeat nowait_step.

(** A [try] whose [except Exception] clause only prints: the statement
    after it is reached whatever the body raised. *)
Lemma swallowed_returns (m : M unit) st :
  never_pending m ->
  try_except m (fun _ => ret tt) st = (Return tt, snd (m st)).
Proof.
  intros Hm. unfold try_except.
  destruct (m st) as [[[]|e|] st1] eqn:E; try reflexivity.
  exfalso. exact (Hm _ _ E).
Qed.

(** ** Relations a call preserves *)

Section Preserving.

Context (R : state -> state -> Prop) `{!PreOrder R}.

Lemma preserves_ret {A} (a : A) : preserves R (ret a).
Proof. intros st. simpl. reflexivity. Qed.

Lemma preserves_raise {A} e : preserves R (@raise A e).
Proof. intros st. simpl. reflexivity. Qed.

Lemma preserves_pending {A} : preserves R (@pending A).
Proof. intros st. simpl. reflexivity. Qed.

Lemma preserves_get_state : preserves R get_state.
Proof. intros st. simpl. reflexivity. Qed.

Lemma preserves_modify f : (forall st, R st (f st)) -> preserves R (modify f).
Proof. intros H st. simpl. apply H. Qed.

Lemma preserves_bind {A B} (m : M A) (k : A -> M B) :
  preserves R m -> (forall a, preserves R (k a)) -> preserves R (bind m k).
Proof.
  intros Hm Hk st. unfold bind. specialize (Hm st).
  destruct (m st) as [[a|e|] st1]; simpl in *; try exact Hm.
  etransitivity; [exact Hm | apply Hk].
Qed.

Lemma preserves_try_except {A} (m : M A) (h : exn -> M A) :
  preserves R m -> (forall e, preserves R (h e)) ->
  preserves R (try_except m h).
Proof.
  intros Hm Hh st. unfold try_except. specialize (Hm st).
  destruct (m st) as [[a|e|] st1]; simpl in *; try exact Hm.
  etransitivity; [exact Hm | apply Hh].
Qed.

End Preserving.

Lemma preserves_weaken {A} (R R' : state -> state -> Prop) (m : M A) :
  (forall a b, R a b -> R' a b) -> preserves R m -> preserves R' m.
Proof. intros H Hm st. apply H, Hm. Qed.

Lemma kernel_calls_only_preorder : PreOrder kernel_calls_only.
Proof.
  split.
  - intros st. repeat split. exists []. rewrite app_nil_r. split; constructor.
  - intros a b c (S1 & P1 & N1 & F1 & l1 & T1 & A1)
                 (S2 & P2 & N2 & F2 & l2 & T2 & A2).
    repeat split; try congruence.
    exists (l1 ++ l2)%list. rewrite T2, T1, app_assoc.
    split; [reflexivity | apply Forall_app; split; assumption].
Qed.

Lemma registry_untouched_preorder : PreOrder registry_untouched.
Proof.
  split.
  - intros st. split; [reflexivity |]. exists []. rewrite app_nil_r. reflexivity.
  - intros a b c (S1 & l1 & T1) (S2 & l2 & T2).
    split; [congruence |].
    exists (l1 ++ l2)%list. rewrite T2, T1, app_assoc. reflexivity.
Qed.

Lemma trace_grows_preorder : PreOrder trace_grows.
Proof.
  split.
  - intros st. exists []. rewrite app_nil_r. reflexivity.
  - intros a b c (l1 & T1) (l2 & T2).
    exists (l1 ++ l2)%list. rewrite T2, T1, app_assoc. reflexivity.
Qed.

#[local] Existing Instance kernel_calls_only_preorder.
#[local] Existing Instance registry_untouched_preorder.
#[local] Existing Instance trace_grows_preorder.

Lemma kernel_calls_registry_untouched a b :
  kernel_calls_only a b -> registry_untouched a b.
Proof. intros (S & _ & _ & _ & l & T & _). split; [exact S | exists l; exact T]. Qed.

Lemma registry_untouched_trace_grows a b :
  registry_untouched a b -> trace_grows a b.
Proof. intros (_ & H). exact H. Qed.

Create HintDb pres.

Ltac pres_rule lem :=
  first [ apply lem; [typeclasses eauto | ..] | apply lem ].

Ltac pres_step :=
  match goal with
  | |- preserves _ (bind _ _) => pres_rule @preserves_bind; [ | intros ? ]
  | |- preserves _ (try_except _ _) =>
      pres_rule @preserves_try_except; [ | intros ? ]
  | |- preserves _ (ret _) => pres_rule @preserves_ret
  | |- preserves _ (raise _) => pres_rule @preserves_raise
  | |- preserves _ pending => pres_rule @preserves_pending
  | |- preserves _ get_state => pres_rule @preserves_get_state
  | |- preserves _ (match ?x with _ => _ end) => destruct x
  end.

Ltac pres := repeat pres_step; eauto with pres.

(** *** Calls that only talk to kernels *)

Lemma kernel_calls_only_store f st : kernel_calls_only st (with_store f st).
Proof.
  repeat split. exists []. simpl. rewrite app_nil_r. split; constructor.
Qed.

Lemma kernel_calls_only_clock c st : kernel_calls_only st (with_clock c st).
Proof.
  repeat split. exists []. simpl. rewrite app_nil_r. split; constructor.
Qed.

Lemma kernel_calls_only_Execute self src st :
  kernel_calls_only st (with_trace (Execute self src) st).
Proof.
  repeat split. exists [Execute self src]. split; [reflexivity |].
  repeat constructor.
Qed.

Lemma time_time_kernel_calls : preserves kernel_calls_only time_time.
Proof.
  intros st. unfold time_time. destruct (clock st); simpl.
  - reflexivity.
  - apply kernel_calls_only_clock.
Qed.

Lemma deref_kernel_calls self : preserves kernel_calls_only (deref self).
Proof.
  intros st. unfold deref. destruct (store st !! self); simpl; reflexivity.
Qed.

Lemma update_kernel_calls self f : preserves kernel_calls_only (update self f).
Proof. apply preserves_modify. intros st. apply kernel_calls_only_store. Qed.

Lemma emit_Execute_kernel_calls self src :
  preserves kernel_calls_only (emit (Execute self src)).
Proof.
  apply preserves_modify. intros st. apply kernel_calls_only_Execute.
Qed.

#[local] Hint Resolve time_time_kernel_calls deref_kernel_calls
  update_kernel_calls emit_Execute_kernel_calls : pres.

Lemma the_kernel_kernel_calls self :
  preserves kernel_calls_only (the_kernel self).
Proof. unfold the_kernel. pres. Qed.
#[local] Hint Resolve the_kernel_kernel_calls : pres.

Lemma is_alive_kernel_calls self : preserves kernel_calls_only (is_alive self).
Proof. unfold is_alive. pres. Qed.
#[local] Hint Resolve is_alive_kernel_calls : pres.

Lemma manager_and_alive_kernel_calls self :
  preserves kernel_calls_only (manager_and_alive self).
Proof. unfold manager_and_alive. pres. Qed.

Lemma kc_execute_kernel_calls self src :
  preserves kernel_calls_only (kc_execute self src).
Proof. unfold kc_execute. pres. Qed.

Lemma on_iopub_kernel_calls {A} self
  (f : list (option message) -> A * list (option message)) :
  preserves kernel_calls_only (on_iopub self f).
Proof. unfold on_iopub. pres. Qed.

#[local] Hint Resolve manager_and_alive_kernel_calls kc_execute_kernel_calls
  on_iopub_kernel_calls : pres.

Lemma clear_output_queue_kernel_calls self :
  preserves kernel_calls_only (_clear_output_queue self).
Proof. unfold _clear_output_queue. pres. Qed.

Lemma probe_kernel_calls self : preserves kernel_calls_only (probe self).
Proof. unfold probe. pres. Qed.

#[local] Hint Resolve clear_output_queue_kernel_calls probe_kernel_calls : pres.

Lemma wait_loop_kernel_calls fuel self start_time timeout :
  preserves kernel_calls_only (wait_loop fuel self start_time timeout).
Proof. induction fuel as [|fuel IH]; simpl; pres. Qed.
#[local] Hint Resolve wait_loop_kernel_calls : pres.

Lemma wait_for_kernel_ready_kernel_calls self timeout :
  preserves kernel_calls_only (_wait_for_kernel_ready self timeout).
Proof. unfold _wait_for_kernel_ready. pres. Qed.
#[local] Hint Resolve wait_for_kernel_ready_kernel_calls : pres.

Lemma ensure_ready_kernel_calls self :
  preserves kernel_calls_only (ensure_ready self).
Proof. unfold ensure_ready. pres. Qed.

Lemma correlate_kernel_calls self src :
  preserves kernel_calls_only (correlate self src).
Proof. unfold correlate. pres. Qed.

#[local] Hint Resolve ensure_ready_kernel_calls correlate_kernel_calls : pres.

Lemma execute_code_kernel_calls self src :
  preserves kernel_calls_only (execute_code self src).
Proof. unfold execute_code. pres. Qed.
#[local] Hint Resolve execute_code_kernel_calls : pres.

(** *** Calls that leave the registry alone *)

Lemma kernel_calls_leave_registry {A} (m : M A) :
  preserves kernel_calls_only m -> preserves registry_untouched m.
Proof. apply preserves_weaken, kernel_calls_registry_untouched. Qed.

Lemma emit_registry_untouched a : preserves registry_untouched (emit a).
Proof.
  apply preserves_modify. intros st. split; [reflexivity |].
  exists [a]. reflexivity.
Qed.

Lemma with_spawn_registry_untouched s :
  preserves registry_untouched (modify (with_spawn s)).
Proof.
  apply preserves_modify. intros st. split; [reflexivity |].
  exists []. simpl. rewrite app_nil_r. reflexivity.
Qed.

Lemma with_files_registry_untouched f :
  preserves registry_untouched (modify (with_files f)).
Proof.
  apply preserves_modify. intros st. split; [reflexivity |].
  exists []. simpl. rewrite app_nil_r. reflexivity.
Qed.

#[local] Hint Resolve kernel_calls_leave_registry emit_registry_untouched
  with_spawn_registry_untouched with_files_registry_untouched : pres.

Lemma stop_channels_registry_untouched self :
  preserves registry_untouched (stop_channels self).
Proof. unfold stop_channels. pres. Qed.

Lemma shutdown_kernel_registry_untouched self :
  preserves registry_untouched (shutdown_kernel self).
Proof. unfold shutdown_kernel. pres. Qed.

Lemma os_remove_registry_untouched path :
  preserves registry_untouched (os_remove path).
Proof. unfold os_remove. pres. Qed.

Lemma start_kernel_registry_untouched self :
  preserves registry_untouched (start_kernel self).
Proof. unfold start_kernel. pres. Qed.

Lemma restart_kernel_registry_untouched self :
  preserves registry_untouched (restart_kernel self).
Proof. unfold restart_kernel. pres. Qed.

#[local] Hint Resolve stop_channels_registry_untouched
  shutdown_kernel_registry_untouched os_remove_registry_untouched
  start_kernel_registry_untouched restart_kernel_registry_untouched : pres.

Lemma cleanup_registry_untouched self :
  preserves registry_untouched (cleanup self).
Proof. unfold cleanup. pres. Qed.

Lemma create_notebook_registry_untouched self notebook_name :
  preserves registry_untouched (create_notebook self notebook_name).
Proof. unfold create_notebook. pres. Qed.

#[local] Hint Resolve cleanup_registry_untouched
  create_notebook_registry_untouched : pres.

Lemma reset_kernel_registry_untouched self :
  preserves registry_untouched (reset_kernel self).
Proof. unfold reset_kernel. pres. Qed.
#[local] Hint Resolve reset_kernel_registry_untouched : pres.

(** *** The trace only grows *)

Lemma registry_untouched_grows {A} (m : M A) :
  preserves registry_untouched m -> preserves trace_grows m.
Proof. apply preserves_weaken, registry_untouched_trace_grows. Qed.

Lemma with_sessions_trace_grows f :
  preserves trace_grows (modify (with_sessions f)).
Proof.
  apply preserves_modify. intros st. exists []. simpl.
  rewrite app_nil_r. reflexivity.
Qed.

#[local] Hint Resolve registry_untouched_grows with_sessions_trace_grows : pres.

Lemma del_session_trace_grows conversation_id :
  preserves trace_grows (del_session conversation_id).
Proof. unfold del_session. pres. Qed.
#[local] Hint Resolve del_session_trace_grows : pres.

Lemma reset_or_remove_trace_grows conversation_id controller indent failure :
  preserves trace_grows
    (reset_or_remove conversation_id controller indent failure).
Proof. unfold reset_or_remove. pres. Qed.

(** ** A successful execution, read backwards *)

Lemma the_kernel_Return self st k st' :
  the_kernel self st = (Return k, st') ->
  st' = st /\ exists c, store st !! self = Some c /\ kernel_manager c = Some k.
Proof.
  unfold the_kernel, bind, deref.
  destruct (store st !! self) as [c|] eqn:H; [| discriminate].
  destruct (kernel_manager c) as [k0|] eqn:Hk; [| discriminate].
  intros E. inversion E; subst. split; [reflexivity |]. exists c.
  split; [reflexivity | assumption].
Qed.

Lemma correlate_Return self src st out st' :
  correlate self src st = (Return out, st') ->
  exists c k pre m rest,
    store st !! self = Some c
    /\ kernel_manager c = Some k
    /\ iopub k = (arrivals pre ++ Some m :: rest)%list
    /\ forallb (ordinary (msg_ids k (submitted k))) pre = true
    /\ is_idle_for (msg_ids k (submitted k)) m = true
    /\ out = strip (join LF (flat_map rendered pre)).
Proof.
  intros E.
  assert (exists c k, store st !! self = Some c /\ kernel_manager c = Some k)
    as (c & k & H & Hk).
  { unfold correlate, kc_execute in E.
    apply bind_Return_inv in E as (tok & s1 & E1 & _).
    apply bind_Return_inv in E1 as (k & s0 & E0 & _).
    apply the_kernel_Return in E0 as (_ & c & H & Hk). exists c, k. auto. }
  exists c, k.
  destruct (correlate_spec self src st c k H Hk)
    as (st2 & c2 & k2 & L2 & Hk2 & _ & _ & _ & E2).
  rewrite E2 in E.
  destruct (consume (msg_ids k (submitted k)) [] (iopub k))
    as [[outputs|e] q'] eqn:Hcons; simpl in E.
  - apply consume_Broke in Hcons as (pre & m & Hq & Hpre & Hm & ->).
    exists pre, m, q'. repeat split; try assumption.
    rewrite output_of_outputs in E. inversion E. reflexivity.
  - exfalso. destruct (is_QueueEmpty e); [| discriminate].
    apply bind_Return_inv in E as (a & s3 & _ & E).
    destruct (negb a); [| discriminate].
    apply bind_Return_inv in E as (u & s4 & _ & E). discriminate.
Qed.

Lemma execute_code_Return self src st out st' :
  execute_code self src st = (Return out, st') ->
  exists st1, correlate self src st1 = (Return out, st').
Proof.
  unfold execute_code. intros E.
  apply bind_Return_inv in E as (u & s1 & _ & E).
  apply bind_Return_inv in E as (alive & s2 & _ & E).
  apply bind_Return_inv in E as (u' & s3 & _ & E).
  apply bind_Return_inv in E as (u'' & s4 & _ & E).
  exists s4. exact E.
Qed.

(** A loop that ends with success, with what it leaves in the queue. *)
Lemma correlate_Return_rest self src st out st' :
  correlate self src st = (Return out, st') ->
  exists c k pre m rest c' k',
    store st !! self = Some c
    /\ kernel_manager c = Some k
    /\ iopub k = (arrivals pre ++ Some m :: rest)%list
    /\ forallb (ordinary (msg_ids k (submitted k))) pre = true
    /\ is_idle_for (msg_ids k (submitted k)) m = true
    /\ out = strip (join LF (flat_map rendered pre))
    /\ store st' !! self = Some c'
    /\ kernel_manager c' = Some k'
    /\ iopub k' = rest.
Proof.
  intros E.
  assert (exists c k, store st !! self = Some c /\ kernel_manager c = Some k)
    as (c & k & H & Hk).
  { unfold correlate, kc_execute in E.
    apply bind_Return_inv in E as (tok & s1 & E1 & _).
    apply bind_Return_inv in E1 as (k & s0 & E0 & _).
    apply the_kernel_Return in E0 as (_ & c & H & Hk). exists c, k. auto. }
  exists c, k.
  destruct (correlate_spec self src st c k H Hk)
    as (st2 & c2 & k2 & L2 & Hk2 & _ & _ & Hq2 & E2).
  rewrite E2 in E.
  destruct (consume (msg_ids k (submitted k)) [] (iopub k))
    as [[outputs|e] q'] eqn:Hcons; simpl in E, Hq2.
  - apply consume_Broke in Hcons as (pre & m & Hq & Hpre & Hm & ->).
    rewrite output_of_outputs in E. rewrite <- Hq2 in Hq.
    inversion E; subst out st'.
    exists pre, m, (iopub k2), c2, k2. repeat split; assumption.
  - exfalso. destruct (is_QueueEmpty e); [| discriminate].
    apply bind_Return_inv in E as (a & s3 & _ & E).
    destruct (negb a); [| discriminate].
    apply bind_Return_inv in E as (u & s4 & _ & E). discriminate.
Qed.

Lemma idle_for_other_ordinary msg_id m :
  is_idle_for_other msg_id m = true ->
  ordinary msg_id m = true /\ rendered m = [].
Proof.
  unfold is_idle_for_other, ordinary, is_error, is_idle_for, malformed,
    rendered.
  destruct m as [ty par [tx da en ev tb es]]; simpl.
  destruct (String.eqb_spec ty "status") as [->|]; simpl; [| discriminate].
  destruct es as [s|]; simpl; [| discriminate].
  destruct (String.eqb s "idle"); simpl; [| discriminate].
  destruct par as [p|]; simpl; [| discriminate].
  destruct (String.eqb p msg_id); simpl; [discriminate |].
  intros _. split; reflexivity.
Qed.

Lemma own_messages_output_text msg_id pre :
  forallb (belongs_to msg_id) pre = true ->
  flat_map (output_text msg_id) pre = flat_map rendered pre.
Proof.
  induction pre as [|m pre IH]; simpl; [reflexivity |].
  intros H. apply andb_prop in H as [Hm Hpre].
  unfold output_text at 1. rewrite Hm, (IH Hpre). reflexivity.
Qed.

(** ** The claims about one execution *)

(** C2, as the code has it.  An execution that completes without an
    interpreter error returns the texts that the messages read before the
    idle status of the request add to the output (the text of a stream
    message, the plain rendering of a result value, the placeholder or
    plain text of a rich display), in the order of arrival, joined with
    line feeds and then trimmed; the empty string when they add nothing.
    When all these messages belong to the execution, this is the joined
    output of the messages of the execution.  Conversely, on a ready
    controller with a live process such a run of messages makes the
    execution return that text. *)
Theorem output_is_joined_and_trimmed self src :
  (forall st out st',
     execute_code self src st = (Return out, st') ->
     exists st1 c k pre m rest,
       correlate self src st1 = (Return out, st')
       /\ store st1 !! self = Some c
       /\ kernel_manager c = Some k
       /\ iopub k = (arrivals pre ++ Some m :: rest)%list
       /\ forallb (ordinary (msg_ids k (submitted k))) pre = true
       /\ is_idle_for (msg_ids k (submitted k)) m = true
       /\ out = strip (join LF (flat_map rendered pre))
       /\ (flat_map rendered pre = [] -> out = "")
       /\ (forallb (belongs_to (msg_ids k (submitted k))) pre = true ->
           out = joined_output (msg_ids k (submitted k)) pre))
  /\ (forall st c k n pre m rest,
        store st !! self = Some c -> _kernel_ready c = true ->
        kernel_manager c = Some k -> life k = S n ->
        drain (iopub k) = (arrivals pre ++ Some m :: rest)%list ->
        forallb (ordinary (msg_ids k (submitted k))) pre = true ->
        is_idle_for (msg_ids k (submitted k)) m = true ->
        fst (execute_code self src st)
        = Return (strip (join LF (flat_map rendered pre))))
  /\ (forall st c k n pre m rest,
        store st !! self = Some c -> _kernel_ready c = true ->
        kernel_manager c = Some k -> life k = S n ->
        drain (iopub k) = (arrivals pre ++ Some m :: rest)%list ->
        forallb (ordinary (msg_ids k (submitted k))) pre = true ->
        is_idle_for (msg_ids k (submitted k)) m = true ->
        forallb (belongs_to (msg_ids k (submitted k))) pre = true ->
        fst (execute_code self src st)
        = Return (joined_output (msg_ids k (submitted k)) pre)).
Proof.
  assert (forall st c k n pre m rest,
            store st !! self = Some c -> _kernel_ready c = true ->
            kernel_manager c = Some k -> life k = S n ->
            drain (iopub k) = (arrivals pre ++ Some m :: rest)%list ->
            forallb (ordinary (msg_ids k (submitted k))) pre = true ->
            is_idle_for (msg_ids k (submitted k)) m = true ->
            fst (execute_code self src st)
            = Return (strip (join LF (flat_map rendered pre)))) as Hforward.
  { intros st c k n pre m rest H Hr Hk Hl Hq Hpre Hm.
    destruct (execute_code_ready self src st c k n H Hr Hk Hl)
      as (st1 & c1 & k1 & E & L1 & Hk1 & _ & _ & Hq1 & Hi1 & Hs1).
    rewrite <- Hq1 in Hq. rewrite <- Hi1, <- Hs1 in Hpre, Hm.
    destruct (correlate_idle self src st1 c1 k1 pre m rest L1 Hk1 Hq Hpre Hm)
      as (st' & E').
    rewrite E, E'. reflexivity. }
  split; [| split].
  - intros st out st' E.
    apply execute_code_Return in E as (st1 & E).
    destruct (correlate_Return _ _ _ _ _ E)
      as (c & k & pre & m & rest & H & Hk & Hq & Hpre & Hm & ->).
    exists st1, c, k, pre, m, rest. repeat split; try assumption.
    + intros ->. reflexivity.
    + intros Hown. unfold joined_output.
      rewrite (own_messages_output_text _ _ Hown). reflexivity.
  - exact Hforward.
  - intros st c k n pre m rest H Hr Hk Hl Hq Hpre Hm Hown.
    rewrite (Hforward st c k n pre m rest H Hr Hk Hl Hq Hpre Hm).
    unfold joined_output. rewrite (own_messages_output_text _ _ Hown).
    reflexivity.
Qed.

(** C4.  The token of an execution is the one [execute] returns for the
    submitted code.  A consumption loop that ends with success has read,
    from the queue it started on, messages it passes over and then an idle
    status whose parent is that token, and it leaves the messages after
    that status in the queue; the same holds of an execution on a ready
    controller and the queue its drain left.  When the queue holds no idle
    status with that token, neither the loop nor the execution ends with
    success.  An idle status that carries another token is passed over: the
    loop goes on with the outputs collected so far and the messages that
    follow, and the execution still returns, at the idle status of its own
    token, the texts read before and after the foreign one. *)
Theorem success_only_on_idle_for_own_token self src :
  (forall st c k,
     store st !! self = Some c -> kernel_manager c = Some k ->
     fst (kc_execute self src st) = Return (msg_ids k (submitted k)))
  /\ (forall st out st',
        correlate self src st = (Return out, st') ->
        exists c k pre m rest c' k',
          store st !! self = Some c
          /\ kernel_manager c = Some k
          /\ iopub k = (arrivals pre ++ Some m :: rest)%list
          /\ forallb (ordinary (msg_ids k (submitted k))) pre = true
          /\ is_idle_for (msg_ids k (submitted k)) m = true
          /\ store st' !! self = Some c'
          /\ kernel_manager c' = Some k'
          /\ iopub k' = rest)
  /\ (forall st c k n out st',
        store st !! self = Some c -> _kernel_ready c = true ->
        kernel_manager c = Some k -> life k = S n ->
        execute_code self src st = (Return out, st') ->
        exists pre m rest c' k',
          drain (iopub k) = (arrivals pre ++ Some m :: rest)%list
          /\ forallb (ordinary (msg_ids k (submitted k))) pre = true
          /\ is_idle_for (msg_ids k (submitted k)) m = true
          /\ store st' !! self = Some c'
          /\ kernel_manager c' = Some k'
          /\ iopub k' = rest)
  /\ (forall st c k,
        store st !! self = Some c -> kernel_manager c = Some k ->
        (forall m, In (Some m) (iopub k) ->
                   is_idle_for (msg_ids k (submitted k)) m = false) ->
        forall out, fst (correlate self src st) <> Return out)
  /\ (forall st c k n,
        store st !! self = Some c -> _kernel_ready c = true ->
        kernel_manager c = Some k -> life k = S n ->
        (forall m, In (Some m) (drain (iopub k)) ->
                   is_idle_for (msg_ids k (submitted k)) m = false) ->
        forall out, fst (execute_code self src st) <> Return out)
  /\ (forall msg_id pre other q outputs,
        forallb (ordinary msg_id) pre = true ->
        is_idle_for_other msg_id other = true ->
        consume msg_id outputs (arrivals pre ++ Some other :: q)
        = consume msg_id (outputs ++ flat_map rendered pre) q)
  /\ (forall st c k n pre other mid m rest,
        store st !! self = Some c -> _kernel_ready c = true ->
        kernel_manager c = Some k -> life k = S n ->
        drain (iopub k)
        = (arrivals pre ++ Some other :: arrivals mid ++ Some m :: rest)%list ->
        forallb (ordinary (msg_ids k (submitted k))) pre = true ->
        is_idle_for_other (msg_ids k (submitted k)) other = true ->
        forallb (ordinary (msg_ids k (submitted k))) mid = true ->
        is_idle_for (msg_ids k (submitted k)) m = true ->
        fst (execute_code self src st)
        = Return (strip (join LF (flat_map rendered (pre ++ mid))))).
Proof.
  assert (forall st c k,
            store st !! self = Some c -> kernel_manager c = Some k ->
            (forall m, In (Some m) (iopub k) ->
                       is_idle_for (msg_ids k (submitted k)) m = false) ->
            forall out, fst (correlate self src st) <> Return out) as Hnone.
  { intros st c k H Hk Hno out.
    destruct (correlate self src st) as [r s'] eqn:E. simpl. intros ->.
    apply correlate_Return in E
      as (c0 & k0 & pre & m & rest & H0 & Hk0 & Hq & _ & Hm & _).
    pose proof (eq_trans (eq_sym H0) H) as Hc. injection Hc as ->.
    pose proof (eq_trans (eq_sym Hk0) Hk) as Hkk. injection Hkk as ->.
    rewrite (Hno m) in Hm; [discriminate Hm |].
    rewrite Hq. apply in_or_app. right. left. reflexivity. }
  split; [| split; [| split; [| split; [| split; [| split]]]]].
  - intros st c k H Hk.
    destruct (kc_execute_spec self src st c k H Hk) as (st1 & E & _).
    rewrite E. reflexivity.
  - intros st out st' E.
    destruct (correlate_Return_rest _ _ _ _ _ E)
      as (c & k & pre & m & rest & c' & k' & H & Hk & Hq & Hpre & Hm & _
          & H' & Hk' & Hq').
    exists c, k, pre, m, rest, c', k'. repeat split; assumption.
  - intros st c k n out st' H Hr Hk Hl E.
    destruct (execute_code_ready self src st c k n H Hr Hk Hl)
      as (st1 & c1 & k1 & E1 & L1 & Hk1 & _ & _ & Hq1 & Hi1 & Hs1).
    rewrite E1 in E.
    destruct (correlate_Return_rest _ _ _ _ _ E)
      as (c0 & k0 & pre & m & rest & c' & k' & H0 & Hk0 & Hq & Hpre & Hm & _
          & H' & Hk' & Hq').
    pose proof (eq_trans (eq_sym H0) L1) as Hc. injection Hc as ->.
    pose proof (eq_trans (eq_sym Hk0) Hk1) as Hkk. injection Hkk as ->.
    rewrite Hi1, Hs1 in Hpre, Hm. rewrite Hq1 in Hq.
    exists pre, m, rest, c', k'. repeat split; assumption.
  - exact Hnone.
  - intros st c k n H Hr Hk Hl Hno out.
    destruct (execute_code_ready self src st c k n H Hr Hk Hl)
      as (st1 & c1 & k1 & E1 & L1 & Hk1 & _ & _ & Hq1 & Hi1 & Hs1).
    rewrite E1. apply (Hnone st1 c1 k1 L1 Hk1).
    rewrite Hq1, Hi1, Hs1. exact Hno.
  - intros msg_id pre other q outputs Hpre Ho.
    rewrite (consume_ordinary _ _ _ _ Hpre). simpl.
    rewrite (on_message_idle_other _ _ _ Ho). reflexivity.
  - intros st c k n pre other mid m rest H Hr Hk Hl Hq Hpre Ho Hmid Hm.
    destruct (idle_for_other_ordinary _ _ Ho) as [Hord Hnil].
    destruct (execute_code_ready self src st c k n H Hr Hk Hl)
      as (st1 & c1 & k1 & E1 & L1 & Hk1 & _ & _ & Hq1 & Hi1 & Hs1).
    rewrite <- Hq1 in Hq. rewrite <- Hi1, <- Hs1 in Hpre, Hord, Hmid, Hm.
    destruct (correlate_idle self src st1 c1 k1 (pre ++ other :: mid) m rest
                L1 Hk1) as (st' & E').
    + rewrite Hq. unfold arrivals. rewrite map_app. simpl.
      rewrite <- app_assoc. reflexivity.
    + rewrite forallb_app. simpl. rewrite Hpre, Hord, Hmid. reflexivity.
    + exact Hm.
    + rewrite E1, E'. simpl. rewrite !flat_map_app. simpl.
      rewrite Hnil. reflexivity.
Qed.

(** One execution on a ready controller.  When the wait for the next
    message expires
    (after any messages the loop passes over), a process that still answers
    the liveness check makes the execution fail with the 408 time-out and
    leaves the readiness flag set; a process that has died makes it fail
    with the kernel-died error, and the controller is left with its
    readiness flag cleared and a dead process. *)
Lemma silence_after_submission self src st c k n pre q :
  store st !! self = Some c -> _kernel_ready c = true ->
  kernel_manager c = Some k -> life k = S n ->
  drain (iopub k) = (arrivals pre ++ q)%list ->
  forallb (ordinary (msg_ids k (submitted k))) pre = true ->
  q = [] \/ (exists rest, q = None :: rest) ->
  exists st' c',
    store st' !! self = Some c'
    /\ sessions st' = sessions st
    /\ match n with
       | S _ =>
           execute_code self src st
           = (Raise (HTTPException 408 (DetailStr
                "Code execution timed out waiting for response from kernel.")),
              st')
           /\ _kernel_ready c' = true
       | O =>
           execute_code self src st
           = (Raise (RuntimeError
                "Kernel died during execution. Please restart session."), st')
           /\ _kernel_ready c' = false
           /\ exists k', kernel_manager c' = Some k' /\ life k' = 0
       end.
Proof.
  intros H Hr Hk Hl Hq Hpre Hsil.
  destruct (execute_code_ready self src st c k n H Hr Hk Hl)
    as (st1 & c1 & k1 & E & L1 & Hk1 & Hr1 & Hl1 & Hq1 & Hi1 & Hs1).
  rewrite <- Hq1 in Hq. rewrite <- Hi1, <- Hs1 in Hpre.
  destruct (correlate_silence self src st1 c1 k1 pre q L1 Hk1 Hq Hpre Hsil)
    as (st' & c' & L' & Hend).
  exists st', c'. split; [exact L' |].
  assert (sessions st' = sessions st) as Hsess.
  { pose proof (execute_code_kernel_calls self src st) as (S & _).
    rewrite E in S.
    rewrite Hl1 in Hend. destruct n; destruct Hend as (E' & _);
      rewrite E' in S; exact S. }
  split; [exact Hsess |].
  rewrite Hl1 in Hend. destruct n.
  - destruct Hend as (E' & Hf & Hdead). rewrite E, E'. auto.
  - destruct Hend as (E' & Hf). rewrite E, E', Hf, Hr1. auto.
Qed.

(** ** What has been recorded stays recorded *)

Lemma trace_grows_In a b x :
  trace_grows a b -> In x (trace a) -> In x (trace b).
Proof. intros (l & ->) H. apply in_or_app. left. exact H. Qed.

Lemma bind_In {A B} (m : M A) (k : A -> M B) st x :
  In x (trace (snd (m st))) ->
  (forall a, preserves trace_grows (k a)) ->
  In x (trace (snd (bind m k st))).
Proof.
  intros H Hk. unfold bind.
  destruct (m st) as [[a|e|] st1]; simpl in *; try exact H.
  eapply trace_grows_In; [apply Hk | exact H].
Qed.

Lemma try_except_In {A} (m : M A) (h : exn -> M A) st x :
  In x (trace (snd (m st))) ->
  (forall e, preserves trace_grows (h e)) ->
  In x (trace (snd (try_except m h st))).
Proof.
  intros H Hh. unfold try_except.
  destruct (m st) as [[a|e|] st1]; simpl in *; try exact H.
  eapply trace_grows_In; [apply Hh | exact H].
Qed.

Lemma emit_In a st : In a (trace (snd (emit a st))).
Proof. simpl. apply in_or_app. right. left. reflexivity. Qed.

Lemma restart_kernel_In self st :
  In (RestartKernel self) (trace (snd (restart_kernel self st))).
Proof.
  unfold restart_kernel. apply bind_In; [apply emit_In |].
  intros _. pres.
Qed.

Lemma reset_kernel_restarts self st c k :
  store st !! self = Some c -> kernel_manager c = Some k ->
  In (RestartKernel self) (trace (snd (reset_kernel self st))).
Proof.
  intros H Hk. unfold reset_kernel.
  rewrite (bind_Return _ _ _ _ _ (deref_spec _ _ _ H)), Hk.
  destruct (update_spec self (set_kernel_ready false) st c H)
    as (st1 & E1 & L1).
  rewrite (bind_Return _ _ _ _ _ E1).
  apply try_except_In; [| intros e; pres].
  apply bind_In; [| intros a; pres].
  apply restart_kernel_In.
Qed.

(** An access to a session whose process is dead restarts it. *)
Lemma get_session_restarts_dead conversation_id st session_info c k now later :
  sessions st !! conversation_id = Some session_info ->
  store st !! controller session_info = Some c ->
  kernel_manager c = Some k -> life k = 0 ->
  clock st = now :: later ->
  In (RestartKernel (controller session_info))
     (trace (snd (get_session conversation_id st))).
Proof.
  intros Hs H Hk Hl Hclock. unfold get_session.
  rewrite (bind_Return get_state _ st st st eq_refl). cbv beta. rewrite Hs.
  rewrite (bind_Return time_time _ _ now (with_clock later st))
    by (unfold time_time; rewrite Hclock; reflexivity).
  rewrite (bind_Return (modify _) _ _ tt
             (with_sessions
                <[conversation_id := set_last_activity now session_info]>
                (with_clock later st))) by reflexivity.
  cbv zeta. simpl controller.
  set (st1 := with_sessions _ _).
  assert (store st1 !! controller session_info = Some c) as H1 by exact H.
  rewrite (bind_Return (manager_and_alive _) _ _ false st1).
  2:{ unfold manager_and_alive.
      rewrite (bind_Return _ _ _ _ _ (deref_spec _ _ _ H1)), Hk.
      eapply is_alive_dead; eassumption. }
  cbv beta. change (negb false) with true. cbv iota.
  destruct (update_spec (controller session_info) (set_kernel_ready false)
              st1 c H1) as (st2 & E2 & L2).
  rewrite (bind_Return _ _ _ _ _ E2).
  apply bind_In; [| intros a; pres].
  unfold reset_or_remove.
  apply try_except_In; [| intros e; pres].
  apply bind_In; [| intros a; pres].
  eapply reset_kernel_restarts; [exact L2 | exact Hk].
Qed.

(** C6.  When no message arrives within the wait (after any messages the
    loop passes over), the execution ends with the time-out error if the
    process is alive, and with the kernel-died error if it has died; in the
    second case the readiness flag of the controller is cleared and its
    process is dead, and the next access to a session in that condition
    restarts the kernel.  The first part is the loop from the submission on,
    for any controller; the second is [execute_code] as a whole on a ready
    controller, where the registry is left as it was. *)
Theorem silence_means_timeout_or_engine_dead self src :
  (forall st c k pre q,
     store st !! self = Some c -> kernel_manager c = Some k ->
     iopub k = (arrivals pre ++ q)%list ->
     forallb (ordinary (msg_ids k (submitted k))) pre = true ->
     q = [] \/ (exists rest, q = None :: rest) ->
     exists st' c',
       store st' !! self = Some c'
       /\ match life k with
          | S _ =>
              correlate self src st
              = (Raise (HTTPException 408 (DetailStr
                   "Code execution timed out waiting for response from kernel.")),
                 st')
              /\ _kernel_ready c' = _kernel_ready c
          | O =>
              correlate self src st
              = (Raise (RuntimeError
                   "Kernel died during execution. Please restart session."),
                 st')
              /\ _kernel_ready c' = false
              /\ exists k', kernel_manager c' = Some k' /\ life k' = 0
          end)
  /\ (forall st c k n pre q,
        store st !! self = Some c -> _kernel_ready c = true ->
        kernel_manager c = Some k -> life k = S n ->
        drain (iopub k) = (arrivals pre ++ q)%list ->
        forallb (ordinary (msg_ids k (submitted k))) pre = true ->
        q = [] \/ (exists rest, q = None :: rest) ->
        exists st' c',
          store st' !! self = Some c'
          /\ sessions st' = sessions st
          /\ match n with
             | S _ =>
                 execute_code self src st
                 = (Raise (HTTPException 408 (DetailStr
                      "Code execution timed out waiting for response from kernel.")),
                    st')
                 /\ _kernel_ready c' = true
             | O =>
                 execute_code self src st
                 = (Raise (RuntimeError
                      "Kernel died during execution. Please restart session."),
                    st')
                 /\ _kernel_ready c' = false
                 /\ exists k', kernel_manager c' = Some k' /\ life k' = 0
             end)
  /\ (forall conversation_id st session_info c k now later,
        sessions st !! conversation_id = Some session_info ->
        controller session_info = self ->
        store st !! self = Some c ->
        kernel_manager c = Some k -> life k = 0 ->
        clock st = now :: later ->
        In (RestartKernel self)
           (trace (snd (get_session conversation_id st)))).
Proof.
  split; [| split].
  - intros st c k pre q. apply correlate_silence.
  - intros st c k n pre q. apply silence_after_submission.
  - intros conversation_id st session_info c k now later Hs <- H Hk Hl Hc.
    eapply get_session_restarts_dead; eassumption.
Qed.

(** ** The inactivity sweep *)

Lemma inactive_iff current_time session_info :
  inactive current_time session_info = true
  <-> (3600 < current_time - last_activity session_info)%Q.
Proof.
  unfold inactive, Qgtb. rewrite negb_true_iff, <- not_true_iff_false.
  rewrite Qle_bool_iff. split.
  - apply Qnot_le_lt.
  - apply Qlt_not_le.
Qed.

Lemma keys_registered (m : gmap string SessionInfo) conversation_id :
  conversation_id ∈ keys m <-> is_Some (m !! conversation_id).
Proof.
  unfold keys. rewrite list_elem_of_fmap. split.
  - intros ([k v] & -> & H). apply elem_of_map_to_list in H. eauto.
  - intros [v H]. exists (conversation_id, v). split; [reflexivity |].
    apply elem_of_map_to_list. exact H.
Qed.

Lemma collect_spec current_time (m : gmap string SessionInfo) session_ids :
  forall to_remove conversation_id,
    conversation_id ∈ collect current_time m session_ids to_remove
    <-> conversation_id ∈ to_remove
        \/ (conversation_id ∈ session_ids
            /\ exists session_info,
                 m !! conversation_id = Some session_info
                 /\ inactive current_time session_info = true).
Proof.
  induction session_ids as [|k ids IH]; intros acc cid; simpl.
  - split; [auto |]. intros [H|[H _]]; [exact H |]. inversion H.
  - destruct (m !! k) as [si|] eqn:Hk.
    + destruct (inactive current_time si) eqn:Hin; rewrite IH.
      * rewrite elem_of_app, list_elem_of_singleton, elem_of_cons. split.
        -- intros [[H| ->]|[H Hsi]]; eauto 8.
        -- intros [H|[[->|H] Hsi]]; eauto.
      * rewrite elem_of_cons. split.
        -- intros [H|[H Hsi]]; eauto.
        -- intros [H|[[->|H] (si' & Hsi & Hin')]]; eauto.
           rewrite Hk in Hsi. inversion Hsi; subst. congruence.
    + rewrite IH, elem_of_cons. split.
      * intros [H|[H Hsi]]; eauto.
      * intros [H|[[->|H] (si' & Hsi & Hin')]]; eauto. congruence.
Qed.

Lemma remove_each_spec to_remove : forall st,
  fst (remove_each to_remove st) = Return tt
  /\ forall conversation_id,
       sessions (snd (remove_each to_remove st)) !! conversation_id
       = if decide (conversation_id ∈ to_remove) then None
         else sessions st !! conversation_id.
Proof.
  induction to_remove as [|k l IH]; intros st; simpl.
  - split; [reflexivity |]. intros cid.
    destruct (decide (cid ∈ [])) as [H|_]; [inversion H | reflexivity].
  - rewrite (bind_Return get_state _ st st st eq_refl). cbv beta.
    destruct (sessions st !! k) as [si|] eqn:Hk.
    + set (st1 := with_trace (CleanupTask (controller si))
                    (with_sessions (delete k) st)).
      rewrite (bind_Return _ _ st tt st1) by reflexivity.
      destruct (IH st1) as (Hr & Hs). split; [exact Hr |].
      intros cid. rewrite Hs. subst st1. simpl.
      destruct (decide (cid ∈ l)) as [Hin|Hnin].
      * rewrite decide_True by (right; exact Hin). reflexivity.
      * destruct (decide (cid = k)) as [->|Hne].
        -- rewrite decide_True by left. apply lookup_delete_eq.
        -- rewrite decide_False by (rewrite elem_of_cons; tauto).
           apply lookup_delete_ne. congruence.
    + rewrite (bind_Return _ _ st tt st) by reflexivity.
      destruct (IH st) as (Hr & Hs). split; [exact Hr |].
      intros cid. rewrite Hs.
      destruct (decide (cid ∈ l)) as [Hin|Hnin].
      * rewrite decide_True by (right; exact Hin). reflexivity.
      * destruct (decide (cid = k)) as [->|Hne].
        -- rewrite decide_True by left. exact Hk.
        -- rewrite decide_False by (rewrite elem_of_cons; tauto). reflexivity.
Qed.

(** C7.  A cycle of the sweep that reads the time [now] ends normally and
    leaves in the registry exactly the sessions it found whose idle time,
    [now] minus the last activity, does not exceed 3600 seconds: a session
    idle for more is removed, a session idle for strictly less (or exactly
    that long) is kept as it was, and no session is added.  A key that is
    no longer registered when a loop of the sweep reaches it is skipped
    without any effect. *)
Theorem sweep_removes_exactly_the_inactive :
  (forall st now later,
     clock st = now :: later ->
     fst (sweep st) = Return tt
     /\ (forall conversation_id session_info,
           sessions st !! conversation_id = Some session_info ->
           (3600 < now - last_activity session_info)%Q ->
           sessions (snd (sweep st)) !! conversation_id = None)
     /\ (forall conversation_id session_info,
           sessions st !! conversation_id = Some session_info ->
           ~ (3600 < now - last_activity session_info)%Q ->
           sessions (snd (sweep st)) !! conversation_id = Some session_info)
     /\ (forall conversation_id session_info,
           sessions st !! conversation_id = Some session_info ->
           (now - last_activity session_info < 3600)%Q ->
           sessions (snd (sweep st)) !! conversation_id = Some session_info)
     /\ (forall conversation_id,
           sessions st !! conversation_id = None ->
           sessions (snd (sweep st)) !! conversation_id = None))
  /\ (forall conversation_id rest st,
        sessions st !! conversation_id = None ->
        remove_each (conversation_id :: rest) st = remove_each rest st)
  /\ (forall current_time (m : gmap string SessionInfo) conversation_id rest
             to_remove,
        m !! conversation_id = None ->
        collect current_time m (conversation_id :: rest) to_remove
        = collect current_time m rest to_remove).
Proof.
  split; [| split].
  - intros st now later Hclock.
    assert (sweep st
            = remove_each
                (collect now (sessions st) (keys (sessions st)) [])
                (with_clock later st)) as E.
    { unfold sweep.
      rewrite (bind_Return time_time _ _ now (with_clock later st))
        by (unfold time_time; rewrite Hclock; reflexivity).
      reflexivity. }
    rewrite E.
    destruct (remove_each_spec
                (collect now (sessions st) (keys (sessions st)) [])
                (with_clock later st)) as (Hr & Hs).
    split; [exact Hr |].
    assert (forall cid si, sessions st !! cid = Some si ->
              (cid ∈ collect now (sessions st) (keys (sessions st)) []
               <-> (3600 < now - last_activity si)%Q)) as Hin.
    { intros cid si Hsi. rewrite collect_spec, keys_registered. split.
      - intros [H|(_ & si' & Hsi' & Hi)]; [inversion H |].
        rewrite Hsi in Hsi'. inversion Hsi'; subst.
        apply inactive_iff. exact Hi.
      - intros Hlt. right. split; [eauto |]. exists si.
        split; [exact Hsi | apply inactive_iff; exact Hlt]. }
    assert (forall cid si, sessions st !! cid = Some si ->
              ~ (3600 < now - last_activity si)%Q ->
              sessions
                (snd (remove_each
                        (collect now (sessions st) (keys (sessions st)) [])
                        (with_clock later st))) !! cid = Some si) as Hkeep.
    { intros cid si Hsi Hn. rewrite Hs, decide_False; [exact Hsi |].
      rewrite (Hin _ _ Hsi). exact Hn. }
    split; [| split; [exact Hkeep | split]].
    + intros cid si Hsi Hlt. rewrite Hs, decide_True; [reflexivity |].
      apply (Hin _ _ Hsi). exact Hlt.
    + intros cid si Hsi Hlt. apply Hkeep; [exact Hsi |].
      intros Hgt. apply (Qlt_irrefl 3600).
      eapply Qlt_trans; eassumption.
    + intros cid Hnone. rewrite Hs.
      destruct (decide _); [reflexivity | exact Hnone].
  - intros cid rest st Hnone. simpl.
    rewrite (bind_Return get_state _ st st st eq_refl). cbv beta.
    rewrite Hnone. reflexivity.
  - intros now m cid rest acc Hnone. simpl. rewrite Hnone. reflexivity.
Qed.

(** ** The exceptions of the controller *)

Create HintDb rais.

Ltac rais_step :=
  match goal with
  | |- raises_only _ (bind _ _) => apply raises_only_bind; [ | intros ? ]
  | |- raises_only ?P (try_except _ _) =>
      apply (raises_only_try_except_from P P); [ | intros ? ? ]
  | |- raises_only _ (ret _) => apply raises_only_ret
  | |- raises_only _ pending => apply raises_only_pending
  | |- raises_only _ (modify _) => apply raises_only_modify
  | |- raises_only _ (emit _) => apply raises_only_modify
  | |- raises_only _ (update _ _) => apply raises_only_modify
  | |- raises_only _ get_state => apply raises_only_get_state
  | |- raises_only _ (raise _) =>
      apply raises_only_raise;
      first [ assumption | exact I | (cbv; intuition congruence) ]
  | |- raises_only _ (match ?x with _ => _ end) => destruct x
  end.

Ltac rais := repeat rais_step; eauto with rais.

Lemma time_time_raises P : raises_only P time_time.
Proof.
  intros st e st'. unfold time_time. destruct (clock st); discriminate.
Qed.

Lemma deref_raises self : raises_only from_kernel_call (deref self).
Proof.
  intros st e st'. unfold deref. destruct (store st !! self); intros H;
    inversion H. exact I.
Qed.

#[local] Hint Resolve time_time_raises deref_raises : rais.

Lemma the_kernel_raises self : raises_only from_kernel_call (the_kernel self).
Proof. unfold the_kernel. rais. Qed.
#[local] Hint Resolve the_kernel_raises : rais.

Lemma is_alive_raises self : raises_only from_kernel_call (is_alive self).
Proof. unfold is_alive. rais. Qed.
#[local] Hint Resolve is_alive_raises : rais.

Lemma manager_and_alive_raises self :
  raises_only from_kernel_call (manager_and_alive self).
Proof. unfold manager_and_alive. rais. Qed.

Lemma kc_execute_raises self src :
  raises_only from_kernel_call (kc_execute self src).
Proof. unfold kc_execute. rais. Qed.

Lemma on_iopub_raises {A} self
  (f : list (option message) -> A * list (option message)) :
  raises_only from_kernel_call (on_iopub self f).
Proof. unfold on_iopub. rais. Qed.

#[local] Hint Resolve manager_and_alive_raises kc_execute_raises
  on_iopub_raises : rais.

Lemma clear_output_queue_raises self :
  raises_only from_kernel_call (_clear_output_queue self).
Proof. unfold _clear_output_queue. rais. Qed.

(** What the steps of [cleanup] raise stays inside it. *)
Lemma cleanup_raises self : raises_only from_kernel_call (cleanup self).
Proof.
  unfold cleanup.
  apply raises_only_bind; [rais |]. intros c.
  apply raises_only_bind.
  { destruct (kernel_client c);
      [apply raises_only_try_except; intros ?; rais | rais]. }
  intros _. apply raises_only_bind.
  { destruct (kernel_manager c);
      [apply raises_only_try_except; intros ?; rais | rais]. }
  intros _. destruct (notebook_path c); [| rais].
  apply raises_only_bind; [rais |]. intros st.
  destruct (decide _); [apply raises_only_try_except; intros ?; rais | rais].
Qed.

#[local] Hint Resolve clear_output_queue_raises cleanup_raises : rais.

Lemma kernel_call_from_wait {A} (m : M A) :
  raises_only from_kernel_call m -> raises_only from_wait m.
Proof. apply raises_only_weaken. intros []; simpl; tauto. Qed.

Lemma kernel_call_from_execute {A} (m : M A) :
  raises_only from_kernel_call m -> raises_only from_execute m.
Proof. apply raises_only_weaken. intros []; simpl; tauto. Qed.

Lemma kernel_call_not_404 {A} (m : M A) :
  raises_only from_kernel_call m -> raises_only not_404 m.
Proof. apply raises_only_weaken. intros []; simpl; try tauto. discriminate. Qed.


#[local] Hint Resolve kernel_call_from_wait kernel_call_from_execute
  kernel_call_not_404 : rais.

Lemma wait_loop_raises fuel self start_time timeout :
  raises_only from_wait (wait_loop fuel self start_time timeout).
Proof.
  induction fuel as [|fuel IH]; simpl.
  - rais.
  - apply raises_only_bind; [rais |]. intros c.
    destruct (_kernel_ready c); [rais |].
    apply raises_only_bind; [rais |]. intros now.
    destruct (Qgtb (now - start_time) timeout); [rais |].
    apply raises_only_bind.
    + apply raises_only_try_except. intros e. rais.
    + intros done. destruct done; [rais | exact IH].
Qed.
#[local] Hint Resolve wait_loop_raises : rais.

Lemma wait_for_kernel_ready_raises self timeout :
  raises_only from_wait (_wait_for_kernel_ready self timeout).
Proof. unfold _wait_for_kernel_ready. rais. Qed.

Lemma ensure_ready_raises self : raises_only from_execute (ensure_ready self).
Proof.
  unfold ensure_ready.
  apply raises_only_bind; [rais |]. intros c.
  destruct (negb (_kernel_ready c)); [| rais].
  apply raises_only_bind.
  - apply (raises_only_try_except_from from_wait);
      [apply wait_for_kernel_ready_raises |].
    intros e He. destruct e; simpl in He; try contradiction; simpl; rais.
  - intros _. rais.
Qed.

Lemma correlate_raises self src : raises_only from_execute (correlate self src).
Proof. unfold correlate. rais. Qed.

#[local] Hint Resolve ensure_ready_raises correlate_raises : rais.

Lemma execute_code_raises self src :
  raises_only from_execute (execute_code self src).
Proof. unfold execute_code. rais. Qed.

(** ** Dependency installation *)

Lemma install_dependencies_each session_info dependencies :
  _install_dependencies session_info dependencies
  = install_each (controller session_info) dependencies.
Proof. destruct dependencies; reflexivity. Qed.

Lemma install_each_skips_empty controller post : forall pre st,
  install_each controller (pre ++ "" :: post)%list st
  = install_each controller (pre ++ post)%list st.
Proof.
  induction pre as [|p pre IH]; intros st; simpl.
  - reflexivity.
  - destruct (truthy p); simpl; [| apply IH].
    unfold bind. destruct (install_one controller p st) as [[u|e|] st1];
      [apply IH | reflexivity | reflexivity].
Qed.

(** C10.  An empty string among the dependencies changes nothing: the run
    with it and the run without it end with the same result in the same
    state, trace of installs and submissions included; the loop steps over
    it and goes on with the names that follow, and a list that holds nothing
    else ends normally with the state untouched. *)
Theorem empty_names_are_skipped session_info :
  (forall pre post st,
     _install_dependencies session_info (pre ++ "" :: post)%list st
     = _install_dependencies session_info (pre ++ post)%list st)
  /\ (forall rest st,
        install_each (controller session_info) ("" :: rest) st
        = install_each (controller session_info) rest st)
  /\ (forall st, _install_dependencies session_info [""] st = (Return tt, st)).
Proof.
  split; [| split].
  - intros pre post st. rewrite !install_dependencies_each.
    apply install_each_skips_empty.
  - reflexivity.
  - reflexivity.
Qed.

Lemma installs_app a b : installs (a ++ b) = (installs a ++ installs b)%list.
Proof. unfold installs. apply flat_map_app. Qed.

Lemma installs_Execute l : Forall is_Execute l -> installs l = [].
Proof.
  induction 1 as [|a l Ha _ IH]; [reflexivity |].
  destruct a; simpl in *; try contradiction. exact IH.
Qed.

Lemma is_Execute_install_or_Execute l :
  Forall is_Execute l -> Forall is_install_or_Execute l.
Proof.
  intros H. eapply Forall_impl; [exact H |]. intros []; simpl; tauto.
Qed.

Lemma pip_install_eq p st :
  pip_install p st
  = (match pip st (pip_runs st) p with
     | Completed returncode stdout stderr =>
         Return (returncode, stdout, stderr)
     | PipTimeoutExpired => Raise TimeoutExpired
     | PipRaises msg => Raise (OSError msg)
     end,
     with_pip_runs (S (pip_runs st)) (with_trace (PipInstall p) st)).
Proof.
  unfold pip_install, bind, emit, modify, get_state, ret, raise; simpl.
  destruct (pip st (pip_runs st) p); reflexivity.
Qed.

Lemma install_one_spec controller p st :
  exists res st',
    install_one controller p st = (res, st')
    /\ sessions st' = sessions st
    /\ pip st' = pip st
    /\ pip_runs st' = S (pip_runs st)
    /\ (exists l, trace st' = (trace st ++ PipInstall p :: l)%list
                  /\ Forall is_Execute l)
    /\ match res with
       | Return _ => True
       | Raise e => reported_failure p (pip st (pip_runs st) p) e
       | Pending => True
       end.
Proof.
  assert (exists l : list action,
            (trace st ++ [PipInstall p])%list
            = (trace st ++ PipInstall p :: l)%list /\ Forall is_Execute l)
    as Hnil by (exists []; split; [reflexivity | constructor]).
  unfold install_one, try_except. unfold bind at 1.
  rewrite pip_install_eq. unfold reported_failure.
  set (st1 := with_pip_runs _ _).
  destruct (pip st (pip_runs st) p) as [rc out err| |msg];
    [| eexists _, _; split; [reflexivity | simpl; auto 6] ..].
  destruct (rc =? 0)%Z;
    [| eexists _, _; split; [reflexivity | simpl; auto 6]].
  pose proof (execute_code_kernel_calls controller
                ("import " ++ import_name_of p) st1)
    as (S1 & P1 & N1 & _ & l & T1 & A1).
  pose proof (execute_code_raises controller
                ("import " ++ import_name_of p) st1) as Hraise.
  assert (exists l0, trace (snd (execute_code controller
                                   ("import " ++ import_name_of p) st1))
                     = (trace st ++ PipInstall p :: l0)%list
                     /\ Forall is_Execute l0) as Htr.
  { exists l. rewrite T1. simpl. rewrite <- app_assoc.
    split; [reflexivity | exact A1]. }
  cbv beta iota zeta delta [bind ret raise negb].
  destruct (execute_code controller ("import " ++ import_name_of p) st1)
    as [[o|e|] st2] eqn:E; simpl in S1, P1, N1, Htr.
  - eexists _, _. split; [reflexivity |]. auto 6.
  - specialize (Hraise _ _ eq_refl).
    destruct e; try (exfalso; exact Hraise);
      (eexists _, _; split; [reflexivity |]);
      repeat (split; [assumption |]);
      (eexists; split; [exact Hraise | reflexivity]).
  - eexists _, _. split; [reflexivity |]. auto 6.
Qed.

Lemma truthy_nonempty p : truthy p = true -> p <> "".
Proof. destruct p; [discriminate | intros _ H; discriminate H]. Qed.

Lemma named_cons_true p l : truthy p = true -> named (p :: l) = p :: named l.
Proof. intros H. unfold named. cbn [List.filter]. rewrite H. reflexivity. Qed.

Lemma named_cons_false p l : truthy p = false -> named (p :: l) = named l.
Proof. intros H. unfold named. cbn [List.filter]. rewrite H. reflexivity. Qed.

Lemma installs_after_install tr p l :
  Forall is_Execute l ->
  installs (tr ++ PipInstall p :: l) = (installs tr ++ [p])%list.
Proof.
  intros H. rewrite installs_app. simpl. rewrite (installs_Execute _ H).
  reflexivity.
Qed.

Lemma install_each_spec controller dependencies : forall st,
  exists res st',
    install_each controller dependencies st = (res, st')
    /\ sessions st' = sessions st
    /\ pip st' = pip st
    /\ (exists l, trace st' = (trace st ++ l)%list
                  /\ Forall is_install_or_Execute l)
    /\ match res with
       | Return _ =>
           installs (trace st')
           = (installs (trace st) ++ named dependencies)%list
           /\ pip_runs st' = pip_runs st + length (named dependencies)
       | Raise e =>
           exists pre p post,
             dependencies = (pre ++ p :: post)%list
             /\ p <> ""
             /\ installs (trace st')
                = (installs (trace st) ++ named pre ++ [p])%list
             /\ reported_failure p
                  (pip st (pip_runs st + length (named pre)) p) e
             /\ exists st0, install_one controller p st0 = (Raise e, st')
       | Pending => True
       end.
Proof.
  induction dependencies as [|p rest IH]; intros st.
  - exists (Return tt), st. simpl. split; [reflexivity |].
    repeat split; rewrite ?app_nil_r; auto.
    exists []. rewrite app_nil_r. split; [reflexivity | constructor].
  - cbn [install_each].
    destruct (truthy p) eqn:Hp; cbv beta iota delta [negb].
    + destruct (install_one_spec controller p st)
        as (res1 & st1 & E1 & S1 & P1 & N1 & (l1 & T1 & A1) & R1).
      unfold bind. rewrite E1.
      destruct res1 as [u|e|].
      * destruct (IH st1)
          as (res2 & st2 & E2 & S2 & P2 & (l2 & T2 & A2) & R2).
        exists res2, st2. split; [exact E2 |].
        split; [congruence |]. split; [congruence |].
        split.
        { exists (PipInstall p :: l1 ++ l2)%list.
          rewrite T2, T1, <- app_assoc. split; [reflexivity |].
          constructor; [exact I |].
          apply Forall_app. split;
            [apply is_Execute_install_or_Execute; exact A1 | exact A2]. }
        rewrite T1, (installs_after_install _ _ _ A1) in R2.
        destruct res2 as [u2|e2|]; [| | exact I].
        -- destruct R2 as (R2 & N2). rewrite (named_cons_true _ _ Hp).
           rewrite R2, <- app_assoc. split; [reflexivity |].
           rewrite N2, N1. simpl. rewrite Nat.add_succ_r. reflexivity.
        -- destruct R2 as (pre & p' & post & -> & Hp' & R2 & F2 & Hlast).
           exists (p :: pre), p', post. split; [reflexivity |].
           split; [exact Hp' |]. rewrite (named_cons_true _ _ Hp).
           split; [rewrite R2, <- app_assoc; reflexivity |].
           split; [| exact Hlast].
           rewrite P1, N1 in F2. simpl. rewrite Nat.add_succ_r. exact F2.
      * exists (Raise e), st1. split; [reflexivity |].
        split; [exact S1 |]. split; [exact P1 |].
        split.
        { exists (PipInstall p :: l1). split; [exact T1 |].
          constructor; [exact I |].
          apply is_Execute_install_or_Execute; exact A1. }
        exists [], p, rest. split; [reflexivity |].
        split; [apply truthy_nonempty; exact Hp |].
        split; [rewrite T1; apply installs_after_install; exact A1 |].
        split; [| exists st; exact E1].
        simpl. rewrite Nat.add_0_r. exact R1.
      * exists Pending, st1. split; [reflexivity |].
        split; [exact S1 |]. split; [exact P1 |].
        split; [| exact I].
        exists (PipInstall p :: l1). split; [exact T1 |].
        constructor; [exact I |].
        apply is_Execute_install_or_Execute; exact A1.
    + destruct (IH st) as (res & st' & E & S & P & Htr & R).
      exists res, st'. split; [exact E |].
      split; [exact S |]. split; [exact P |]. split; [exact Htr |].
      destruct res as [u|e|]; [| | exact I].
      * rewrite (named_cons_false _ _ Hp). exact R.
      * destruct R as (pre & p' & post & -> & Hp' & R & F & Hlast).
        exists (p :: pre), p', post. split; [reflexivity |].
        split; [exact Hp' |]. rewrite (named_cons_false _ _ Hp).
        repeat split; assumption.
Qed.

(** The run of [_install_dependencies].  The names are handed to the
    installer in list order, the empty ones left out, and the first failure
    ends the run: the installer has then been called for the names before
    the failing one and for the failing one, and for none after it, and the
    run ends in the state in which the step of the failing package ended.
    Whatever the outcome the registry is as before, and the run has added
    nothing to the trace but installs and submissions. *)
Lemma install_dependencies_run session_info dependencies st :
  exists res st',
    _install_dependencies session_info dependencies st = (res, st')
    /\ sessions st' = sessions st
    /\ (exists l, trace st' = (trace st ++ l)%list
                  /\ Forall is_install_or_Execute l)
    /\ match res with
       | Return _ =>
           installs (trace st')
           = (installs (trace st) ++ named dependencies)%list
       | Raise e =>
           exists pre p post,
             dependencies = (pre ++ p :: post)%list
             /\ p <> ""
             /\ installs (trace st')
                = (installs (trace st) ++ named pre ++ [p])%list
             /\ reported_failure p
                  (pip st (pip_runs st + length (named pre)) p) e
             /\ exists st0,
                  install_one (controller session_info) p st0 = (Raise e, st')
       | Pending => True
       end.
Proof.
  rewrite install_dependencies_each.
  destruct (install_each_spec (controller session_info) dependencies st)
    as (res & st' & E & S & _ & Htr & R).
  exists res, st'. split; [exact E |]. split; [exact S |].
  split; [exact Htr |].
  destruct res as [u|e|]; [apply R | exact R | exact I].
Qed.

(** ** Requests for a conversation that is not registered *)

Lemma try_except_Return_inv {A} (m : M A) (h : exn -> M A) st a st' :
  try_except m h st = (Return a, st') ->
  m st = (Return a, st')
  \/ exists e s1, m st = (Raise e, s1) /\ h e s1 = (Return a, st').
Proof.
  unfold try_except. destruct (m st) as [[a0|e|] s1]; intros H.
  - left. exact H.
  - right. exists e, s1. split; [reflexivity | exact H].
  - discriminate.
Qed.




Lemma install_dependencies_sessions session_info dependencies st :
  sessions (snd (_install_dependencies session_info dependencies st))
  = sessions st.
Proof.
  rewrite install_dependencies_each.
  destruct (install_each_spec (controller session_info) dependencies st)
    as (res & st1 & E1 & S & _).
  rewrite E1. exact S.
Qed.

Lemma execute_code_sessions self src st :
  sessions (snd (execute_code self src st)) = sessions st.
Proof. apply (execute_code_kernel_calls self src st). Qed.

(** A creation that returns has registered the session it returns, on a
    controller that did not exist before. *)
Lemma create_session_Return conversation_id st session_info st' :
  _create_session conversation_id st = (Return session_info, st') ->
  sessions st !! conversation_id = None ->
  sessions st' !! conversation_id = Some session_info
  /\ controller session_info = length (store st).
Proof.
  intros E Hnone. unfold _create_session in E.
  rewrite (bind_Return get_state _ st st st eq_refl) in E. cbv beta in E.
  rewrite Hnone in E.
  rewrite (bind_Return (ret tt) _ st tt st eq_refl) in E.
  apply bind_Return_inv in E as (ctl & s0 & E0 & E).
  assert (ctl = length (store st)) as ->.
  { unfold new_controller in E0.
    rewrite (bind_Return get_state _ st st st eq_refl) in E0.
    apply bind_Return_inv in E0 as (u & s' & _ & E0).
    inversion E0. reflexivity. }
  apply try_except_Return_inv in E as [E|(e & s1 & _ & E)].
  2:{ apply bind_Return_inv in E as (u & s' & _ & E). discriminate. }
  apply bind_Return_inv in E as (path & s1 & _ & E).
  apply bind_Return_inv in E as (now & s2 & _ & E).
  apply bind_Return_inv in E as (u & s3 & E3 & E).
  inversion E3; subst s3 u. clear E3.
  apply bind_Return_inv in E as (u & s4 & E4 & E).
  inversion E; subst. clear E. simpl. split; [| reflexivity].
  apply try_except_Return_inv in E4 as [E4|(e & s5 & _ & E4)].
  2:{ apply bind_Return_inv in E4 as (u' & s' & _ & E4).
      apply bind_Return_inv in E4 as (u'' & s'' & _ & E4). discriminate. }
  apply bind_Return_inv in E4 as (o & s5 & E5 & E4).
  inversion E4; subst. clear E4.
  pose proof (execute_code_sessions (length (store st)) setup_code
                (with_sessions
                   <[conversation_id :=
                       {| controller := length (store st); created_at := now;
                          last_activity := now |}]> s2)) as S.
  rewrite E5 in S. simpl in S. rewrite S. apply lookup_insert_eq.
Qed.

Lemma get_session_absent conversation_id st :
  sessions st !! conversation_id = None ->
  get_session conversation_id st = (Raise (not_found conversation_id), st).
Proof.
  intros Hnone. unfold get_session.
  rewrite (bind_Return get_state _ st st st eq_refl). cbv beta.
  rewrite Hnone. reflexivity.
Qed.


(** ** Failures of creation and of a restart during an access *)

Lemma store_kept_preorder : PreOrder store_kept.
Proof.
  split.
  - intros st. reflexivity.
  - intros a b c H1 H2. unfold store_kept in *. congruence.
Qed.

#[local] Existing Instance store_kept_preorder.

Lemma time_time_store_kept : preserves store_kept time_time.
Proof.
  intros st. unfold time_time. destruct (clock st); reflexivity.
Qed.

Lemma deref_store_kept self : preserves store_kept (deref self).
Proof.
  intros st. unfold deref. destruct (store st !! self); reflexivity.
Qed.

Lemma update_store_kept self f : preserves store_kept (update self f).
Proof.
  apply preserves_modify. intros st. unfold store_kept. simpl.
  destruct (store st !! self); [apply length_insert | reflexivity].
Qed.

Lemma emit_store_kept a : preserves store_kept (emit a).
Proof. apply preserves_modify. intros st. reflexivity. Qed.

Lemma with_spawn_store_kept sp : preserves store_kept (modify (with_spawn sp)).
Proof. apply preserves_modify. intros st. reflexivity. Qed.

Lemma with_files_store_kept f : preserves store_kept (modify (with_files f)).
Proof. apply preserves_modify. intros st. reflexivity. Qed.

#[local] Hint Resolve time_time_store_kept deref_store_kept update_store_kept
  emit_store_kept with_spawn_store_kept with_files_store_kept : pres.

Lemma is_alive_store_kept self : preserves store_kept (is_alive self).
Proof. unfold is_alive, the_kernel. pres. Qed.

Lemma on_iopub_store_kept {A} self
  (f : list (option message) -> A * list (option message)) :
  preserves store_kept (on_iopub self f).
Proof. unfold on_iopub, the_kernel. pres. Qed.

Lemma kc_execute_store_kept self src :
  preserves store_kept (kc_execute self src).
Proof. unfold kc_execute, the_kernel. pres. Qed.

#[local] Hint Resolve is_alive_store_kept on_iopub_store_kept
  kc_execute_store_kept : pres.

Lemma wait_loop_store_kept fuel self start_time timeout :
  preserves store_kept (wait_loop fuel self start_time timeout).
Proof.
  induction fuel as [|fuel IH]; simpl; unfold probe, manager_and_alive; pres.
Qed.
#[local] Hint Resolve wait_loop_store_kept : pres.

Lemma execute_code_store_kept self src :
  preserves store_kept (execute_code self src).
Proof.
  unfold execute_code, ensure_ready, correlate, _clear_output_queue,
    _wait_for_kernel_ready.
  pres.
Qed.

Lemma create_notebook_store_kept self notebook_name :
  preserves store_kept (create_notebook self notebook_name).
Proof.
  unfold create_notebook, start_kernel, _clear_output_queue,
    _wait_for_kernel_ready.
  pres.
Qed.

Lemma stop_channels_never_pending self : never_pending (stop_channels self).
Proof. unfold stop_channels. nowait. Qed.

Lemma is_alive_never_pending self : never_pending (is_alive self).
Proof. unfold is_alive, the_kernel. nowait. Qed.

Lemma shutdown_kernel_never_pending self :
  never_pending (shutdown_kernel self).
Proof. unfold shutdown_kernel, the_kernel. nowait. Qed.

Lemma os_remove_never_pending path : never_pending (os_remove path).
Proof. unfold os_remove. nowait. Qed.

(** [cleanup] on a controller that exists returns, whatever its steps
    raise. *)
Lemma cleanup_returns self st c :
  store st !! self = Some c ->
  exists st', cleanup self st = (Return tt, st')
              /\ sessions st' = sessions st.
Proof.
  intros H.
  assert (exists st', cleanup self st = (Return tt, st')) as (st' & E).
  { unfold cleanup.
    rewrite (bind_Return _ _ _ _ _ (deref_spec _ _ _ H)).
    assert (exists st1,
              (if kernel_client c then
                 try_except (stop_channels self) (fun _ => ret tt)
               else ret tt) st
              = (Return tt, st1)) as (st1 & E1).
    { destruct (kernel_client c); [| eexists; reflexivity].
      eexists. apply swallowed_returns, stop_channels_never_pending. }
    rewrite (bind_Return _ _ _ _ _ E1).
    assert (exists st2,
              match kernel_manager c with
              | Some _ =>
                  try_except
                    (bind (is_alive self)
                       (fun alive =>
                          if alive then shutdown_kernel self else ret tt))
                    (fun _ => ret tt)
              | None => ret tt
              end st1 = (Return tt, st2)) as (st2 & E2).
    { destruct (kernel_manager c) as [k|]; [| eexists; reflexivity].
      eexists. apply swallowed_returns.
      apply never_pending_bind; [apply is_alive_never_pending |].
      intros [|]; [apply shutdown_kernel_never_pending | nowait]. }
    rewrite (bind_Return _ _ _ _ _ E2).
    destruct (notebook_path c) as [path|]; [| eexists; reflexivity].
    rewrite (bind_Return get_state _ st2 st2 st2 eq_refl). cbv beta.
    destruct (decide (path ∈ files st2)); [| eexists; reflexivity].
    eexists. apply swallowed_returns, os_remove_never_pending. }
  exists st'. split; [exact E |].
  pose proof (cleanup_registry_untouched self st) as (S & _).
  rewrite E in S. exact S.
Qed.

(** A creation that fails leaves the conversation unregistered. *)
Lemma create_session_failure_unregisters conversation_id st e st' :
  sessions st !! conversation_id = None ->
  _create_session conversation_id st = (Raise e, st') ->
  sessions st' !! conversation_id = None.
Proof.
  intros Hnone E. unfold _create_session in E.
  rewrite (bind_Return get_state _ st st st eq_refl) in E. cbv beta in E.
  rewrite Hnone in E.
  rewrite (bind_Return (ret tt) _ st tt st eq_refl) in E.
  set (c0 := {| folder_path := os_path_join SESSIONS_FOLDER conversation_id;
                notebook_path := None; kernel_manager := None;
                kernel_client := false; _kernel_ready := false |}) in *.
  set (s0 := with_store (fun h => (h ++ [c0])%list) st).
  rewrite (bind_Return (new_controller _) _ st (length (store st)) s0)
    in E by reflexivity.
  set (ctl := length (store st)) in *.
  assert (ctl < length (store s0)) as Hctl.
  { subst s0 ctl. simpl. rewrite length_app. simpl. lia. }
  unfold try_except at 1 in E.
  match type of E with
  | context [bind (create_notebook ?a ?b) ?K s0] =>
      set (K1 := K) in E;
      pose proof (create_notebook_registry_untouched a b s0) as (Sa & _);
      pose proof (create_notebook_store_kept a b s0) as La;
      unfold bind at 1 in E;
      destruct (create_notebook a b s0) as [[path|ea|] sa]
  end; simpl in Sa, La.
  - (* the notebook and the kernel are up *)
    subst K1. cbv beta in E. unfold bind at 1 in E. unfold time_time at 1 in E.
    destruct (clock sa) as [|now later] eqn:Hclock; [discriminate E |].
    cbv beta iota in E.
    set (si := {| controller := ctl; created_at := now; last_activity := now |})
      in E.
    set (sc := with_sessions <[conversation_id := si]> (with_clock later sa))
      in *.
    rewrite (bind_Return (modify _) _ _ tt sc) in E by reflexivity.
    unfold bind at 1 in E. unfold try_except at 1 in E. unfold bind at 1 in E.
    pose proof (execute_code_kernel_calls ctl setup_code sc) as (Sd & _).
    pose proof (execute_code_store_kept ctl setup_code sc) as Ld.
    destruct (execute_code ctl setup_code sc) as [[o|e1|] sd];
      simpl in Sd, Ld; cbv beta iota in E.
    + discriminate E.
    + assert (is_Some (store sd !! ctl)) as [cd Hcd].
      { apply lookup_lt_is_Some. rewrite Ld. subst sc. simpl. rewrite La.
        exact Hctl. }
      destruct (cleanup_returns ctl sd cd Hcd) as (se & Ee & Se).
      rewrite (bind_Return _ _ _ _ _ Ee) in E.
      assert (sessions se !! conversation_id = Some si) as Hreg.
      { rewrite Se, Sd. subst sc. simpl. apply lookup_insert_eq. }
      unfold del_session in E.
      unfold bind at 1 in E.
      rewrite (bind_Return get_state _ se se se eq_refl) in E.
      cbv beta in E. rewrite Hreg in E. cbv beta iota in E.
      unfold modify at 1 in E. cbv beta iota in E. unfold raise at 1 in E.
      destruct (cleanup ctl (with_sessions (delete conversation_id) se))
        as [[u|ec|] sg] eqn:Eg;
        pose proof (cleanup_registry_untouched ctl
                      (with_sessions (delete conversation_id) se)) as (Sg & _);
        rewrite Eg in Sg; simpl in Sg;
        (rewrite (bind_Return _ _ _ _ _ Eg) in E
         || rewrite (bind_Raise _ _ _ _ _ Eg) in E || idtac);
        try (inversion E; subst; rewrite Sg; apply lookup_delete_eq).
      unfold bind in E. rewrite Eg in E. discriminate E.
    + discriminate E.
  - (* the notebook or the kernel failed *)
    destruct (cleanup ctl sa) as [[u|ec|] sg] eqn:Eg;
      pose proof (cleanup_registry_untouched ctl sa) as (Sg & _);
      rewrite Eg in Sg; simpl in Sg;
      (rewrite (bind_Return _ _ _ _ _ Eg) in E
       || rewrite (bind_Raise _ _ _ _ _ Eg) in E || idtac);
      try (inversion E; subst; rewrite Sg, Sa; exact Hnone).
    unfold bind in E. rewrite Eg in E. discriminate E.
  - discriminate E.
Qed.

Lemma reset_or_remove_failure_unregisters conversation_id controller indent
  failure st e st' :
  reset_or_remove conversation_id controller indent failure st = (Raise e, st') ->
  is_HTTPException e = true ->
  sessions st' !! conversation_id = None.
Proof.
  unfold reset_or_remove, try_except. intros E He.
  match type of E with
  | context [match ?body st with _ => _ end] =>
      destruct (body st) as [[u|e0|] s1]
  end; try discriminate E.
  unfold bind at 1 in E.
  pose proof (cleanup_raises controller s1) as Hc.
  destruct (cleanup controller s1) as [[u|ec|] s2].
  - unfold del_session in E. unfold bind at 1 in E.
    rewrite (bind_Return get_state _ s2 s2 s2 eq_refl) in E. cbv beta in E.
    destruct (sessions s2 !! conversation_id).
    + inversion E; subst. simpl. apply lookup_delete_eq.
    + inversion E; subst. discriminate He.
  - inversion E; subst. specialize (Hc _ _ eq_refl).
    destruct e; simpl in Hc; try contradiction. discriminate He.
  - discriminate E.
Qed.

(** An access that fails with the 500 answer, which is what a failed restart
    or a failed bootstrap after it ends in, has removed the session from
    the registry. *)
Lemma get_session_failure_unregisters conversation_id st e st' :
  get_session conversation_id st = (Raise e, st') ->
  status_of e = Some 500%Z ->
  sessions st' !! conversation_id = None.
Proof.
  unfold get_session. intros E He.
  rewrite (bind_Return get_state _ st st st eq_refl) in E. cbv beta in E.
  destruct (sessions st !! conversation_id) as [found|].
  2:{ inversion E; subst. discriminate He. }
  unfold bind at 1 in E. unfold time_time at 1 in E.
  destruct (clock st) as [|now later]; [discriminate E |].
  cbv beta iota in E.
  set (si := set_last_activity now found) in E.
  set (s1 := with_sessions <[conversation_id := si]> (with_clock later st)) in E.
  rewrite (bind_Return (modify _) _ _ tt s1) in E by reflexivity.
  cbv zeta in E. unfold bind at 1 in E.
  pose proof (manager_and_alive_raises (controller si) s1) as Hm.
  destruct (manager_and_alive (controller si) s1) as [[alive|em|] s2].
  - assert (is_HTTPException e = true) as Hhttp
      by (destruct e; try discriminate He; reflexivity).
    destruct alive; cbv beta iota delta [negb] in E.
    + unfold bind at 1 in E.
      pose proof (deref_raises (controller si) s2) as Hd.
      destruct (deref (controller si) s2) as [[c|ed|] s3].
      * destruct (_kernel_ready c); cbv beta iota delta [negb] in E;
          [discriminate E |].
        unfold bind at 1 in E. unfold try_except at 1 in E.
        pose proof (wait_for_kernel_ready_raises (controller si) 15 s3) as Hw.
        destruct (_wait_for_kernel_ready (controller si) 15 s3)
          as [[u|ew|] s4]; try discriminate E.
        specialize (Hw _ _ eq_refl).
        destruct (is_TimeoutError ew).
        -- match type of E with
           | context [reset_or_remove ?a ?b ?c ?d s4] =>
               destruct (reset_or_remove a b c d s4) as [[u|er|] s5] eqn:Er
           end; try discriminate E.
           inversion E; subst.
           eapply reset_or_remove_failure_unregisters; eassumption.
        -- inversion E; subst. destruct e; simpl in Hw; try contradiction;
             discriminate He.
      * inversion E; subst. specialize (Hd _ _ eq_refl).
        destruct e; simpl in Hd; try contradiction. discriminate He.
      * discriminate E.
    + unfold bind at 1 in E. unfold update, modify in E. cbv beta iota in E.
      unfold bind at 1 in E.
      match type of E with
      | context [reset_or_remove ?a ?b ?c ?d ?s] =>
          destruct (reset_or_remove a b c d s) as [[u|er|] s5] eqn:Er
      end; try discriminate E.
      inversion E; subst.
      eapply reset_or_remove_failure_unregisters; eassumption.
  - inversion E; subst. specialize (Hm _ _ eq_refl).
    destruct e; simpl in Hm; try contradiction. discriminate He.
  - discriminate E.
Qed.

(** ** An interpreter error, and messages of other requests *)

(** An error message ends a ready execution at once, and what reaches the
    caller is the 500 answer of the catch-all clause: the 400 exception with
    the structured detail is raised inside the [try] block, and is
    rendered into the text of that answer. *)
Lemma execute_code_interpreter_error self src st c k n pre m rest :
  store st !! self = Some c -> _kernel_ready c = true ->
  kernel_manager c = Some k -> life k = S n ->
  drain (iopub k) = (arrivals pre ++ Some m :: rest)%list ->
  forallb (ordinary (msg_ids k (submitted k))) pre = true ->
  is_error m = true ->
  fst (execute_code self src st)
  = Raise (HTTPException 500 (DetailStr
      ("Internal error processing kernel output: "
         ++ str_exn (HTTPException 400
              (DetailError "Execution error"
                 (default "UnknownError" (ename (content m)))
                 (default "Unknown error value" (evalue (content m)))
                 (default [] (traceback (content m)))))))).
Proof.
  intros H Hr Hk Hl Hq Hpre Hm.
  destruct (execute_code_ready self src st c k n H Hr Hk Hl)
    as (st1 & c1 & k1 & E & L1 & Hk1 & _ & _ & Hq1 & Hi1 & Hs1).
  rewrite <- Hq1 in Hq. rewrite <- Hi1, <- Hs1 in Hpre.
  destruct (correlate_error self src st1 c1 k1 pre m rest L1 Hk1 Hq Hpre Hm)
    as (st' & E').
  rewrite E, E'. reflexivity.
Qed.

(** The loop appends the text of a stream message whatever request the
    message answers: only the idle status is matched against the token. *)
Remark stream_text_is_appended_whatever_its_parent msg_id parent t outputs q :
  consume msg_id outputs (Some (stream_msg parent t) :: q)
  = consume msg_id (outputs ++ [t]) q.
Proof. reflexivity. Qed.

(** * Further properties of the code *)

(** ** Ending a session *)

(** X1 ([end_session]).  Ending a registered session answers with the
    success message, removes that key from the registry and schedules one
    teardown task for its controller; the handler itself touches neither the
    controller nor the files.  From then on the id is unknown: a second
    [end_session], a [reset] and an access all answer 404. *)
Theorem end_session_unregisters_and_schedules_teardown
  conversation_id st session_info :
  sessions st !! conversation_id = Some session_info ->
  exists st',
    end_session conversation_id st
    = (Return ("Session '" ++ conversation_id
                 ++ "' ended successfully and cleanup initiated."), st')
    /\ sessions st' = delete conversation_id (sessions st)
    /\ store st' = store st
    /\ files st' = files st
    /\ trace st' = (trace st ++ [CleanupTask (controller session_info)])%list
    /\ answered_status (fst (end_session conversation_id st')) = Some 404%Z
    /\ answered_status (fst (reset_session conversation_id st')) = Some 404%Z
    /\ answered_status (fst (get_session conversation_id st')) = Some 404%Z.
Proof.
  intros H. unfold end_session at 1.
  rewrite (bind_Return get_state _ st st st eq_refl). cbv beta. rewrite H.
  eexists. split; [reflexivity |]. simpl.
  repeat (split; [reflexivity |]).
  set (st' := with_trace _ _).
  assert (sessions st' !! conversation_id = None) as Hgone
    by (subst st'; simpl; apply lookup_delete_eq).
  split; [| split].
  - unfold end_session.
    rewrite (bind_Return get_state _ st' st' st' eq_refl). cbv beta.
    rewrite Hgone. reflexivity.
  - unfold reset_session, try_except.
    rewrite (bind_Raise _ _ _ _ _ (get_session_absent _ _ Hgone)). reflexivity.
  - rewrite (get_session_absent _ _ Hgone). reflexivity.
Qed.

(** ** A kernel that is dead when a request arrives *)

(** X2 ([execute_code], the liveness check before the submission).  On a
    controller that is ready but whose process has died the call raises the
    kernel-died error and clears the readiness flag; that is all it does:
    nothing is submitted and the output channel is not read. *)
Theorem execute_code_on_dead_kernel self src st c k :
  store st !! self = Some c -> _kernel_ready c = true ->
  kernel_manager c = Some k -> life k = 0 ->
  execute_code self src st
  = (Raise (RuntimeError "Kernel died. Please restart session."),
     with_store <[self := set_kernel_ready false c]> st).
Proof.
  intros H Hr Hk Hl. unfold execute_code.
  assert (ensure_ready self st = (Return tt, st)) as Ee.
  { unfold ensure_ready. rewrite (bind_Return _ _ _ _ _ (deref_spec _ _ _ H)).
    rewrite Hr. reflexivity. }
  rewrite (bind_Return _ _ _ _ _ Ee).
  rewrite (bind_Return _ _ _ _ _ (is_alive_dead _ _ _ _ H Hk Hl)).
  change (negb false) with true. cbv iota.
  unfold bind, update, modify, raise, with_store. simpl. rewrite H. reflexivity.
Qed.

(** ** An access to a healthy session *)

(** An access to a session whose process is alive and whose controller is
    ready. *)
Lemma get_session_healthy conversation_id st found c k n now later :
  sessions st !! conversation_id = Some found ->
  store st !! controller found = Some c -> _kernel_ready c = true ->
  kernel_manager c = Some k -> life k = S n ->
  clock st = now :: later ->
  exists st',
    get_session conversation_id st = (Return (set_last_activity now found), st')
    /\ sessions st'
       = <[conversation_id := set_last_activity now found]> (sessions st)
    /\ store st'
       = <[controller found := set_kernel_manager (set_life n k) c]> (store st)
    /\ clock st' = later
    /\ trace st' = trace st
    /\ files st' = files st.
Proof.
  intros H Hc Hr Hk Hl Hclock. unfold get_session.
  rewrite (bind_Return get_state _ st st st eq_refl). cbv beta. rewrite H.
  assert (time_time st = (Return now, with_clock later st)) as Et
    by (unfold time_time; rewrite Hclock; reflexivity).
  rewrite (bind_Return time_time _ _ _ _ Et). cbv zeta.
  set (si := set_last_activity now found).
  set (s1 := with_sessions <[conversation_id := si]> (with_clock later st)).
  rewrite (bind_Return (modify _) _ _ tt s1) by reflexivity.
  change (controller si) with (controller found).
  assert (store s1 !! controller found = Some c) as Hc1 by exact Hc.
  destruct (is_alive_alive _ _ _ _ _ Hc1 Hk Hl) as (s2 & E2 & L2).
  assert (manager_and_alive (controller found) s1 = (Return true, s2)) as Em.
  { unfold manager_and_alive.
    rewrite (bind_Return _ _ _ _ _ (deref_spec _ _ _ Hc1)). rewrite Hk.
    exact E2. }
  rewrite (bind_Return _ _ _ _ _ Em). change (negb true) with false. cbv iota.
  rewrite (bind_Return _ _ _ _ _ (deref_spec _ _ _ L2)).
  change (_kernel_ready (set_kernel_manager (set_life n k) c))
    with (_kernel_ready c).
  rewrite Hr. change (negb true) with false. cbv iota.
  exists s2. split; [reflexivity |].
  unfold is_alive in E2.
  rewrite (bind_Return _ _ _ _ _ (the_kernel_spec _ _ _ _ Hc1 Hk)) in E2.
  rewrite Hl in E2. unfold bind, update, modify, ret in E2.
  inversion E2; subst s2; clear E2. simpl. rewrite Hc.
  repeat split; reflexivity.
Qed.

(** X3 ([get_session], the path without a restart).  When the process of a
    registered session is alive and its controller is ready, an access
    returns the session with [last_activity] set to the reading of the
    clock and stores it under the id; it polls the process once and does
    nothing else: no restart, no submission, no teardown. *)
Theorem get_session_on_healthy_session conversation_id st found c k n now later :
  sessions st !! conversation_id = Some found ->
  store st !! controller found = Some c -> _kernel_ready c = true ->
  kernel_manager c = Some k -> life k = S n ->
  clock st = now :: later ->
  exists st',
    get_session conversation_id st = (Return (set_last_activity now found), st')
    /\ sessions st'
       = <[conversation_id := set_last_activity now found]> (sessions st)
    /\ store st'
       = <[controller found := set_kernel_manager (set_life n k) c]> (store st)
    /\ clock st' = later
    /\ trace st' = trace st
    /\ files st' = files st.
Proof.
  exact (get_session_healthy conversation_id st found c k n now later).
Qed.

(** ** Calls on one controller: what they return and what they leave alone *)

Lemma update_eq self f st c :
  store st !! self = Some c ->
  update self f st = (Return tt, with_store <[self := f c]> st).
Proof.
  intros H. unfold update, modify, with_store. rewrite H. reflexivity.
Qed.

Lemma lookup_updated self x st c :
  store st !! self = Some c ->
  store (with_store <[self := x]> st) !! self = Some x.
Proof.
  intros H. simpl. apply list_lookup_insert_eq.
  eapply lookup_lt_Some. exact H.
Qed.

Lemma is_alive_eq self st c k :
  store st !! self = Some c -> kernel_manager c = Some k ->
  is_alive self st
  = match life k with
    | O => (Return false, st)
    | S n =>
        (Return true,
         with_store <[self := set_kernel_manager (set_life n k) c]> st)
    end.
Proof.
  intros H Hk. unfold is_alive.
  rewrite (bind_Return _ _ _ _ _ (the_kernel_spec _ _ _ _ H Hk)).
  destruct (life k) as [|n]; [reflexivity |].
  rewrite (bind_Return _ _ _ _ _ (update_eq _ _ _ _ H)). reflexivity.
Qed.

Lemma on_iopub_eq {A} self
  (f : list (option message) -> A * list (option message)) st c k :
  store st !! self = Some c -> kernel_manager c = Some k ->
  on_iopub self f st
  = (Return (fst (f (iopub k))),
     with_store
       <[self := set_kernel_manager (set_iopub (snd (f (iopub k))) k) c]> st).
Proof.
  intros H Hk. unfold on_iopub.
  rewrite (bind_Return _ _ _ _ _ (the_kernel_spec _ _ _ _ H Hk)).
  destruct (f (iopub k)) as [a q]. simpl.
  rewrite (bind_Return _ _ _ _ _ (update_eq _ _ _ _ H)). reflexivity.
Qed.

Lemma kc_execute_eq self src st c k :
  store st !! self = Some c -> kernel_manager c = Some k ->
  kc_execute self src st
  = (Return (msg_ids k (submitted k)),
     with_trace (Execute self src)
       (with_store
          <[self := set_kernel_manager (set_submitted (S (submitted k)) k) c]>
          st)).
Proof.
  intros H Hk. unfold kc_execute.
  rewrite (bind_Return _ _ _ _ _ (the_kernel_spec _ _ _ _ H Hk)).
  rewrite (bind_Return _ _ _ _ _ (update_eq _ _ _ _ H)). reflexivity.
Qed.

Lemma shutdown_kernel_eq self st c k :
  store st !! self = Some c -> kernel_manager c = Some k ->
  shutdown_kernel self st
  = if raising st (ShutdownKernel self) then
      (Raise (RuntimeError "shutdown_kernel"),
       with_trace (ShutdownKernel self) st)
    else
      (Return tt,
       with_trace (ShutdownKernel self)
         (with_store <[self := set_kernel_manager (set_life 0 k) c]> st)).
Proof.
  intros H Hk. unfold shutdown_kernel.
  rewrite (bind_Return _ _ _ _ _ (the_kernel_spec _ _ _ _ H Hk)).
  rewrite (bind_Return get_state _ st st st eq_refl). cbv beta.
  destruct (raising st (ShutdownKernel self)); [reflexivity |].
  rewrite (bind_Return _ _ _ _ _ (update_eq _ _ _ _ H)). reflexivity.
Qed.

(** A call that fails for want of a controller or of a manager. *)
Lemma the_kernel_no_manager self st c :
  store st !! self = Some c -> kernel_manager c = None ->
  the_kernel self st = (Raise (AttributeError "kernel_manager"), st).
Proof.
  intros H Hk. unfold the_kernel.
  rewrite (bind_Return _ _ _ _ _ (deref_spec _ _ _ H)). rewrite Hk.
  reflexivity.
Qed.

Lemma only_controller_preorder self : PreOrder (only_controller self).
Proof.
  split.
  - intros st l _. reflexivity.
  - intros a b c H1 H2 l Hl. rewrite (H2 l Hl). apply H1, Hl.
Qed.

Lemma controllers_persist_preorder : PreOrder controllers_persist.
Proof.
  split.
  - intros st. split; [reflexivity |]. intros l c H. exists c. auto.
  - intros a b c [F1 H1] [F2 H2]. split; [congruence |].
    intros l x Hx. destruct (H1 l x Hx) as (y & Hy & P1 & P2 & P3 & P4).
    destruct (H2 l y Hy) as (z & Hz & Q1 & Q2 & Q3 & Q4).
    exists z. repeat split; try congruence. auto.
Qed.

Lemma other_sessions_kept_preorder conversation_id :
  PreOrder (other_sessions_kept conversation_id).
Proof.
  split.
  - intros st other _. reflexivity.
  - intros a b c H1 H2 other Ho. rewrite (H2 other Ho). apply H1, Ho.
Qed.

#[local] Existing Instance only_controller_preorder.
#[local] Existing Instance controllers_persist_preorder.
#[local] Existing Instance other_sessions_kept_preorder.

(** *** Every controller but the one called *)

Lemma same_store_only_controller self (f : state -> state) :
  (forall st, store (f st) = store st) ->
  preserves (only_controller self) (modify f).
Proof.
  intros H. apply preserves_modify. intros st l _. rewrite H. reflexivity.
Qed.

Lemma time_time_only_controller self : preserves (only_controller self) time_time.
Proof.
  intros st l _. unfold time_time. destruct (clock st); reflexivity.
Qed.

Lemma deref_only_controller self l : preserves (only_controller self) (deref l).
Proof.
  intros st x _. unfold deref. destruct (store st !! l); reflexivity.
Qed.

Lemma update_only_controller self f :
  preserves (only_controller self) (update self f).
Proof.
  apply preserves_modify. intros st l Hl. simpl.
  destruct (store st !! self); [| reflexivity].
  apply list_lookup_insert_ne. congruence.
Qed.

Lemma emit_only_controller self a : preserves (only_controller self) (emit a).
Proof. apply same_store_only_controller. reflexivity. Qed.

Lemma with_spawn_only_controller self sp :
  preserves (only_controller self) (modify (with_spawn sp)).
Proof. apply same_store_only_controller. reflexivity. Qed.

Lemma with_files_only_controller self f :
  preserves (only_controller self) (modify (with_files f)).
Proof. apply same_store_only_controller. reflexivity. Qed.

Lemma with_sessions_only_controller self f :
  preserves (only_controller self) (modify (with_sessions f)).
Proof. apply same_store_only_controller. reflexivity. Qed.

Lemma with_pip_runs_only_controller self n :
  preserves (only_controller self) (modify (with_pip_runs n)).
Proof. apply same_store_only_controller. reflexivity. Qed.

#[local] Hint Resolve time_time_only_controller deref_only_controller
  update_only_controller emit_only_controller with_spawn_only_controller
  with_files_only_controller with_sessions_only_controller
  with_pip_runs_only_controller : pres.

Lemma is_alive_only_controller self :
  preserves (only_controller self) (is_alive self).
Proof. unfold is_alive, the_kernel. pres. Qed.

Lemma on_iopub_only_controller {A} self
  (f : list (option message) -> A * list (option message)) :
  preserves (only_controller self) (on_iopub self f).
Proof. unfold on_iopub, the_kernel. pres. Qed.

Lemma kc_execute_only_controller self src :
  preserves (only_controller self) (kc_execute self src).
Proof. unfold kc_execute, the_kernel. pres. Qed.

#[local] Hint Resolve is_alive_only_controller on_iopub_only_controller
  kc_execute_only_controller : pres.

Lemma wait_loop_only_controller fuel self start_time timeout :
  preserves (only_controller self) (wait_loop fuel self start_time timeout).
Proof.
  induction fuel as [|fuel IH]; simpl; unfold probe, manager_and_alive; pres.
Qed.
#[local] Hint Resolve wait_loop_only_controller : pres.

Lemma wait_for_kernel_ready_only_controller self timeout :
  preserves (only_controller self) (_wait_for_kernel_ready self timeout).
Proof. unfold _wait_for_kernel_ready. pres. Qed.

Lemma clear_output_queue_only_controller self :
  preserves (only_controller self) (_clear_output_queue self).
Proof. unfold _clear_output_queue. pres. Qed.

#[local] Hint Resolve wait_for_kernel_ready_only_controller
  clear_output_queue_only_controller : pres.

Lemma execute_code_only_controller self src :
  preserves (only_controller self) (execute_code self src).
Proof. unfold execute_code, ensure_ready, correlate. pres. Qed.

Lemma cleanup_only_controller self :
  preserves (only_controller self) (cleanup self).
Proof.
  unfold cleanup, stop_channels, shutdown_kernel, os_remove, the_kernel. pres.
Qed.

#[local] Hint Resolve execute_code_only_controller cleanup_only_controller
  : pres.

Lemma reset_kernel_only_controller self :
  preserves (only_controller self) (reset_kernel self).
Proof. unfold reset_kernel, restart_kernel, the_kernel. pres. Qed.

Lemma create_notebook_only_controller self notebook_name :
  preserves (only_controller self) (create_notebook self notebook_name).
Proof. unfold create_notebook, start_kernel. pres. Qed.

#[local] Hint Resolve reset_kernel_only_controller
  create_notebook_only_controller : pres.

(** ** Teardown *)

(** The first step of [cleanup]: the channels are told to stop, and what
    the call raises is swallowed. *)
Lemma stop_step_eq self st :
  try_except (stop_channels self) (fun _ => ret tt) st
  = (Return tt, with_trace (StopChannels self) st).
Proof.
  unfold try_except, stop_channels, bind, emit, modify, get_state, ret, raise.
  simpl. destruct (raising st (StopChannels self)); reflexivity.
Qed.

(** The last step of [cleanup]: the file is gone unless [os.remove]
    raised. *)
Lemma remove_step_eq path st :
  try_except (os_remove path) (fun _ => ret tt) st
  = (Return tt,
     with_trace (RemoveNotebook path)
       (if raising st (RemoveNotebook path) then st
        else with_files (fun fs => fs ∖ {[ path ]}) st)).
Proof.
  unfold try_except, os_remove, bind, emit, modify, get_state, ret, raise.
  simpl. destruct (raising st (RemoveNotebook path)); reflexivity.
Qed.

(** The second step of [cleanup]: a process that still answers is shut
    down, and is not running afterwards unless the shutdown raised. *)
Lemma shutdown_step_spec self st c k :
  store st !! self = Some c -> kernel_manager c = Some k ->
  exists st' c',
    try_except
      (bind (is_alive self)
         (fun alive => if alive then shutdown_kernel self else ret tt))
      (fun _ => ret tt) st
    = (Return tt, st')
    /\ store st' !! self = Some c'
    /\ _kernel_ready c' = _kernel_ready c
    /\ notebook_path c' = notebook_path c
    /\ files st' = files st
    /\ raising st' = raising st
    /\ (raising st (ShutdownKernel self) = false -> not_running c').
Proof.
  intros H Hk. unfold try_except, bind. rewrite (is_alive_eq _ _ _ _ H Hk).
  destruct (life k) as [|n] eqn:Hl.
  - exists st, c. repeat split; try assumption.
    intros _. unfold not_running. rewrite Hk. exact Hl.
  - match goal with
    | |- context [shutdown_kernel self ?s] =>
        replace (shutdown_kernel self s)
          with (if raising st (ShutdownKernel self) then
                  (Raise (RuntimeError "shutdown_kernel"),
                   with_trace (ShutdownKernel self) s)
                else
                  (Return tt,
                   with_trace (ShutdownKernel self)
                     (with_store
                        <[self := set_kernel_manager
                                    (set_life 0 (set_life n k))
                                    (set_kernel_manager (set_life n k) c)]>
                        s)))
          by (symmetry;
              apply (shutdown_kernel_eq self s _ (set_life n k));
              [apply (lookup_updated _ _ _ _ H) | reflexivity])
    end.
    destruct (raising st (ShutdownKernel self)) eqn:Hr.
    + eexists _, _. split; [reflexivity |].
      split; [apply (lookup_updated _ _ _ _ H) |].
      repeat split. intros Hf. discriminate Hf.
    + eexists _, _. split; [reflexivity |].
      split.
      { simpl. apply list_lookup_insert_eq.
        rewrite length_insert. eapply lookup_lt_Some. exact H. }
      repeat split.
Qed.

(** What [cleanup] does on a controller that exists. *)
Lemma cleanup_spec self st c :
  store st !! self = Some c ->
  exists st' c',
    cleanup self st = (Return tt, st')
    /\ store st' !! self = Some c'
    /\ _kernel_ready c' = _kernel_ready c
    /\ notebook_path c' = notebook_path c
    /\ sessions st' = sessions st
    /\ raising st' = raising st
    /\ only_controller self st st'
    /\ (forall p, p ∈ files st' -> p ∈ files st)
    /\ (forall p, p ∈ files st -> notebook_path c <> Some p -> p ∈ files st')
    /\ (raising st (ShutdownKernel self) = false -> not_running c')
    /\ (forall p, notebook_path c = Some p ->
          raising st (RemoveNotebook p) = false -> p ∉ files st').
Proof.
  intros H.
  assert (exists st' c',
            cleanup self st = (Return tt, st')
            /\ store st' !! self = Some c'
            /\ _kernel_ready c' = _kernel_ready c
            /\ notebook_path c' = notebook_path c
            /\ raising st' = raising st
            /\ (forall p, p ∈ files st' -> p ∈ files st)
            /\ (forall p, p ∈ files st -> notebook_path c <> Some p ->
                  p ∈ files st')
            /\ (raising st (ShutdownKernel self) = false -> not_running c')
            /\ (forall p, notebook_path c = Some p ->
                  raising st (RemoveNotebook p) = false -> p ∉ files st'))
    as (st' & c' & E & L & R & N & O & F1 & F2 & D & G).
  { unfold cleanup.
    rewrite (bind_Return _ _ _ _ _ (deref_spec _ _ _ H)).
    assert (exists st1,
              (if kernel_client c then
                 try_except (stop_channels self) (fun _ => ret tt)
               else ret tt) st
              = (Return tt, st1)
              /\ store st1 = store st /\ files st1 = files st
              /\ raising st1 = raising st)
      as (st1 & E1 & S1 & F1 & O1).
    { destruct (kernel_client c).
      - eexists. split; [apply stop_step_eq |]. repeat split.
      - eexists. repeat split. }
    rewrite (bind_Return _ _ _ _ _ E1).
    assert (store st1 !! self = Some c) as H1 by (rewrite S1; exact H).
    assert (exists st2 c2,
              match kernel_manager c with
              | Some _ =>
                  try_except
                    (bind (is_alive self)
                       (fun alive =>
                          if alive then shutdown_kernel self else ret tt))
                    (fun _ => ret tt)
              | None => ret tt
              end st1 = (Return tt, st2)
              /\ store st2 !! self = Some c2
              /\ _kernel_ready c2 = _kernel_ready c
              /\ notebook_path c2 = notebook_path c
              /\ files st2 = files st1
              /\ raising st2 = raising st1
              /\ (raising st1 (ShutdownKernel self) = false -> not_running c2))
      as (st2 & c2 & E2 & L2 & R2 & N2 & F2 & O2 & D2).
    { destruct (kernel_manager c) as [k|] eqn:Hk.
      - apply (shutdown_step_spec self st1 c k H1 Hk).
      - exists st1, c. repeat split; try assumption.
        intros _. unfold not_running. rewrite Hk. exact I. }
    rewrite (bind_Return _ _ _ _ _ E2).
    assert (files st2 = files st) as F by congruence.
    assert (raising st2 = raising st) as O by congruence.
    rewrite O1 in D2.
    destruct (notebook_path c) as [p|] eqn:Hp.
    - rewrite (bind_Return get_state _ st2 st2 st2 eq_refl). cbv beta.
      destruct (decide (p ∈ files st2)) as [Hin|Hout].
      + rewrite remove_step_eq. rewrite O.
        eexists _, c2. split; [reflexivity |].
        split; [destruct (raising st (RemoveNotebook p)); exact L2 |].
        split; [exact R2 |]. split; [exact N2 |].
        split; [destruct (raising st (RemoveNotebook p)); exact O |].
        split.
        { intros q. destruct (raising st (RemoveNotebook p)); simpl;
            rewrite F; [tauto |].
          rewrite elem_of_difference. tauto. }
        split.
        { intros q Hq Hne. destruct (raising st (RemoveNotebook p)); simpl;
            rewrite F; [exact Hq |].
          rewrite elem_of_difference, elem_of_singleton.
          split; [exact Hq |]. intros ->. apply Hne. reflexivity. }
        split; [exact D2 |].
        intros q Hq Hr. injection Hq as <-. rewrite Hr. simpl.
        rewrite elem_of_difference, elem_of_singleton. tauto.
      + exists st2, c2. split; [reflexivity |].
        repeat split; try assumption.
        * intros q. rewrite F. tauto.
        * intros q Hq _. rewrite F. exact Hq.
        * intros q Hq _. injection Hq as <-. exact Hout.
    - exists st2, c2. split; [reflexivity |].
      repeat split; try assumption.
      + intros q. rewrite F. tauto.
      + intros q Hq _. rewrite F. exact Hq.
      + intros q Hq. discriminate Hq. }
  exists st', c'. repeat split; try assumption.
  - pose proof (cleanup_registry_untouched self st) as (S & _).
    rewrite E in S. exact S.
  - pose proof (cleanup_only_controller self st) as K.
    rewrite E in K. exact K.
Qed.

(** X4 ([cleanup]).  On a controller that exists the call returns whatever
    its steps raise: each step is attempted and its failure swallowed.  The
    registry, the other controllers, the readiness flag and the notebook
    path of the controller are as before, and no file other than the
    notebook of the controller is removed.  When [shutdown_kernel] does not
    raise, the process is not running afterwards; when [os.remove] does not
    raise, the notebook file is gone. *)
Theorem cleanup_is_best_effort self st c :
  store st !! self = Some c ->
  exists st' c',
    cleanup self st = (Return tt, st')
    /\ store st' !! self = Some c'
    /\ _kernel_ready c' = _kernel_ready c
    /\ notebook_path c' = notebook_path c
    /\ sessions st' = sessions st
    /\ only_controller self st st'
    /\ (forall p, p ∈ files st' -> p ∈ files st)
    /\ (forall p, p ∈ files st -> notebook_path c <> Some p -> p ∈ files st')
    /\ (raising st (ShutdownKernel self) = false -> not_running c')
    /\ (forall p, notebook_path c = Some p ->
          raising st (RemoveNotebook p) = false -> p ∉ files st').
Proof.
  intros H.
  destruct (cleanup_spec self st c H)
    as (st' & c' & E & L & R & N & S & _ & K & F1 & F2 & D & G).
  exists st', c'. repeat split; assumption.
Qed.

(** *** Calls that keep the controllers and their files *)

Lemma same_store_persist (f : state -> state) :
  (forall st, store (f st) = store st) -> (forall st, files (f st) = files st) ->
  preserves controllers_persist (modify f).
Proof.
  intros Hs Hf. apply preserves_modify. intros st. split; [apply Hf |].
  intros l c H. exists c. rewrite Hs. auto.
Qed.

Lemma time_time_persist : preserves controllers_persist time_time.
Proof.
  intros st. unfold time_time.
  destruct (clock st) as [|now later]; simpl; [reflexivity |].
  split; [reflexivity |]. intros l c H. exists c. auto.
Qed.

Lemma deref_persist l : preserves controllers_persist (deref l).
Proof. intros st. unfold deref. destruct (store st !! l); reflexivity. Qed.

Lemma emit_persist a : preserves controllers_persist (emit a).
Proof. apply same_store_persist; reflexivity. Qed.

Lemma with_spawn_persist sp : preserves controllers_persist (modify (with_spawn sp)).
Proof. apply same_store_persist; reflexivity. Qed.

Lemma with_sessions_persist f :
  preserves controllers_persist (modify (with_sessions f)).
Proof. apply same_store_persist; reflexivity. Qed.

Lemma with_pip_runs_persist n :
  preserves controllers_persist (modify (with_pip_runs n)).
Proof. apply same_store_persist; reflexivity. Qed.

Lemma update_persist self f :
  (forall c, folder_path (f c) = folder_path c) ->
  (forall c, notebook_path (f c) = notebook_path c) ->
  (forall c, kernel_client (f c) = kernel_client c) ->
  (forall c, is_Some (kernel_manager c) -> is_Some (kernel_manager (f c))) ->
  preserves controllers_persist (update self f).
Proof.
  intros F1 F2 F3 F4. apply preserves_modify. intros st.
  split; [reflexivity |]. intros l c H. simpl.
  destruct (store st !! self) as [x|] eqn:Hx; [| exists c; repeat split; auto].
  destruct (decide (l = self)) as [->|Hne].
  - exists (f x). rewrite list_lookup_insert_eq
      by (eapply lookup_lt_Some; exact Hx).
    pose proof (eq_trans (eq_sym Hx) H) as Heq. injection Heq as ->.
    repeat split; auto.
  - exists c. rewrite list_lookup_insert_ne by congruence.
    repeat split; auto.
Qed.

Lemma update_manager_persist self k :
  preserves controllers_persist (update self (set_kernel_manager k)).
Proof. apply update_persist; try reflexivity. intros c _. exists k. reflexivity. Qed.

Lemma update_ready_persist self b :
  preserves controllers_persist (update self (set_kernel_ready b)).
Proof. apply update_persist; try reflexivity. intros c H. exact H. Qed.

#[local] Hint Resolve time_time_persist deref_persist emit_persist
  with_spawn_persist with_sessions_persist with_pip_runs_persist
  update_manager_persist update_ready_persist : pres.

Lemma is_alive_persist self : preserves controllers_persist (is_alive self).
Proof. unfold is_alive, the_kernel. pres. Qed.

Lemma on_iopub_persist {A} self
  (f : list (option message) -> A * list (option message)) :
  preserves controllers_persist (on_iopub self f).
Proof. unfold on_iopub, the_kernel. pres. Qed.

Lemma kc_execute_persist self src :
  preserves controllers_persist (kc_execute self src).
Proof. unfold kc_execute, the_kernel. pres. Qed.

#[local] Hint Resolve is_alive_persist on_iopub_persist kc_execute_persist
  : pres.

Lemma wait_loop_persist fuel self start_time timeout :
  preserves controllers_persist (wait_loop fuel self start_time timeout).
Proof.
  induction fuel as [|fuel IH]; simpl; unfold probe, manager_and_alive; pres.
Qed.
#[local] Hint Resolve wait_loop_persist : pres.

Lemma wait_for_kernel_ready_persist self timeout :
  preserves controllers_persist (_wait_for_kernel_ready self timeout).
Proof. unfold _wait_for_kernel_ready. pres. Qed.

Lemma clear_output_queue_persist self :
  preserves controllers_persist (_clear_output_queue self).
Proof. unfold _clear_output_queue. pres. Qed.

#[local] Hint Resolve wait_for_kernel_ready_persist clear_output_queue_persist
  : pres.

Lemma execute_code_persist self src :
  preserves controllers_persist (execute_code self src).
Proof. unfold execute_code, ensure_ready, correlate. pres. Qed.

Lemma restart_kernel_persist self :
  preserves controllers_persist (restart_kernel self).
Proof. unfold restart_kernel, the_kernel. pres. Qed.

Lemma start_kernel_persist self :
  preserves controllers_persist (start_kernel self).
Proof. unfold start_kernel. pres. Qed.

#[local] Hint Resolve execute_code_persist restart_kernel_persist
  start_kernel_persist : pres.

(** *** Calls that do not change which teardown calls raise *)

Lemma raising_kept_preorder : PreOrder raising_kept.
Proof.
  split.
  - intros st. reflexivity.
  - intros a b c H1 H2. unfold raising_kept in *. congruence.
Qed.

#[local] Existing Instance raising_kept_preorder.

Lemma modify_raising_kept (f : state -> state) :
  (forall st, raising (f st) = raising st) -> preserves raising_kept (modify f).
Proof. intros H. apply preserves_modify. exact H. Qed.

Lemma time_time_raising_kept : preserves raising_kept time_time.
Proof. intros st. unfold time_time. destruct (clock st); reflexivity. Qed.

Lemma deref_raising_kept l : preserves raising_kept (deref l).
Proof. intros st. unfold deref. destruct (store st !! l); reflexivity. Qed.

Lemma update_raising_kept self f : preserves raising_kept (update self f).
Proof. apply modify_raising_kept. reflexivity. Qed.

Lemma emit_raising_kept a : preserves raising_kept (emit a).
Proof. apply modify_raising_kept. reflexivity. Qed.

Lemma with_spawn_raising_kept sp : preserves raising_kept (modify (with_spawn sp)).
Proof. apply modify_raising_kept. reflexivity. Qed.

Lemma with_files_raising_kept f : preserves raising_kept (modify (with_files f)).
Proof. apply modify_raising_kept. reflexivity. Qed.

Lemma with_sessions_raising_kept f :
  preserves raising_kept (modify (with_sessions f)).
Proof. apply modify_raising_kept. reflexivity. Qed.

Lemma with_store_raising_kept f : preserves raising_kept (modify (with_store f)).
Proof. apply modify_raising_kept. reflexivity. Qed.

#[local] Hint Resolve time_time_raising_kept deref_raising_kept
  update_raising_kept emit_raising_kept with_spawn_raising_kept
  with_files_raising_kept with_sessions_raising_kept with_store_raising_kept
  : pres.

Lemma is_alive_raising_kept self : preserves raising_kept (is_alive self).
Proof. unfold is_alive, the_kernel. pres. Qed.

Lemma on_iopub_raising_kept {A} self
  (f : list (option message) -> A * list (option message)) :
  preserves raising_kept (on_iopub self f).
Proof. unfold on_iopub, the_kernel. pres. Qed.

Lemma kc_execute_raising_kept self src :
  preserves raising_kept (kc_execute self src).
Proof. unfold kc_execute, the_kernel. pres. Qed.

#[local] Hint Resolve is_alive_raising_kept on_iopub_raising_kept
  kc_execute_raising_kept : pres.

Lemma wait_loop_raising_kept fuel self start_time timeout :
  preserves raising_kept (wait_loop fuel self start_time timeout).
Proof.
  induction fuel as [|fuel IH]; simpl; unfold probe, manager_and_alive; pres.
Qed.
#[local] Hint Resolve wait_loop_raising_kept : pres.

Lemma wait_for_kernel_ready_raising_kept self timeout :
  preserves raising_kept (_wait_for_kernel_ready self timeout).
Proof. unfold _wait_for_kernel_ready. pres. Qed.

Lemma clear_output_queue_raising_kept self :
  preserves raising_kept (_clear_output_queue self).
Proof. unfold _clear_output_queue. pres. Qed.

#[local] Hint Resolve wait_for_kernel_ready_raising_kept
  clear_output_queue_raising_kept : pres.

Lemma execute_code_raising_kept self src :
  preserves raising_kept (execute_code self src).
Proof. unfold execute_code, ensure_ready, correlate. pres. Qed.

Lemma restart_kernel_raising_kept self :
  preserves raising_kept (restart_kernel self).
Proof. unfold restart_kernel, the_kernel. pres. Qed.

Lemma start_kernel_raising_kept self :
  preserves raising_kept (start_kernel self).
Proof. unfold start_kernel. pres. Qed.

Lemma cleanup_raising_kept self : preserves raising_kept (cleanup self).
Proof.
  unfold cleanup, stop_channels, shutdown_kernel, os_remove, the_kernel. pres.
Qed.

#[local] Hint Resolve execute_code_raising_kept restart_kernel_raising_kept
  start_kernel_raising_kept cleanup_raising_kept : pres.

Lemma create_notebook_raising_kept self notebook_name :
  preserves raising_kept (create_notebook self notebook_name).
Proof. unfold create_notebook. pres. Qed.

Lemma reset_kernel_raising_kept self :
  preserves raising_kept (reset_kernel self).
Proof. unfold reset_kernel. pres. Qed.

#[local] Hint Resolve create_notebook_raising_kept reset_kernel_raising_kept
  : pres.

(** ** Waiting for a kernel to be ready *)

Lemma deref_missing self st :
  store st !! self = None -> deref self st = (Raise (AttributeError "self"), st).
Proof. intros H. unfold deref. rewrite H. reflexivity. Qed.

(** The readiness probe, case by case: without a manager, or with a process
    that is not alive, it does nothing; with a live process it submits
    "1+1", reads the channel up to an idle status or an empty read, and
    sets the flag unless the reading raised. *)
Lemma probe_spec self st c :
  store st !! self = Some c ->
  match kernel_manager c with
  | None => probe self st = (Return false, st)
  | Some k =>
      match life k with
      | O => probe self st = (Return false, st)
      | S n =>
          exists st1 c1 k1,
            probe self st
            = (match fst (until_idle (iopub k)) with
               | Return _ => Return true
               | Raise e => Raise e
               | Pending => Pending
               end, st1)
            /\ store st1 !! self = Some c1
            /\ _kernel_ready c1
               = match fst (until_idle (iopub k)) with
                 | Return _ => true
                 | _ => _kernel_ready c
                 end
            /\ kernel_manager c1 = Some k1
            /\ life k1 = n
            /\ submitted k1 = S (submitted k)
            /\ iopub k1 = snd (until_idle (iopub k))
            /\ msg_ids k1 = msg_ids k
            /\ restarts k1 = restarts k
            /\ trace st1 = (trace st ++ [Execute self "1+1"])%list
            /\ clock st1 = clock st
      end
  end.
Proof.
  intros H. unfold probe.
  destruct (kernel_manager c) as [k|] eqn:Hk.
  - assert (manager_and_alive self st = is_alive self st) as Em.
    { unfold manager_and_alive.
      rewrite (bind_Return _ _ _ _ _ (deref_spec _ _ _ H)). rewrite Hk.
      reflexivity. }
    rewrite (is_alive_eq _ _ _ _ H Hk) in Em.
    destruct (life k) as [|n] eqn:Hl;
      rewrite (bind_Return (manager_and_alive self) _ _ _ _ Em);
      [reflexivity |].
    set (ka := set_life n k). set (ca := set_kernel_manager ka c).
    set (sa := with_store <[self := ca]> st).
    assert (store sa !! self = Some ca) as La
      by (apply (lookup_updated _ _ _ _ H)).
    unfold bind at 1.
    rewrite (kc_execute_eq self "1+1" sa ca ka La eq_refl).
    set (kb := set_submitted (S (submitted ka)) ka).
    set (cb := set_kernel_manager kb ca).
    set (sb := with_trace _ (with_store <[self := cb]> sa)).
    assert (store sb !! self = Some cb) as Lb
      by (apply (lookup_updated _ _ _ _ La)).
    unfold bind at 1.
    rewrite (on_iopub_eq self until_idle sb cb kb Lb eq_refl).
    change (iopub kb) with (iopub k).
    set (kc := set_iopub (snd (until_idle (iopub k))) kb).
    set (cc := set_kernel_manager kc cb).
    set (sc := with_store <[self := cc]> sb).
    assert (store sc !! self = Some cc) as Lc
      by (apply (lookup_updated _ _ _ _ Lb)).
    destruct (fst (until_idle (iopub k))) as [[]|e|].
    + rewrite (bind_Return _ _ _ _ _ (update_eq _ _ _ _ Lc)).
      eexists _, (set_kernel_ready true cc), kc.
      split; [reflexivity |]. split; [apply (lookup_updated _ _ _ _ Lc) |].
      repeat split.
    + exists sc, cc, kc. split; [reflexivity |]. split; [exact Lc |].
      repeat split.
    + exists sc, cc, kc. split; [reflexivity |]. split; [exact Lc |].
      repeat split.
  - assert (manager_and_alive self st = (Return false, st)) as Em.
    { unfold manager_and_alive.
      rewrite (bind_Return _ _ _ _ _ (deref_spec _ _ _ H)). rewrite Hk.
      reflexivity. }
    rewrite (bind_Return _ _ _ _ _ Em). reflexivity.
Qed.

(** How the polling loop ends on a controller that exists: it returns with
    the flag set, or raises the timeout with the flag unset. *)
Lemma wait_loop_outcome self start_time timeout fuel : forall st c res st',
  store st !! self = Some c ->
  wait_loop fuel self start_time timeout st = (res, st') ->
  exists c',
    store st' !! self = Some c'
    /\ match res with
       | Return _ => _kernel_ready c' = true
       | Raise e =>
           e = TimeoutError "Kernel failed to start within timeout period"
           /\ _kernel_ready c' = false
       | Pending => True
       end.
Proof.
  induction fuel as [|fuel IH]; intros st c res st' H E.
  - simpl in E. rewrite (bind_Return _ _ _ _ _ (deref_spec _ _ _ H)) in E.
    destruct (_kernel_ready c) eqn:Hr; inversion E; subst; exists c;
      (split; [exact H | first [exact Hr | exact I]]).
  - simpl in E. rewrite (bind_Return _ _ _ _ _ (deref_spec _ _ _ H)) in E.
    destruct (_kernel_ready c) eqn:Hr.
    { inversion E; subst. exists c. split; [exact H | exact Hr]. }
    unfold bind at 1 in E. unfold time_time at 1 in E.
    destruct (clock st) as [|now later].
    { inversion E; subst. exists c. split; [exact H | exact I]. }
    cbv beta iota in E.
    destruct (Qgtb (now - start_time) timeout).
    { inversion E; subst. exists c. split; [exact H |]. split; [reflexivity | exact Hr]. }
    assert (store (with_clock later st) !! self = Some c) as H1 by exact H.
    pose proof (probe_spec self _ c H1) as P.
    unfold bind at 1 in E. unfold try_except at 1 in E.
    destruct (kernel_manager c) as [k|].
    + destruct (life k) as [|n].
      * rewrite P in E. cbv beta iota in E. exact (IH _ c _ _ H1 E).
      * destruct P as (st1 & c1 & k1 & P & L1 & R1 & _).
        rewrite P in E.
        destruct (fst (until_idle (iopub k))) as [[]|e|]; cbv beta iota in E.
        -- inversion E; subst. exists c1. split; [exact L1 | exact R1].
        -- unfold ret at 1 in E. cbv beta iota in E. exact (IH _ c1 _ _ L1 E).
        -- inversion E; subst. exists c1. split; [exact L1 | exact I].
    + rewrite P in E. cbv beta iota in E. exact (IH _ c _ _ H1 E).
Qed.

Lemma wait_for_kernel_ready_spec self timeout st c res st' :
  store st !! self = Some c ->
  _wait_for_kernel_ready self timeout st = (res, st') ->
  exists c',
    store st' !! self = Some c'
    /\ match res with
       | Return _ => _kernel_ready c' = true
       | Raise e =>
           e = TimeoutError "Kernel failed to start within timeout period"
           /\ _kernel_ready c' = false
       | Pending => True
       end.
Proof.
  intros H E. unfold _wait_for_kernel_ready in E.
  unfold bind at 1 in E. unfold time_time at 1 in E.
  destruct (clock st) as [|start_time later].
  { inversion E; subst. exists c. split; [exact H | exact I]. }
  cbv beta iota in E.
  rewrite (bind_Return get_state _ _ _ _ eq_refl) in E.
  exact (wait_loop_outcome self start_time timeout _ (with_clock later st) c
           _ _ H E).
Qed.

(** X5 ([_wait_for_kernel_ready]).  On a controller that exists the wait
    ends in one of two ways: it returns, and then the readiness flag is
    set; or it raises the timeout error, and then the flag is unset.  It
    raises nothing else: what the probe raises is swallowed by the loop. *)
Theorem wait_returns_ready_or_times_out self timeout st c :
  store st !! self = Some c ->
  exists c',
    store (snd (_wait_for_kernel_ready self timeout st)) !! self = Some c'
    /\ match fst (_wait_for_kernel_ready self timeout st) with
       | Return _ => _kernel_ready c' = true
       | Raise e =>
           e = TimeoutError "Kernel failed to start within timeout period"
           /\ _kernel_ready c' = false
       | Pending => True
       end.
Proof.
  intros H.
  destruct (_wait_for_kernel_ready self timeout st) as [res st'] eqn:E.
  exact (wait_for_kernel_ready_spec self timeout st c res st' H E).
Qed.

Lemma Qgtb_true a b : Qgtb a b = true <-> (b < a)%Q.
Proof.
  unfold Qgtb. rewrite negb_true_iff, <- not_true_iff_false.
  rewrite Qle_bool_iff. split.
  - apply Qnot_le_lt.
  - apply Qlt_not_le.
Qed.

Lemma Qgtb_false a b : Qgtb a b = false <-> ~ (b < a)%Q.
Proof.
  rewrite <- Qgtb_true. destruct (Qgtb a b); split; intros H;
    try reflexivity; try discriminate; try (intros H'; discriminate).
  exfalso. apply H. reflexivity.
Qed.

(** The probe on a controller whose process is not running does nothing. *)
Lemma probe_not_running self st c :
  store st !! self = Some c -> not_running c ->
  probe self st = (Return false, st).
Proof.
  intros H D. pose proof (probe_spec self st c H) as P.
  unfold not_running in D. destruct (kernel_manager c) as [k|]; [| exact P].
  rewrite D in P. exact P.
Qed.

Lemma wait_loop_not_running self start_time timeout c before t later :
  forall fuel st,
    store st !! self = Some c -> _kernel_ready c = false -> not_running c ->
    clock st = (before ++ t :: later)%list ->
    Forall (fun x => ~ (timeout < x - start_time)%Q) before ->
    (timeout < t - start_time)%Q ->
    length before < fuel ->
    wait_loop fuel self start_time timeout st
    = (Raise (TimeoutError "Kernel failed to start within timeout period"),
       with_clock later st).
Proof.
  induction before as [|x before IH]; intros fuel st H Hr D Hc Hb Ht Hf.
  - destruct fuel as [|fuel]; [simpl in Hf; lia |]. simpl.
    rewrite (bind_Return _ _ _ _ _ (deref_spec _ _ _ H)). rewrite Hr.
    unfold bind, time_time. simpl in Hc. rewrite Hc.
    apply Qgtb_true in Ht. rewrite Ht. reflexivity.
  - destruct fuel as [|fuel]; [simpl in Hf; lia |]. simpl.
    rewrite (bind_Return _ _ _ _ _ (deref_spec _ _ _ H)). rewrite Hr.
    unfold bind at 1. unfold time_time at 1. simpl in Hc. rewrite Hc.
    cbv beta iota.
    apply Forall_cons in Hb as [Hx Hb]. apply Qgtb_false in Hx. rewrite Hx.
    set (s1 := with_clock (before ++ t :: later)%list st).
    assert (store s1 !! self = Some c) as H1 by exact H.
    unfold bind at 1. unfold try_except at 1.
    rewrite (probe_not_running self s1 c H1 D). cbv beta iota.
    rewrite (IH fuel s1 H1 Hr D eq_refl Hb Ht) by (simpl in Hf; lia).
    reflexivity.
Qed.

(** The wait on a controller whose process is not running. *)
Lemma wait_not_running_spec self timeout st c start_time before t later :
  store st !! self = Some c -> _kernel_ready c = false -> not_running c ->
  clock st = (start_time :: before ++ t :: later)%list ->
  Forall (fun x => ~ (timeout < x - start_time)%Q) before ->
  (timeout < t - start_time)%Q ->
  _wait_for_kernel_ready self timeout st
  = (Raise (TimeoutError "Kernel failed to start within timeout period"),
     with_clock later st).
Proof.
  intros H Hr D Hc Hb Ht. unfold _wait_for_kernel_ready.
  unfold bind at 1. unfold time_time at 1. rewrite Hc. cbv beta iota.
  set (s1 := with_clock (before ++ t :: later)%list st).
  rewrite (bind_Return get_state _ s1 s1 s1 eq_refl). cbv beta.
  rewrite (wait_loop_not_running self start_time timeout c before t later
             _ s1 H Hr D eq_refl Hb Ht).
  - reflexivity.
  - simpl. rewrite length_app. simpl. lia.
Qed.

(** X6 ([_wait_for_kernel_ready], the polling loop on a process that is not
    running).  When the controller is not ready and has no live process, the
    wait reads the clock until the first reading that is more than
    [timeout] after the first one and then raises the timeout error; it
    submits nothing and changes nothing but the clock. *)
Theorem wait_on_dead_kernel_times_out self timeout st c start_time before t later :
  store st !! self = Some c -> _kernel_ready c = false -> not_running c ->
  clock st = (start_time :: before ++ t :: later)%list ->
  Forall (fun x => ~ (timeout < x - start_time)%Q) before ->
  (timeout < t - start_time)%Q ->
  _wait_for_kernel_ready self timeout st
  = (Raise (TimeoutError "Kernel failed to start within timeout period"),
     with_clock later st).
Proof.
  exact (wait_not_running_spec self timeout st c start_time before t later).
Qed.

Lemma until_idle_returns q :
  Forall (fun o => from_option lacks_state false o = false) q ->
  fst (until_idle q) = Return tt.
Proof.
  induction q as [|[m|] q IH]; intros Hq; try reflexivity.
  apply Forall_cons in Hq as [Hm Hq]. simpl in Hm. unfold lacks_state in Hm.
  simpl. destruct (String.eqb (msg_type m) "status"); [| exact (IH Hq)].
  destruct (execution_state (content m)) as [s|]; [| discriminate Hm].
  destruct (String.eqb s "idle"); [reflexivity | exact (IH Hq)].
Qed.

(** The wait on a controller whose process is alive. *)
Lemma wait_live_spec
  self timeout st c k n start_time now later :
  store st !! self = Some c -> _kernel_ready c = false ->
  kernel_manager c = Some k -> life k = S n ->
  Forall (fun o => from_option lacks_state false o = false) (iopub k) ->
  clock st = start_time :: now :: later ->
  ~ (timeout < now - start_time)%Q ->
  exists st' c' k',
    _wait_for_kernel_ready self timeout st = (Return tt, st')
    /\ store st' !! self = Some c'
    /\ _kernel_ready c' = true
    /\ kernel_manager c' = Some k'
    /\ life k' = n
    /\ submitted k' = S (submitted k)
    /\ iopub k' = snd (until_idle (iopub k))
    /\ trace st' = (trace st ++ [Execute self "1+1"])%list
    /\ clock st' = later.
Proof.
  intros H Hr Hk Hl Hq Hc Ht. unfold _wait_for_kernel_ready.
  unfold bind at 1. unfold time_time at 1. rewrite Hc. cbv beta iota.
  set (s1 := with_clock (now :: later) st).
  rewrite (bind_Return get_state _ s1 s1 s1 eq_refl). cbv beta.
  assert (store s1 !! self = Some c) as H1 by exact H.
  simpl wait_loop.
  rewrite (bind_Return _ _ _ _ _ (deref_spec _ _ _ H1)). rewrite Hr.
  unfold bind at 1. unfold time_time at 1.
  change (clock s1) with (now :: later). cbv beta iota.
  apply Qgtb_false in Ht. rewrite Ht.
  set (s2 := with_clock later s1).
  assert (store s2 !! self = Some c) as H2 by exact H.
  pose proof (probe_spec self s2 c H2) as P. rewrite Hk, Hl in P.
  destruct P as (st1 & c1 & k1 & P & L1 & R1 & K1 & A1 & S1 & Q1 & _ & _ & T1 & C1).
  rewrite (until_idle_returns _ Hq) in P, R1.
  unfold bind at 1. unfold try_except at 1. rewrite P. cbv beta iota.
  exists st1, c1, k1. repeat split; assumption.
Qed.

(** X7 ([_wait_for_kernel_ready], the probe of a live process).  A
    controller that is not ready but whose process is alive is declared
    ready at the first turn of the loop that the timeout allows: the probe
    submits "1+1" once and reads the channel up to the first idle status,
    of whatever request, or up to an empty read.  No answer to the probe is
    needed: on a silent channel the flag is set all the same. *)
Theorem wait_declares_live_kernel_ready
  self timeout st c k n start_time now later :
  store st !! self = Some c -> _kernel_ready c = false ->
  kernel_manager c = Some k -> life k = S n ->
  Forall (fun o => from_option lacks_state false o = false) (iopub k) ->
  clock st = start_time :: now :: later ->
  ~ (timeout < now - start_time)%Q ->
  exists st' c' k',
    _wait_for_kernel_ready self timeout st = (Return tt, st')
    /\ store st' !! self = Some c'
    /\ _kernel_ready c' = true
    /\ kernel_manager c' = Some k'
    /\ life k' = n
    /\ submitted k' = S (submitted k)
    /\ iopub k' = snd (until_idle (iopub k))
    /\ trace st' = (trace st ++ [Execute self "1+1"])%list
    /\ clock st' = later.
Proof.
  exact (wait_live_spec self timeout st c k n start_time now later).
Qed.

(** ** Bringing a controller up *)

Lemma start_kernel_Return self st st' c :
  store st !! self = Some c ->
  start_kernel self st = (Return tt, st') ->
  exists k,
    store st' !! self = Some (set_kernel_manager k c)
    /\ files st' = files st
    /\ In (StartKernel self) (trace st').
Proof.
  intros H E. unfold start_kernel in E.
  rewrite (bind_Return (emit _) _ st tt (with_trace (StartKernel self) st))
    in E by reflexivity.
  set (s1 := with_trace (StartKernel self) st) in E.
  rewrite (bind_Return get_state _ s1 s1 s1 eq_refl) in E. cbv beta in E.
  change (spawn s1) with (spawn st) in E.
  assert (store s1 !! self = Some c) as H1 by exact H.
  destruct (spawn st) as [|[k|] rest].
  - rewrite (bind_Return _ _ _ _ _ (update_eq _ _ _ _ H1)) in E. discriminate E.
  - rewrite (bind_Return (modify _) _ s1 tt (with_spawn rest s1)) in E
      by reflexivity.
    assert (store (with_spawn rest s1) !! self = Some c) as H2 by exact H.
    rewrite (update_eq _ _ _ _ H2) in E. inversion E; subst. exists k.
    split; [apply (lookup_updated _ _ _ _ H2) |]. split; [reflexivity |].
    simpl. apply in_or_app. right. left. reflexivity.
  - rewrite (bind_Return (modify _) _ s1 tt (with_spawn rest s1)) in E
      by reflexivity.
    assert (store (with_spawn rest s1) !! self = Some c) as H2 by exact H.
    rewrite (bind_Return _ _ _ _ _ (update_eq _ _ _ _ H2)) in E.
    discriminate E.
Qed.

Lemma clear_output_queue_eq self st c k :
  store st !! self = Some c -> kernel_manager c = Some k ->
  _clear_output_queue self st
  = (Return tt,
     with_store
       <[self := set_kernel_manager (set_iopub (drain (iopub k)) k) c]> st).
Proof.
  intros H Hk. unfold _clear_output_queue.
  rewrite (on_iopub_eq self _ st c k H Hk). reflexivity.
Qed.

Lemma create_notebook_Return self notebook_name st path st' :
  create_notebook self notebook_name st = (Return path, st') ->
  exists c c' k',
    store st !! self = Some c
    /\ path = os_path_join (folder_path c) (notebook_name ++ ".ipynb")
    /\ store st' !! self = Some c'
    /\ folder_path c' = folder_path c
    /\ notebook_path c' = Some path
    /\ kernel_client c' = true
    /\ _kernel_ready c' = true
    /\ kernel_manager c' = Some k'
    /\ files st' = {[ path ]} ∪ files st
    /\ In (StartKernel self) (trace st').
Proof.
  intros E. unfold create_notebook in E.
  destruct (store st !! self) as [c|] eqn:H.
  2:{ rewrite (bind_Raise _ _ _ _ _ (deref_missing _ _ H)) in E.
      discriminate E. }
  rewrite (bind_Return _ _ _ _ _ (deref_spec _ _ _ H)) in E. cbv zeta in E.
  set (p := os_path_join (folder_path c) (notebook_name ++ ".ipynb")) in E.
  rewrite (bind_Return _ _ _ _ _ (update_eq _ _ _ _ H)) in E.
  set (c1 := set_notebook_path p c) in E.
  set (s1 := with_store <[self := c1]> st) in E.
  assert (store s1 !! self = Some c1) as H1
    by (apply (lookup_updated _ _ _ _ H)).
  set (s2 := with_files (fun fs => {[ p ]} ∪ fs) s1).
  rewrite (bind_Return (modify _) _ s1 tt s2) in E by reflexivity.
  assert (store s2 !! self = Some c1) as H2 by exact H1.
  apply bind_Return_inv in E as ([] & s3 & E3 & E).
  destruct (start_kernel_Return _ _ _ _ H2 E3) as (k3 & H3 & F3 & T3).
  rewrite (bind_Return _ _ _ _ _ (update_eq _ _ _ _ H3)) in E.
  set (c4 := set_kernel_client (set_kernel_manager k3 c1)) in E.
  set (s4 := with_store <[self := c4]> s3) in E.
  assert (store s4 !! self = Some c4) as H4
    by (apply (lookup_updated _ _ _ _ H3)).
  apply bind_Return_inv in E as ([] & s5 & E5 & E).
  destruct (wait_for_kernel_ready_spec _ _ _ _ _ _ H4 E5) as (c5 & H5 & R5).
  pose proof (wait_for_kernel_ready_persist self 30 s4) as [F5 P5].
  rewrite E5 in F5, P5. simpl in F5, P5.
  destruct (P5 _ _ H4) as (c5' & H5' & Pf & Pn & Pc & Pm).
  pose proof (eq_trans (eq_sym H5') H5) as Heq. injection Heq as ->.
  destruct Pm as [k5 Hk5]; [exists k3; reflexivity |].
  rewrite (bind_Return _ _ _ _ _ (clear_output_queue_eq _ _ _ _ H5 Hk5)) in E.
  inversion E; subst path st'; clear E.
  eexists c, _, _. split; [reflexivity |]. split; [reflexivity |].
  split; [apply (lookup_updated _ _ _ _ H5) |].
  split; [exact Pf |]. split; [exact Pn |]. split; [exact Pc |].
  split; [exact R5 |]. split; [reflexivity |]. split.
  - simpl. rewrite F5. simpl. rewrite F3. reflexivity.
  - assert (trace_grows s3 s5) as G.
    { pose proof (wait_for_kernel_ready_kernel_calls self 30 s4) as K.
      rewrite E5 in K. apply kernel_calls_registry_untouched in K.
      apply registry_untouched_trace_grows in K. exact K. }
    apply (trace_grows_In _ _ _ G T3).
Qed.

(** X8 ([create_notebook]).  When the call returns, the path it returns is
    the notebook of the controller, [<folder>/<name>.ipynb], and that file
    exists; a kernel was started for the controller, its client is set up
    and the controller is ready. *)
Theorem create_notebook_result self notebook_name st path st' :
  create_notebook self notebook_name st = (Return path, st') ->
  exists c c' k',
    store st !! self = Some c
    /\ path = os_path_join (folder_path c) (notebook_name ++ ".ipynb")
    /\ store st' !! self = Some c'
    /\ folder_path c' = folder_path c
    /\ notebook_path c' = Some path
    /\ kernel_client c' = true
    /\ _kernel_ready c' = true
    /\ kernel_manager c' = Some k'
    /\ files st' = {[ path ]} ∪ files st
    /\ In (StartKernel self) (trace st').
Proof. exact (create_notebook_Return self notebook_name st path st'). Qed.

(** ** Restarting a kernel *)

Lemma restart_kernel_eq self st c k :
  store st !! self = Some c -> kernel_manager c = Some k ->
  restart_kernel self st
  = match restarts k with
    | Some n :: r =>
        (Return tt,
         with_store
           <[self := set_kernel_manager (set_restarts r (set_life n k)) c]>
           (with_trace (RestartKernel self) st))
    | None :: r =>
        (Raise (OSError "restart_kernel"),
         with_store <[self := set_kernel_manager (set_restarts r k) c]>
           (with_trace (RestartKernel self) st))
    | [] =>
        (Raise (OSError "restart_kernel"), with_trace (RestartKernel self) st)
    end.
Proof.
  intros H Hk. unfold restart_kernel.
  set (s1 := with_trace (RestartKernel self) st).
  rewrite (bind_Return (emit _) _ st tt s1) by reflexivity.
  assert (store s1 !! self = Some c) as H1 by exact H.
  rewrite (bind_Return _ _ _ _ _ (the_kernel_spec _ _ _ _ H1 Hk)).
  destruct (restarts k) as [|[n|] r].
  - reflexivity.
  - apply (update_eq _ _ _ _ H1).
  - rewrite (bind_Return _ _ _ _ _ (update_eq _ _ _ _ H1)). reflexivity.
Qed.

(** The restart, the wait and the clearing of the queue, which
    [reset_kernel] runs inside its [try]: how they end on a controller that
    has a manager and is not ready. *)
Lemma restart_and_wait_spec self st c k res st' :
  store st !! self = Some c -> kernel_manager c = Some k ->
  _kernel_ready c = false ->
  (restart_kernel self ;; _wait_for_kernel_ready self 30 ;;
   _clear_output_queue self) st = (res, st') ->
  exists c',
    store st' !! self = Some c'
    /\ notebook_path c' = notebook_path c
    /\ files st' = files st
    /\ match res with
       | Return _ => _kernel_ready c' = true
       | Raise e => _kernel_ready c' = false
       | Pending => True
       end.
Proof.
  intros H Hk Hr E. unfold bind at 1 in E.
  rewrite (restart_kernel_eq _ _ _ _ H Hk) in E.
  set (s0 := with_trace (RestartKernel self) st) in E.
  assert (store s0 !! self = Some c) as H0 by exact H.
  destruct (restarts k) as [|[n|] r].
  - inversion E; subst. exists c. split; [exact H0 |].
    split; [reflexivity |]. split; [reflexivity | exact Hr].
  - set (c1 := set_kernel_manager (set_restarts r (set_life n k)) c) in E.
    set (s1 := with_store <[self := c1]> s0) in E.
    assert (store s1 !! self = Some c1) as H1
      by (apply (lookup_updated _ _ _ _ H0)).
    unfold bind at 1 in E.
    destruct (_wait_for_kernel_ready self 30 s1) as [r2 s2] eqn:E2.
    destruct (wait_for_kernel_ready_spec _ _ _ _ _ _ H1 E2) as (c2 & H2 & R2).
    pose proof (wait_for_kernel_ready_persist self 30 s1) as [F2 P2].
    rewrite E2 in F2, P2. simpl in F2, P2.
    destruct (P2 _ _ H1) as (c2' & H2' & _ & Pn & _ & Pm).
    pose proof (eq_trans (eq_sym H2') H2) as Heq. injection Heq as ->.
    destruct Pm as [k2 Hk2]; [eexists; reflexivity |].
    destruct r2 as [[]|e|].
    + rewrite (clear_output_queue_eq _ _ _ _ H2 Hk2) in E.
      inversion E; subst. eexists.
      split; [apply (lookup_updated _ _ _ _ H2) |].
      split; [exact Pn |]. split; [exact F2 | exact R2].
    + inversion E; subst. exists c2. split; [exact H2 |].
      split; [exact Pn |]. split; [exact F2 | exact (proj2 R2)].
    + inversion E; subst. exists c2. split; [exact H2 |].
      split; [exact Pn |]. split; [exact F2 | exact I].
  - inversion E; subst. eexists.
    split; [apply (lookup_updated _ _ _ _ H0) |].
    split; [reflexivity |]. split; [reflexivity | exact Hr].
Qed.

Lemma reset_kernel_spec self st c k res st' :
  store st !! self = Some c -> kernel_manager c = Some k ->
  reset_kernel self st = (res, st') ->
  exists c',
    store st' !! self = Some c'
    /\ In (RestartKernel self) (trace st')
    /\ match res with
       | Return _ =>
           _kernel_ready c' = true
           /\ notebook_path c' = notebook_path c
           /\ files st' = files st
       | Raise e =>
           (exists cause,
              e = RuntimeError ("Failed to reset kernel: " ++ str_exn cause))
           /\ _kernel_ready c' = false
           /\ notebook_path c' = notebook_path c
           /\ (forall p, p ∈ files st' -> p ∈ files st)
           /\ (raising st (ShutdownKernel self) = false -> not_running c')
           /\ (forall p, notebook_path c = Some p ->
                 raising st (RemoveNotebook p) = false -> p ∉ files st')
       | Pending => True
       end.
Proof.
  intros H Hk E.
  pose proof (reset_kernel_restarts self st c k H Hk) as T.
  rewrite E in T. simpl in T.
  unfold reset_kernel in E.
  rewrite (bind_Return _ _ _ _ _ (deref_spec _ _ _ H)) in E. rewrite Hk in E.
  rewrite (bind_Return _ _ _ _ _ (update_eq _ _ _ _ H)) in E.
  set (c0 := set_kernel_ready false c) in E.
  set (s0 := with_store <[self := c0]> st) in E.
  assert (store s0 !! self = Some c0) as H0
    by (apply (lookup_updated _ _ _ _ H)).
  unfold try_except in E.
  match type of E with
  | context [match ?body s0 with _ => _ end] =>
      assert (preserves raising_kept body) as O by pres;
      specialize (O s0);
      destruct (body s0) as [r1 s1] eqn:E1
  end.
  simpl in O. unfold raising_kept in O.
  change (raising s0) with (raising st) in O.
  destruct (restart_and_wait_spec self s0 c0 k r1 s1 H0 Hk eq_refl E1)
    as (c1 & H1 & N1 & F1 & R1).
  destruct r1 as [[]|e1|].
  - inversion E; subst. exists c1. repeat split; assumption.
  - destruct (cleanup_spec self s1 c1 H1)
      as (s2 & c2 & E2 & H2 & R2 & N2 & _ & _ & _ & G1 & _ & D2 & G2).
    rewrite (bind_Return _ _ _ _ _ E2) in E. inversion E; subst.
    exists c2. split; [exact H2 |]. split; [exact T |].
    split; [exists e1; reflexivity |]. split; [congruence |].
    split; [rewrite N2; exact N1 |].
    split.
    { intros p Hp. change (files st) with (files s0). rewrite <- F1.
      apply G1. exact Hp. }
    split; [intros Hf; apply D2; rewrite O; exact Hf |].
    intros p Hp Hf. apply G2; [rewrite N1; exact Hp | rewrite O; exact Hf].
  - inversion E; subst. exists c1. repeat split; assumption.
Qed.

(** X9 ([reset_kernel]).  On a controller that has a manager the kernel is
    asked to restart, and the call ends in one of two ways.  It returns:
    the controller is ready again and its notebook is untouched.  Or the
    restart or the wait after it failed: the error is the failed-reset
    error that carries the cause, the readiness flag is unset, and the
    teardown has been attempted: no file has been added, the process is
    not running if [shutdown_kernel] does not raise, and the notebook file
    is gone if [os.remove] does not raise.  On a controller without a
    manager the call does nothing. *)
Theorem reset_kernel_restarts_or_attempts_teardown self st c :
  store st !! self = Some c ->
  match kernel_manager c with
  | None => reset_kernel self st = (Return tt, st)
  | Some _ =>
      exists c',
        store (snd (reset_kernel self st)) !! self = Some c'
        /\ In (RestartKernel self) (trace (snd (reset_kernel self st)))
        /\ match fst (reset_kernel self st) with
           | Return _ =>
               _kernel_ready c' = true
               /\ notebook_path c' = notebook_path c
               /\ files (snd (reset_kernel self st)) = files st
           | Raise e =>
               (exists cause,
                  e = RuntimeError
                        ("Failed to reset kernel: " ++ str_exn cause))
               /\ _kernel_ready c' = false
               /\ notebook_path c' = notebook_path c
               /\ (forall p, p ∈ files (snd (reset_kernel self st)) ->
                     p ∈ files st)
               /\ (raising st (ShutdownKernel self) = false -> not_running c')
               /\ (forall p, notebook_path c = Some p ->
                     raising st (RemoveNotebook p) = false ->
                     p ∉ files (snd (reset_kernel self st)))
           | Pending => True
           end
  end.
Proof.
  intros H. destruct (kernel_manager c) as [k|] eqn:Hk.
  - destruct (reset_kernel self st) as [res st'] eqn:E.
    exact (reset_kernel_spec self st c k res st' H Hk E).
  - unfold reset_kernel.
    rewrite (bind_Return _ _ _ _ _ (deref_spec _ _ _ H)). rewrite Hk.
    reflexivity.
Qed.

(** ** The ways an execution fails *)

Lemma bind_Raise_inv {A B} (m : M A) (k : A -> M B) st e st' :
  bind m k st = (Raise e, st') ->
  m st = (Raise e, st')
  \/ exists a s1, m st = (Return a, s1) /\ k a s1 = (Raise e, st').
Proof.
  unfold bind. destruct (m st) as [[a|e0|] s1]; intros H.
  - right. exists a, s1. split; [reflexivity | exact H].
  - left. inversion H; subst. reflexivity.
  - discriminate H.
Qed.

Lemma on_message_Throw msg_id outputs m e :
  on_message msg_id outputs m = Throw e -> loop_failure e.
Proof.
  unfold on_message, loop_failure.
  destruct (String.eqb (msg_type m) "stream").
  { destruct (text (content m)); intros H; inversion H. left. eauto. }
  destruct (String.eqb (msg_type m) "execute_result").
  { destruct (data (content m)); intros H; inversion H. left. eauto. }
  destruct (String.eqb (msg_type m) "display_data").
  { destruct (data (content m)) as [d|]; [| intros H; inversion H; left; eauto].
    destruct (dict_has "image/png" d); [discriminate |].
    destruct (dict_has "text/html" d); [discriminate |].
    destruct (truthy (default "" (dict_get "text/plain" d))); discriminate. }
  destruct (String.eqb (msg_type m) "error").
  { intros H. inversion H. right. eauto. }
  destruct (String.eqb (msg_type m) "status"); [| discriminate].
  destruct (execution_state (content m)) as [s|];
    [| intros H; inversion H; left; eauto].
  destruct (String.eqb s "idle"); [| discriminate].
  destruct (parent_msg_id m) as [p|]; [| intros H; inversion H; left; eauto].
  destruct (String.eqb p msg_id); discriminate.
Qed.

Lemma consume_Threw msg_id : forall q outputs e,
  fst (consume msg_id outputs q) = Threw e ->
  e = QueueEmpty \/ loop_failure e.
Proof.
  induction q as [|[m|] q IH]; intros outputs e H; simpl in H.
  - inversion H. left. reflexivity.
  - destruct (on_message msg_id outputs m) as [outputs'| |e0] eqn:Em.
    + exact (IH _ _ H).
    + discriminate H.
    + inversion H; subst. right. exact (on_message_Throw _ _ _ _ Em).
  - inversion H. left. reflexivity.
Qed.

Lemma on_iopub_Return {A} self
  (f : list (option message) -> A * list (option message)) st a st' :
  on_iopub self f st = (Return a, st') -> exists q, a = fst (f q).
Proof.
  unfold on_iopub. intros E.
  apply bind_Return_inv in E as (k & s1 & _ & E).
  exists (iopub k). destruct (f (iopub k)) as [a' q'].
  apply bind_Return_inv in E as (u & s2 & _ & E). inversion E. reflexivity.
Qed.

Lemma kernel_call_execute_failure {A} (m : M A) st e st' :
  raises_only from_kernel_call m -> m st = (Raise e, st') -> execute_failure e.
Proof.
  intros R E. do 5 right. exact (R _ _ _ E).
Qed.

Lemma ensure_ready_fails self : raises_only execute_failure (ensure_ready self).
Proof.
  intros st e st' E. unfold ensure_ready in E.
  destruct (store st !! self) as [c|] eqn:H.
  2:{ rewrite (bind_Raise _ _ _ _ _ (deref_missing _ _ H)) in E.
      inversion E; subst. do 5 right. exact I. }
  rewrite (bind_Return _ _ _ _ _ (deref_spec _ _ _ H)) in E.
  destruct (_kernel_ready c); [discriminate E |].
  change (negb false) with true in E. cbv iota in E.
  unfold bind at 1 in E. unfold try_except at 1 in E.
  destruct (_wait_for_kernel_ready self 5 st) as [r s1] eqn:Ew.
  destruct (wait_for_kernel_ready_spec _ _ _ _ _ _ H Ew) as (c1 & H1 & R1).
  destruct r as [[]|ew|].
  - rewrite (bind_Return _ _ _ _ _ (deref_spec _ _ _ H1)) in E.
    rewrite R1 in E. discriminate E.
  - destruct R1 as [-> _]. simpl in E. inversion E; subst. left. reflexivity.
  - discriminate E.
Qed.

Lemma correlate_fails self src : raises_only execute_failure (correlate self src).
Proof.
  intros st e st' E. unfold correlate in E.
  apply bind_Raise_inv in E as [E | (msg_id & s1 & _ & E)].
  { exact (kernel_call_execute_failure _ _ _ _ (kc_execute_raises _ _) E). }
  apply bind_Raise_inv in E as [E | (ending & s2 & Eo & E)].
  { exact (kernel_call_execute_failure _ _ _ _ (on_iopub_raises _ _) E). }
  apply on_iopub_Return in Eo as (q & ->).
  destruct (fst (consume msg_id [] q)) as [outputs|e0] eqn:Ec;
    [discriminate E |].
  apply consume_Threw in Ec as [-> | Hl].
  - simpl in E.
    apply bind_Raise_inv in E as [E | (alive & s3 & _ & E)].
    { exact (kernel_call_execute_failure _ _ _ _ (is_alive_raises _) E). }
    destruct alive; simpl in E.
    + inversion E; subst. do 3 right. left. reflexivity.
    + unfold bind, update, modify, raise in E. inversion E; subst.
      do 2 right. left. reflexivity.
  - assert (is_QueueEmpty e0 = false) as Hq.
    { destruct Hl as [(key & ->) | (en & ev & tb & ->)]; reflexivity. }
    rewrite Hq in E. inversion E; subst.
    do 4 right. left. exists e0. split; [exact Hl | reflexivity].
Qed.

Lemma execute_code_fails self src :
  raises_only execute_failure (execute_code self src).
Proof.
  intros st e st' E. unfold execute_code in E.
  apply bind_Raise_inv in E as [E | ([] & s1 & _ & E)].
  { exact (ensure_ready_fails _ _ _ _ E). }
  apply bind_Raise_inv in E as [E | (alive & s2 & _ & E)].
  { exact (kernel_call_execute_failure _ _ _ _ (is_alive_raises _) E). }
  apply bind_Raise_inv in E as [E | ([] & s3 & _ & E)].
  { destruct alive; simpl in E; [discriminate E |].
    unfold bind, update, modify, raise in E. inversion E; subst.
    right. left. reflexivity. }
  apply bind_Raise_inv in E as [E | ([] & s4 & _ & E)].
  { exact (kernel_call_execute_failure _ _ _ _
             (clear_output_queue_raises _) E). }
  exact (correlate_fails _ _ _ _ _ E).
Qed.

Lemma execute_failure_excludes e :
  execute_failure e ->
  e <> RuntimeError "Kernel not ready after waiting. Please restart session."
  /\ status_of e <> Some 400%Z.
Proof.
  intros [-> | [-> | [-> | [-> | [(cause & _ & ->) | H]]]]];
    try (split; discriminate).
  destruct e; simpl in H; try contradiction. split; discriminate.
Qed.

(** X10 ([execute_code]).  The complete list of the ways an execution
    fails: the kernel did not become ready, it was found dead before the
    submission or during the wait for output, the wait timed out (408), a
    message could not be processed (500, whose cause is a missing key or the
    400 exception built for an interpreter error), or the controller has no
    kernel to call.  Two things are not on the list: the not-ready-after-
    waiting error, since a wait that returns has set the flag; and an
    answer with status 400. *)
Theorem execute_code_fails_only_in_these_ways self src :
  raises_only
    (fun e =>
       execute_failure e
       /\ e <> RuntimeError
                 "Kernel not ready after waiting. Please restart session."
       /\ status_of e <> Some 400%Z)
    (execute_code self src).
Proof.
  intros st e st' E. pose proof (execute_code_fails _ _ _ _ _ E) as F.
  split; [exact F | exact (execute_failure_excludes e F)].
Qed.

(** ** The answers of the request handlers *)

Lemma http_among_incl codes codes' e :
  incl codes codes' -> http_among codes e -> http_among codes' e.
Proof. intros Hi. destruct e; simpl; auto. Qed.

Lemma kernel_call_http_among {A} codes (m : M A) :
  raises_only from_kernel_call m -> raises_only (http_among codes) m.
Proof.
  apply raises_only_weaken. intros e. destruct e; simpl; intuition congruence.
Qed.

Lemma from_wait_http_among {A} codes (m : M A) :
  raises_only from_wait m -> raises_only (http_among codes) m.
Proof.
  apply raises_only_weaken. intros e. destruct e; simpl; intuition congruence.
Qed.

#[local] Hint Resolve kernel_call_http_among : rais.

Lemma wait_for_kernel_ready_http_among codes self timeout :
  raises_only (http_among codes) (_wait_for_kernel_ready self timeout).
Proof. apply from_wait_http_among, wait_for_kernel_ready_raises. Qed.

Lemma execute_code_http_among self src :
  raises_only (http_among [408; 500]%Z) (execute_code self src).
Proof.
  eapply raises_only_weaken; [| apply execute_code_raises].
  intros e. destruct e; simpl; intuition congruence.
Qed.

Lemma reset_kernel_http_among codes self :
  raises_only (http_among codes) (reset_kernel self).
Proof.
  unfold reset_kernel.
  apply raises_only_bind; [rais |]. intros c.
  destruct (kernel_manager c); [| rais].
  apply raises_only_bind; [rais |]. intros _.
  apply raises_only_try_except. intros e. rais.
Qed.

Lemma reset_or_remove_http_among conversation_id controller indent failure :
  raises_only (http_among [500%Z])
    (reset_or_remove conversation_id controller indent failure).
Proof.
  unfold reset_or_remove. apply raises_only_try_except. intros e.
  unfold del_session. rais.
Qed.

#[local] Hint Resolve wait_for_kernel_ready_http_among
  reset_or_remove_http_among : rais.

(** An access to a registered session raises no HTTP answer but 500. *)
Lemma get_session_registered_raises conversation_id st found e st' :
  sessions st !! conversation_id = Some found ->
  get_session conversation_id st = (Raise e, st') ->
  http_among [500%Z] e.
Proof.
  intros H E. unfold get_session in E.
  rewrite (bind_Return get_state _ st st st eq_refl) in E. cbv beta in E.
  rewrite H in E.
  match type of E with
  | ?m st = _ => assert (raises_only (http_among [500%Z]) m) as R
  end.
  { rais. }
  exact (R _ _ _ E).
Qed.

Lemma get_session_http_among conversation_id :
  raises_only (http_among [404; 500]%Z) (get_session conversation_id).
Proof.
  intros st e st' E.
  destruct (sessions st !! conversation_id) as [found|] eqn:H.
  - apply (http_among_incl [500%Z]).
    + intros x [<- | []]. right. left. reflexivity.
    + exact (get_session_registered_raises _ _ _ _ _ H E).
  - rewrite (get_session_absent _ _ H) in E. inversion E; subst.
    left. reflexivity.
Qed.

Lemma create_session_http_among conversation_id :
  raises_only (http_among [500%Z]) (_create_session conversation_id).
Proof.
  unfold _create_session.
  apply raises_only_bind; [rais |]. intros st0.
  apply raises_only_bind.
  { destruct (sessions st0 !! conversation_id); [| rais].
    apply raises_only_bind; [rais |]. intros _. unfold del_session. rais. }
  intros _.
  apply raises_only_bind; [unfold new_controller; rais |]. intros ctl.
  apply raises_only_try_except. intros e. rais.
Qed.

Lemma reported_failure_answers p res e :
  reported_failure p res e -> answers [400; 408; 500]%Z e.
Proof.
  unfold reported_failure.
  destruct res as [rc out err| |msg].
  - destruct (rc =? 0)%Z.
    + intros (raised & _ & H). destruct raised; subst e; simpl; intuition congruence.
    + intros ->. simpl. intuition congruence.
  - intros ->. simpl. intuition congruence.
  - intros ->. simpl. intuition congruence.
Qed.

Lemma install_dependencies_answers session_info dependencies :
  raises_only (answers [400; 408; 500]%Z)
    (_install_dependencies session_info dependencies).
Proof.
  intros st e st' E. rewrite install_dependencies_each in E.
  destruct (install_each_spec (controller session_info) dependencies st)
    as (res & st1 & E1 & _ & _ & _ & R).
  rewrite E in E1. inversion E1; subst.
  destruct R as (pre & p & post & _ & _ & _ & F & _).
  eapply reported_failure_answers; exact F.
Qed.

Lemma answers_http_among codes e : answers codes e -> http_among codes e.
Proof. destruct e; simpl; intuition congruence. Qed.

(** A handler that re-raises the HTTP answers and turns everything else
    into a 500. *)
Lemma answers_of_handler {A} codes (m : M A) (text : exn -> string) :
  In 500%Z codes ->
  raises_only (http_among codes) m ->
  raises_only (answers codes)
    (try_except m
       (fun e =>
          if is_HTTPException e then raise e
          else raise (HTTPException 500 (DetailStr (text e))))).
Proof.
  intros H5 Hm. apply (raises_only_try_except_from (http_among codes));
    [exact Hm |].
  intros e He. destruct e; simpl in *; apply raises_only_raise;
    first [exact He | exact H5].
Qed.

Lemma run_body_raises codes request st e st' :
  incl [408; 500]%Z codes ->
  (dependencies request <> [] -> incl [400; 408; 500]%Z codes) ->
  (st <- get_state ;;
   session_info <-
     (match sessions st !! conversation_id request with
      | Some _ => get_session (conversation_id request)
      | None => _create_session (conversation_id request)
      end) ;;
   (match dependencies request with
    | [] => ret tt
    | _ => _install_dependencies session_info (dependencies request)
    end) ;;
   output <- execute_code (controller session_info) (code request) ;;
   ret output) st = (Raise e, st') ->
  http_among codes e.
Proof.
  intros Hc Hd E.
  rewrite (bind_Return get_state _ st st st eq_refl) in E. cbv beta in E.
  assert (incl [500%Z] codes) as H500.
  { intros x [<- | []]. apply Hc. right. left. reflexivity. }
  apply bind_Raise_inv in E as [E | (session_info & s1 & _ & E)].
  { apply (http_among_incl [500%Z]); [exact H500 |].
    destruct (sessions st !! conversation_id request) as [found|] eqn:H.
    - exact (get_session_registered_raises _ _ _ _ _ H E).
    - exact (create_session_http_among _ _ _ _ E). }
  apply bind_Raise_inv in E as [E | ([] & s2 & _ & E)].
  { destruct (dependencies request) as [|p rest] eqn:Hdeps; [discriminate E |].
    apply (http_among_incl [400; 408; 500]%Z); [apply Hd; discriminate |].
    apply answers_http_among.
    exact (install_dependencies_answers _ _ _ _ _ E). }
  apply bind_Raise_inv in E as [E | (output & s3 & _ & E)]; [| discriminate E].
  apply (http_among_incl [408; 500]%Z); [exact Hc |].
  exact (execute_code_http_among _ _ _ _ _ E).
Qed.

(** X11 ([run_code_in_session]).  Whatever goes wrong, the caller of [run]
    gets an HTTP answer with status 400, 408 or 500: never 404, and never
    an exception of another class.  The 400 comes from the dependencies
    alone: a request without dependencies is answered with 408 or 500
    when it fails. *)
Theorem run_answers_400_408_or_500 request :
  raises_only (answers [400; 408; 500]%Z) (run_code_in_session request)
  /\ (dependencies request = [] ->
      raises_only (answers [408; 500]%Z) (run_code_in_session request)).
Proof.
  split.
  - unfold run_code_in_session.
    apply answers_of_handler; [right; right; left; reflexivity |].
    intros st e st' E.
    apply (run_body_raises _ request st e st'); [| intros _; apply incl_refl | exact E].
    intros x [<- | [<- | []]]; simpl; intuition congruence.
  - intros Hd. unfold run_code_in_session.
    apply answers_of_handler; [right; left; reflexivity |].
    intros st e st' E.
    apply (run_body_raises _ request st e st'); [apply incl_refl | | exact E].
    intros Hne. contradiction.
Qed.

Lemma reset_body_raises conversation_id session_info :
  raises_only (http_among [500%Z])
    (reset_kernel (controller session_info) ;;
     try_except
       (execute_code (controller session_info)
          (reset_setup_code "Re-running initial imports after manual reset."
             "        ") ;;
        ret tt)
       (fun setup_error =>
          raise (HTTPException 500 (DetailStr
            ("Kernel reset, but failed to re-initialize environment: "
               ++ str_exn setup_error)))) ;;
     ret ("Kernel for session '" ++ conversation_id ++ "' reset successful")).
Proof.
  apply raises_only_bind; [apply reset_kernel_http_among |]. intros _.
  apply raises_only_bind; [| intros _; rais].
  apply raises_only_try_except. intros e. rais.
Qed.

(** X12 ([reset_session]).  A failed [reset] is answered with 404 or 500,
    and with 404 only when the id is not registered: once the session has
    been found, every failure of the restart or of the bootstrap after it
    is a 500. *)
Theorem reset_answers_404_or_500 conversation_id :
  raises_only (answers [404; 500]%Z) (reset_session conversation_id)
  /\ (forall st e st',
        reset_session conversation_id st = (Raise e, st') ->
        status_of e = Some 404%Z ->
        sessions st !! conversation_id = None).
Proof.
  split.
  - unfold reset_session.
    apply answers_of_handler; [right; left; reflexivity |].
    apply raises_only_bind; [apply get_session_http_among |].
    intros session_info.
    eapply raises_only_weaken; [| apply reset_body_raises].
    intros e. apply http_among_incl. intros x [<- | []]. right. left.
    reflexivity.
  - intros st e st' E He.
    destruct (sessions st !! conversation_id) as [found|] eqn:H;
      [exfalso | reflexivity].
    unfold reset_session, try_except in E.
    match type of E with
    | context [match ?body st with _ => _ end] =>
        destruct (body st) as [[out|e0|] s1] eqn:Eb
    end; try discriminate E.
    assert (http_among [500%Z] e0) as A.
    { apply bind_Raise_inv in Eb as [Eb | (session_info & s2 & _ & Eb)].
      - exact (get_session_registered_raises _ _ _ _ _ H Eb).
      - exact (reset_body_raises _ _ _ _ _ Eb). }
    destruct e0; simpl in E, A; inversion E; subst; try discriminate He.
    destruct A as [<- | []]. discriminate He.
Qed.

(** ** A creation that fails *)

Lemma try_except_Raise_inv {A} (m : M A) (h : exn -> M A) st e st' :
  try_except m h st = (Raise e, st') ->
  exists e0 s1, m st = (Raise e0, s1) /\ h e0 s1 = (Raise e, st').
Proof.
  unfold try_except. destruct (m st) as [[a|e0|] s1]; intros H;
    try discriminate H.
  exists e0, s1. split; [reflexivity | exact H].
Qed.

Lemma with_sessions_store_kept f : preserves store_kept (modify (with_sessions f)).
Proof. apply preserves_modify. intros st. reflexivity. Qed.

Lemma cleanup_store_kept self : preserves store_kept (cleanup self).
Proof.
  unfold cleanup, stop_channels, shutdown_kernel, os_remove, the_kernel. pres.
Qed.

Lemma del_session_store_kept conversation_id :
  preserves store_kept (del_session conversation_id).
Proof. unfold del_session. pres. apply with_sessions_store_kept. Qed.

Lemma del_session_only_controller self conversation_id :
  preserves (only_controller self) (del_session conversation_id).
Proof. unfold del_session. pres. Qed.

#[local] Hint Resolve with_sessions_store_kept cleanup_store_kept
  del_session_store_kept del_session_only_controller
  execute_code_store_kept create_notebook_store_kept : pres.

Lemma time_time_Return st now st' :
  time_time st = (Return now, st') ->
  exists later, clock st = now :: later /\ st' = with_clock later st.
Proof.
  unfold time_time. destruct (clock st) as [|t later]; intros H;
    inversion H; subst. exists later. split; reflexivity.
Qed.

Lemma time_time_no_Raise st e st' : time_time st = (Raise e, st') -> False.
Proof. unfold time_time. destruct (clock st); discriminate. Qed.

(** A creation for an id that is not registered, when it fails. *)
Lemma create_session_failure conversation_id st e st' :
  sessions st !! conversation_id = None ->
  _create_session conversation_id st = (Raise e, st') ->
  (exists cause,
     e = HTTPException 500 (DetailStr
           ("Failed to create session: " ++ str_exn cause)))
  /\ sessions st' = sessions st
  /\ (forall l, l < length (store st) -> store st' !! l = store st !! l)
  /\ exists c',
       store st' !! length (store st) = Some c'
       /\ (raising st (ShutdownKernel (length (store st))) = false ->
           not_running c')
       /\ (forall p, notebook_path c' = Some p ->
             raising st (RemoveNotebook p) = false -> p ∉ files st').
Proof.
  intros Hnone E. unfold _create_session in E.
  rewrite (bind_Return get_state _ st st st eq_refl) in E. cbv beta in E.
  rewrite Hnone in E.
  rewrite (bind_Return (ret tt) _ st tt st eq_refl) in E.
  set (c0 := {| folder_path := os_path_join SESSIONS_FOLDER conversation_id;
                notebook_path := None; kernel_manager := None;
                kernel_client := false; _kernel_ready := false |}) in *.
  set (s0 := with_store (fun h => (h ++ [c0])%list) st).
  rewrite (bind_Return (new_controller _) _ st (length (store st)) s0)
    in E by reflexivity.
  set (ctl := length (store st)) in *.
  assert (ctl < length (store s0)) as Hctl.
  { subst s0 ctl. simpl. rewrite length_app. simpl. lia. }
  match type of E with
  | ?m s0 = _ =>
      assert (preserves (only_controller ctl) m) as O by pres;
      assert (preserves store_kept m) as K by pres;
      specialize (O s0); specialize (K s0); rewrite E in O, K;
      simpl in O, K
  end.
  apply try_except_Raise_inv in E as (e1 & s1 & Eb & E).
  match type of Eb with
  | ?body s0 = _ =>
      assert (preserves raising_kept body) as Ob
        by (unfold del_session; pres);
      specialize (Ob s0); rewrite Eb in Ob; simpl in Ob
  end.
  unfold raising_kept in Ob. change (raising s0) with (raising st) in Ob.
  (* the registry is as before when the body raises *)
  assert (sessions s1 = sessions st /\ length (store s1) = length (store s0))
    as [S1 L1].
  { apply bind_Raise_inv in Eb as [Eb | (path & sa & Ea & Eb)].
    { pose proof (create_notebook_registry_untouched ctl
                    ("notebook_" ++ conversation_id) s0) as [S _].
      pose proof (create_notebook_store_kept ctl
                    ("notebook_" ++ conversation_id) s0) as L.
      rewrite Eb in S, L. split; [exact S | exact L]. }
    pose proof (create_notebook_registry_untouched ctl
                  ("notebook_" ++ conversation_id) s0) as [Sa _].
    pose proof (create_notebook_store_kept ctl
                  ("notebook_" ++ conversation_id) s0) as La.
    rewrite Ea in Sa, La. simpl in Sa, La.
    apply bind_Raise_inv in Eb as [Eb | (now & sb & Et & Eb)].
    { destruct (time_time_no_Raise _ _ _ Eb). }
    apply time_time_Return in Et as (later & _ & ->). cbv zeta in Eb.
    set (si := {| controller := ctl; created_at := now; last_activity := now |})
      in Eb.
    set (sc := with_sessions <[conversation_id := si]> (with_clock later sa))
      in *.
    rewrite (bind_Return (modify _) _ _ tt sc) in Eb by reflexivity.
    apply bind_Raise_inv in Eb as [Eb | (u & sd & _ & Eb)];
      [| discriminate Eb].
    apply try_except_Raise_inv in Eb as (e2 & sd & Ee & Eb).
    pose proof (execute_code_kernel_calls ctl setup_code sc) as (Sd & _).
    pose proof (execute_code_store_kept ctl setup_code sc) as Ld.
    assert (exists o, execute_code ctl setup_code sc = (o, sd)) as (o & Ee').
    { apply bind_Raise_inv in Ee as [Ee | (o & s & Ee & Er)];
        [eexists; exact Ee | discriminate Er]. }
    rewrite Ee' in Sd, Ld. simpl in Sd, Ld.
    assert (is_Some (store sd !! ctl)) as [cd Hcd].
    { apply lookup_lt_is_Some. rewrite Ld. subst sc. simpl. rewrite La.
      exact Hctl. }
    destruct (cleanup_spec ctl sd cd Hcd)
      as (se & ce & Ec & _ & _ & _ & Se & _).
    pose proof (cleanup_store_kept ctl sd) as Le. rewrite Ec in Le.
    simpl in Le.
    rewrite (bind_Return _ _ _ _ _ Ec) in Eb.
    unfold del_session in Eb.
    unfold bind at 1 in Eb.
    rewrite (bind_Return get_state _ se se se eq_refl) in Eb. cbv beta in Eb.
    assert (sessions se !! conversation_id = Some si) as Hreg.
    { rewrite Se, Sd. subst sc. simpl. apply lookup_insert_eq. }
    rewrite Hreg in Eb. unfold modify, raise in Eb. inversion Eb; subst.
    split.
    - simpl. rewrite Se, Sd. subst sc. simpl. rewrite delete_insert_id;
        [exact Sa | rewrite Sa; exact Hnone].
    - simpl. rewrite Le, Ld. subst sc. simpl. exact La. }
  assert (is_Some (store s1 !! ctl)) as [c1 H1].
  { apply lookup_lt_is_Some. rewrite L1. exact Hctl. }
  destruct (cleanup_spec ctl s1 c1 H1)
    as (s2 & c2 & Ec & H2 & _ & N2 & S2 & _ & _ & _ & _ & D2 & G2).
  rewrite (bind_Return _ _ _ _ _ Ec) in E. inversion E; subst e st'.
  split; [exists e1; reflexivity |]. split; [rewrite S2; exact S1 |]. split.
  - intros l Hl. etransitivity; [apply (O l); subst ctl; lia |].
    subst s0. simpl. apply lookup_app_l. exact Hl.
  - exists c2. split; [exact H2 |]. split.
    + intros Hf. apply D2. rewrite Ob. exact Hf.
    + intros p Hp Hf. apply G2; [rewrite <- N2; exact Hp |].
      rewrite Ob. exact Hf.
Qed.

(** X13 ([_create_session], the two [except] clauses).  A creation for an
    unregistered id that fails is answered with the 500 error of the outer
    clause, which carries the cause; it leaves the registry and the
    controllers of the other sessions exactly as they were.  The teardown
    of the controller it made has been attempted: its process is not
    running if [shutdown_kernel] does not raise, and its notebook file is
    gone if [os.remove] does not raise. *)
Theorem failed_creation_leaves_nothing_registered conversation_id st e st' :
  sessions st !! conversation_id = None ->
  _create_session conversation_id st = (Raise e, st') ->
  (exists cause,
     e = HTTPException 500 (DetailStr
           ("Failed to create session: " ++ str_exn cause)))
  /\ sessions st' = sessions st
  /\ (forall l, l < length (store st) -> store st' !! l = store st !! l)
  /\ exists c',
       store st' !! length (store st) = Some c'
       /\ (raising st (ShutdownKernel (length (store st))) = false ->
           not_running c')
       /\ (forall p, notebook_path c' = Some p ->
             raising st (RemoveNotebook p) = false -> p ∉ files st').
Proof. exact (create_session_failure conversation_id st e st'). Qed.

(** ** Requests on one conversation and the other sessions *)

Lemma registry_untouched_others conversation_id {A} (m : M A) :
  preserves registry_untouched m ->
  preserves (other_sessions_kept conversation_id) m.
Proof.
  apply preserves_weaken. intros a b [S _] other _. rewrite S. reflexivity.
Qed.

Lemma insert_others conversation_id session_info :
  preserves (other_sessions_kept conversation_id)
    (modify (with_sessions <[conversation_id := session_info]>)).
Proof.
  apply preserves_modify. intros st other Ho. simpl.
  apply lookup_insert_ne. congruence.
Qed.

Lemma delete_others conversation_id :
  preserves (other_sessions_kept conversation_id)
    (modify (with_sessions (delete conversation_id))).
Proof.
  apply preserves_modify. intros st other Ho. simpl.
  apply lookup_delete_ne. congruence.
Qed.

Lemma with_store_others conversation_id f :
  preserves (other_sessions_kept conversation_id) (modify (with_store f)).
Proof. apply preserves_modify. intros st other _. reflexivity. Qed.

Lemma install_dependencies_others conversation_id session_info dependencies :
  preserves (other_sessions_kept conversation_id)
    (_install_dependencies session_info dependencies).
Proof.
  intros st other _. rewrite install_dependencies_sessions. reflexivity.
Qed.

#[local] Hint Resolve registry_untouched_others insert_others delete_others
  with_store_others install_dependencies_others : pres.

Lemma get_session_others conversation_id :
  preserves (other_sessions_kept conversation_id) (get_session conversation_id).
Proof. unfold get_session, reset_or_remove, del_session. pres. Qed.

Lemma create_session_others conversation_id :
  preserves (other_sessions_kept conversation_id)
    (_create_session conversation_id).
Proof. unfold _create_session, del_session, new_controller. pres. Qed.

#[local] Hint Resolve get_session_others create_session_others : pres.

(** X14 (the three handlers).  A request that names one conversation leaves
    the registry entry of every other conversation as it was, whether the
    request succeeds or fails: [run], with the creation, the restart and
    the removal it may go through, [reset] and [end_session] only ever
    write or delete the entry of their own id. *)
Theorem requests_leave_other_sessions_alone request other st :
  other <> conversation_id request ->
  sessions (snd (run_code_in_session request st)) !! other
  = sessions st !! other
  /\ sessions (snd (reset_session (conversation_id request) st)) !! other
     = sessions st !! other
  /\ sessions (snd (end_session (conversation_id request) st)) !! other
     = sessions st !! other.
Proof.
  intros Ho.
  assert (preserves (other_sessions_kept (conversation_id request))
            (run_code_in_session request)) as Hrun.
  { unfold run_code_in_session. pres. }
  assert (preserves (other_sessions_kept (conversation_id request))
            (reset_session (conversation_id request))) as Hreset.
  { unfold reset_session. pres. }
  assert (preserves (other_sessions_kept (conversation_id request))
            (end_session (conversation_id request))) as Hend.
  { unfold end_session. pres. }
  split; [exact (Hrun st other Ho) |].
  split; [exact (Hreset st other Ho) | exact (Hend st other Ho)].
Qed.

(** ** The teardown tasks of a sweep *)

Lemma collect_filter current_time (m : gmap string SessionInfo) :
  forall session_ids to_remove,
    collect current_time m session_ids to_remove
    = (to_remove ++ List.filter (expired current_time m) session_ids)%list.
Proof.
  induction session_ids as [|x ids IH]; intros acc; simpl.
  - rewrite app_nil_r. reflexivity.
  - unfold expired at 1. destruct (m !! x) as [si|].
    + destruct (inactive current_time si).
      * rewrite IH, <- app_assoc. reflexivity.
      * apply IH.
    + apply IH.
Qed.

Lemma teardown_tasks_delete (m : gmap string SessionInfo) x ids :
  x ∉ ids -> teardown_tasks (delete x m) ids = teardown_tasks m ids.
Proof.
  induction ids as [|y ids IH]; intros Hx; [reflexivity |].
  apply not_elem_of_cons in Hx as [Hxy Hx]. simpl.
  rewrite lookup_delete_ne by congruence. rewrite (IH Hx). reflexivity.
Qed.

Lemma remove_each_trace : forall to_remove st,
  NoDup to_remove ->
  trace (snd (remove_each to_remove st))
  = (trace st ++ teardown_tasks (sessions st) to_remove)%list
  /\ store (snd (remove_each to_remove st)) = store st
  /\ files (snd (remove_each to_remove st)) = files st.
Proof.
  induction to_remove as [|x ids IH]; intros st Hnd.
  - simpl. rewrite app_nil_r. repeat split.
  - apply NoDup_cons in Hnd as [Hx Hnd]. simpl remove_each.
    rewrite (bind_Return get_state _ st st st eq_refl). cbv beta.
    unfold teardown_tasks. simpl flat_map. fold (teardown_tasks (sessions st) ids).
    destruct (sessions st !! x) as [si|] eqn:Hs.
    + set (s1 := with_trace (CleanupTask (controller si))
                   (with_sessions (delete x) st)).
      assert ((modify (with_sessions (delete x)) ;;
               emit (CleanupTask (controller si))) st = (Return tt, s1)) as E
        by reflexivity.
      rewrite (bind_Return _ _ _ _ _ E).
      destruct (IH s1 Hnd) as (T & S & F). rewrite T, S, F. subst s1. simpl.
      rewrite (teardown_tasks_delete _ _ _ Hx), <- app_assoc.
      repeat split.
    + rewrite (bind_Return (ret tt) _ st tt st eq_refl).
      destruct (IH st Hnd) as (T & S & F). rewrite T, S, F. repeat split.
Qed.

(** X15 ([cleanup_inactive_sessions], one cycle).  A sweep hands the
    teardown of every session it removes to a task of its own, one task per
    removed session and none for a session it keeps; it tears nothing down
    itself: the controllers and the notebook files are as before when the
    cycle ends. *)
Theorem sweep_schedules_one_teardown_per_removed_session st now later :
  clock st = now :: later ->
  exists removed,
    NoDup removed
    /\ (forall conversation_id,
          conversation_id ∈ removed
          <-> exists session_info,
                sessions st !! conversation_id = Some session_info
                /\ (3600 < now - last_activity session_info)%Q)
    /\ trace (snd (sweep st))
       = (trace st ++ teardown_tasks (sessions st) removed)%list
    /\ store (snd (sweep st)) = store st
    /\ files (snd (sweep st)) = files st.
Proof.
  intros Hc. unfold sweep.
  assert (time_time st = (Return now, with_clock later st)) as Et
    by (unfold time_time; rewrite Hc; reflexivity).
  rewrite (bind_Return time_time _ _ _ _ Et).
  set (s1 := with_clock later st).
  rewrite (bind_Return get_state _ s1 s1 s1 eq_refl). cbv beta zeta.
  change (sessions s1) with (sessions st).
  set (removed := collect now (sessions st) (keys (sessions st)) []).
  assert (NoDup removed) as Hnd.
  { subst removed. rewrite collect_filter. simpl.
    apply NoDup_ListNoDup, List.NoDup_filter, NoDup_ListNoDup.
    apply NoDup_fst_map_to_list. }
  exists removed. split; [exact Hnd |]. split.
  - intros cid. subst removed. rewrite collect_spec. split.
    + intros [Hin | (_ & si & Hs & Hi)]; [inversion Hin |].
      exists si. split; [exact Hs | apply inactive_iff; exact Hi].
    + intros (si & Hs & Hi). right. split.
      * apply keys_registered. exists si. exact Hs.
      * exists si. split; [exact Hs | apply inactive_iff; exact Hi].
  - apply (remove_each_trace removed s1 Hnd).
Qed.

(** ** An access that returns *)

Lemma reset_or_remove_Return conversation_id controller indent failure st u st' :
  reset_or_remove conversation_id controller indent failure st = (Return u, st') ->
  sessions st' = sessions st.
Proof.
  unfold reset_or_remove. intros E.
  apply try_except_Return_inv in E as [E | (e & s1 & _ & E)].
  - apply bind_Return_inv in E as ([] & s1 & E1 & E).
    apply bind_Return_inv in E as (o & s2 & E2 & E). inversion E; subst.
    pose proof (reset_kernel_registry_untouched controller st) as [S1 _].
    pose proof (execute_code_sessions controller
                  (reset_setup_code
                     "Re-running initial imports after kernel reset." indent)
                  s1) as S2.
    rewrite E1 in S1. rewrite E2 in S2. simpl in S1, S2. congruence.
  - apply bind_Return_inv in E as ([] & s2 & _ & E).
    apply bind_Return_inv in E as ([] & s3 & _ & E). discriminate E.
Qed.

Lemma get_session_Return conversation_id st session_info st' :
  get_session conversation_id st = (Return session_info, st') ->
  exists found now later,
    sessions st !! conversation_id = Some found
    /\ clock st = now :: later
    /\ session_info = set_last_activity now found
    /\ sessions st' = <[conversation_id := session_info]> (sessions st).
Proof.
  intros E. unfold get_session in E.
  rewrite (bind_Return get_state _ st st st eq_refl) in E. cbv beta in E.
  destruct (sessions st !! conversation_id) as [found|]; [| discriminate E].
  apply bind_Return_inv in E as (now & s0 & Et & E).
  apply time_time_Return in Et as (later & Hc & ->). cbv zeta in E.
  set (si := set_last_activity now found) in *.
  set (s1 := with_sessions <[conversation_id := si]> (with_clock later st))
    in E.
  rewrite (bind_Return (modify _) _ _ tt s1) in E by reflexivity.
  exists found, now, later. split; [reflexivity |]. split; [exact Hc |].
  apply bind_Return_inv in E as (alive & s2 & Em & E).
  pose proof (manager_and_alive_kernel_calls (controller si) s1) as [S2 _].
  rewrite Em in S2. simpl in S2.
  destruct alive; cbv beta iota delta [negb] in E.
  - apply bind_Return_inv in E as (c & s3 & Ed & E).
    pose proof (deref_kernel_calls (controller si) s2) as [S3 _].
    rewrite Ed in S3. simpl in S3.
    destruct (_kernel_ready c); cbv beta iota delta [negb] in E.
    + inversion E; subst. split; [reflexivity |]. rewrite S3, S2. reflexivity.
    + apply bind_Return_inv in E as ([] & s4 & Ew & E). inversion E; subst.
      split; [reflexivity |].
      apply try_except_Return_inv in Ew as [Ew | (e & s5 & Ew & Er)].
      * pose proof (wait_for_kernel_ready_kernel_calls (controller si) 15 s3)
          as [S4 _].
        rewrite Ew in S4. simpl in S4. rewrite S4, S3, S2. reflexivity.
      * pose proof (wait_for_kernel_ready_kernel_calls (controller si) 15 s3)
          as [S5 _].
        rewrite Ew in S5. simpl in S5.
        destruct (is_TimeoutError e); [| discriminate Er].
        apply reset_or_remove_Return in Er. rewrite Er, S5, S3, S2.
        reflexivity.
  - apply bind_Return_inv in E as ([] & s3 & Eu & E).
    pose proof (update_kernel_calls (controller si) (set_kernel_ready false) s2)
      as [S3 _].
    rewrite Eu in S3. simpl in S3.
    apply bind_Return_inv in E as ([] & s4 & Er & E). inversion E; subst.
    split; [reflexivity |].
    apply reset_or_remove_Return in Er. rewrite Er, S3, S2. reflexivity.
Qed.

(** ** An execution on a ready controller, as a function of the channel *)

Lemma drain_stale stale q : drain (arrivals stale ++ None :: q) = q.
Proof. induction stale as [|m stale IH]; [reflexivity | exact IH]. Qed.

Lemma execute_code_outcome self src st c k n :
  store st !! self = Some c -> _kernel_ready c = true ->
  kernel_manager c = Some k -> life k = S n ->
  fst (execute_code self src st)
  = outcome_of_loop (match n with O => false | S _ => true end)
      (fst (consume (msg_ids k (submitted k)) [] (drain (iopub k)))).
Proof.
  intros H Hr Hk Hl.
  destruct (execute_code_ready self src st c k n H Hr Hk Hl)
    as (st1 & c1 & k1 & E & L1 & Hk1 & _ & Hl1 & Hq1 & Hi1 & Hs1).
  destruct (correlate_spec self src st1 c1 k1 L1 Hk1)
    as (st2 & c2 & k2 & L2 & Hk2 & _ & Hl2 & _ & E2).
  rewrite E, E2, Hq1, Hi1, Hs1.
  destruct (fst (consume (msg_ids k (submitted k)) [] (drain (iopub k))))
    as [outputs|e]; [reflexivity |].
  unfold outcome_of_loop. destruct (is_QueueEmpty e); [| reflexivity].
  unfold bind at 1. rewrite (is_alive_eq _ _ _ _ L2 Hk2), Hl2, Hl1.
  destruct n; reflexivity.
Qed.

(** X16 ([execute_code] with [_clear_output_queue]).  On a ready controller
    with a live process the outcome of an execution is a function of the
    token of the submission and of what the channel holds after its first
    empty read: the output of the loop when it reaches the idle status of
    the token, 408 or the kernel-died error on silence, 500 on a message it
    cannot process.  The messages buffered before that empty read, left
    over from earlier requests, are drained and have no influence on the
    outcome. *)
Theorem stale_messages_do_not_reach_the_outcome self src st c k n :
  store st !! self = Some c -> _kernel_ready c = true ->
  kernel_manager c = Some k -> life k = S n ->
  fst (execute_code self src st)
  = outcome_of_loop (match n with O => false | S _ => true end)
      (fst (consume (msg_ids k (submitted k)) [] (drain (iopub k))))
  /\ forall stale q,
       iopub k = (arrivals stale ++ None :: q)%list ->
       fst (execute_code self src st)
       = outcome_of_loop (match n with O => false | S _ => true end)
           (fst (consume (msg_ids k (submitted k)) [] q)).
Proof.
  intros H Hr Hk Hl.
  pose proof (execute_code_outcome self src st c k n H Hr Hk Hl) as E.
  split; [exact E |]. intros stale q Hq. rewrite E, Hq, drain_stale.
  reflexivity.
Qed.

(** ** A request on a healthy session *)

Lemma execute_code_Return_frame self src st out st' :
  execute_code self src st = (Return out, st') ->
  sessions st' = sessions st
  /\ files st' = files st
  /\ exists l, trace st' = (trace st ++ l)%list /\ Forall is_Execute l.
Proof.
  intros E. pose proof (execute_code_kernel_calls self src st) as K.
  rewrite E in K. destruct K as (S & _ & _ & F & T). auto.
Qed.

Lemma run_on_healthy_session_spec request st found c k n now later pre m rest :
  sessions st !! conversation_id request = Some found ->
  store st !! controller found = Some c -> _kernel_ready c = true ->
  kernel_manager c = Some k -> life k = S (S n) ->
  clock st = now :: later ->
  dependencies request = [] ->
  drain (iopub k) = (arrivals pre ++ Some m :: rest)%list ->
  forallb (ordinary (msg_ids k (submitted k))) pre = true ->
  is_idle_for (msg_ids k (submitted k)) m = true ->
  exists st',
    run_code_in_session request st
    = (Return (strip (join LF (flat_map rendered pre))), st')
    /\ sessions st'
       = <[conversation_id request := set_last_activity now found]>
           (sessions st)
    /\ files st' = files st
    /\ exists l, trace st' = (trace st ++ l)%list /\ Forall is_Execute l.
Proof.
  intros H Hc Hr Hk Hl Hclock Hd Hq Hpre Hm.
  destruct (get_session_healthy _ _ _ _ _ _ _ _ H Hc Hr Hk Hl Hclock)
    as (s1 & E1 & S1 & L1 & _ & T1 & F1).
  assert (store s1 !! controller found
          = Some (set_kernel_manager (set_life (S n) k) c)) as Hc1.
  { rewrite L1. apply list_lookup_insert_eq. eapply lookup_lt_Some. exact Hc. }
  pose proof (execute_code_outcome (controller found) (code request) s1
                _ (set_life (S n) k) n Hc1 Hr eq_refl eq_refl) as Eo.
  change (iopub (set_life (S n) k)) with (iopub k) in Eo.
  change (msg_ids (set_life (S n) k)) with (msg_ids k) in Eo.
  change (submitted (set_life (S n) k)) with (submitted k) in Eo.
  rewrite Hq in Eo.
  rewrite (consume_ordinary _ pre [] _ Hpre) in Eo. simpl in Eo.
  rewrite (on_message_idle _ _ _ Hm) in Eo. simpl in Eo.
  rewrite output_of_outputs in Eo.
  destruct (execute_code (controller found) (code request) s1)
    as [r s2] eqn:E2.
  simpl in Eo. subst r.
  destruct (execute_code_Return_frame _ _ _ _ _ E2) as (S2 & F2 & l & T2 & Hl2).
  exists s2. split.
  - unfold run_code_in_session, try_except.
    rewrite (bind_Return get_state _ st st st eq_refl). cbv beta.
    rewrite H.
    rewrite (bind_Return _ _ _ _ _ E1). rewrite Hd.
    rewrite (bind_Return (ret tt) _ s1 tt s1 eq_refl).
    change (controller (set_last_activity now found)) with (controller found).
    rewrite (bind_Return _ _ _ _ _ E2). reflexivity.
  - split; [rewrite S2; exact S1 |]. split; [rewrite F2; exact F1 |].
    exists l. split; [rewrite T2, T1; reflexivity | exact Hl2].
Qed.

(** X17 ([run_code_in_session] on a registered session).  A [run] without
    dependencies on a session whose controller is ready and whose process
    is alive answers with the output of the code: the texts of the messages
    that precede the idle status of the submission, joined and trimmed.
    The request refreshes [last_activity] and changes nothing else in the
    registry; it removes no file, and all it asks of any kernel are
    submissions. *)
Theorem run_on_healthy_session request st found c k n now later pre m rest :
  sessions st !! conversation_id request = Some found ->
  store st !! controller found = Some c -> _kernel_ready c = true ->
  kernel_manager c = Some k -> life k = S (S n) ->
  clock st = now :: later ->
  dependencies request = [] ->
  drain (iopub k) = (arrivals pre ++ Some m :: rest)%list ->
  forallb (ordinary (msg_ids k (submitted k))) pre = true ->
  is_idle_for (msg_ids k (submitted k)) m = true ->
  exists st',
    run_code_in_session request st
    = (Return (strip (join LF (flat_map rendered pre))), st')
    /\ sessions st'
       = <[conversation_id request := set_last_activity now found]>
           (sessions st)
    /\ files st' = files st
    /\ exists l, trace st' = (trace st ++ l)%list /\ Forall is_Execute l.
Proof.
  exact (run_on_healthy_session_spec request st found c k n now later pre m
           rest).
Qed.

(** ** A request and the sweep that follows it *)

Lemma sweep_keeps st t later conversation_id session_info :
  clock st = t :: later ->
  sessions st !! conversation_id = Some session_info ->
  ~ (3600 < t - last_activity session_info)%Q ->
  sessions (snd (sweep st)) !! conversation_id = Some session_info.
Proof.
  intros Hclock Hs Hn.
  assert (sweep st
          = remove_each
              (collect t (sessions st) (keys (sessions st)) [])
              (with_clock later st)) as E.
  { unfold sweep.
    rewrite (bind_Return time_time _ _ t (with_clock later st))
      by (unfold time_time; rewrite Hclock; reflexivity).
    reflexivity. }
  rewrite E.
  destruct (remove_each_spec
              (collect t (sessions st) (keys (sessions st)) [])
              (with_clock later st)) as (_ & Hr).
  rewrite Hr, decide_False; [exact Hs |].
  rewrite collect_spec. intros [Hin | (_ & si & Hsi & Hi)]; [inversion Hin |].
  rewrite Hs in Hsi. inversion Hsi; subst. apply Hn, inactive_iff, Hi.
Qed.

Lemma run_Return_registered request st found out st1 :
  sessions st !! conversation_id request = Some found ->
  run_code_in_session request st = (Return out, st1) ->
  exists now later,
    clock st = now :: later
    /\ sessions st1
       = <[conversation_id request := set_last_activity now found]>
           (sessions st).
Proof.
  intros H E. unfold run_code_in_session in E.
  apply try_except_Return_inv in E as [E | (e & s & _ & E)].
  2:{ destruct (is_HTTPException e); discriminate E. }
  rewrite (bind_Return get_state _ st st st eq_refl) in E. cbv beta in E.
  rewrite H in E.
  apply bind_Return_inv in E as (si & s1 & Eg & E).
  apply get_session_Return in Eg as (found' & now & later & H' & Hc & -> & S1).
  rewrite H in H'. inversion H'; subst found'.
  exists now, later. split; [exact Hc |].
  apply bind_Return_inv in E as ([] & s2 & Ed & E).
  apply bind_Return_inv in E as (o & s3 & Ee & E). inversion E; subst.
  pose proof (execute_code_sessions
                (controller (set_last_activity now found)) (code request) s2)
    as S3.
  rewrite Ee in S3. simpl in S3. rewrite S3.
  assert (sessions s2 = sessions s1) as S2.
  { destruct (dependencies request) as [|p l].
    - inversion Ed. reflexivity.
    - pose proof (install_dependencies_sessions
                    (set_last_activity now found) (p :: l) s1) as S.
      rewrite Ed in S. exact S. }
  rewrite S2. exact S1.
Qed.

(** X18 ([run_code_in_session], then [cleanup_inactive_sessions]).  A [run]
    that succeeds on a registered session leaves it registered with
    [last_activity] set to the reading of the clock taken when the request
    arrived, however long the session had been idle before; a sweep whose
    reading of the clock is no more than an hour after that one keeps the
    session. *)
Theorem session_used_within_the_hour_survives_the_sweep
  request st found out st1 t later :
  sessions st !! conversation_id request = Some found ->
  run_code_in_session request st = (Return out, st1) ->
  clock st1 = t :: later ->
  exists now,
    head (clock st) = Some now
    /\ sessions st1 !! conversation_id request
       = Some (set_last_activity now found)
    /\ (~ (3600 < t - now)%Q ->
        sessions (snd (sweep st1)) !! conversation_id request
        = Some (set_last_activity now found)).
Proof.
  intros H E Hc.
  destruct (run_Return_registered request st found out st1 H E)
    as (now & rest & Hnow & S1).
  exists now. split; [rewrite Hnow; reflexivity |].
  assert (sessions st1 !! conversation_id request
          = Some (set_last_activity now found)) as Hreg
    by (rewrite S1; apply lookup_insert_eq).
  split; [exact Hreg |]. intros Hn.
  exact (sweep_keeps st1 t later _ _ Hc Hreg Hn).
Qed.

(** ** An execution that returns *)

Lemma lookup_unique (st : state) (self : loc) c c' :
  store st !! self = Some c -> store st !! self = Some c' -> c = c'.
Proof. intros H H'. rewrite H in H'. inversion H'. reflexivity. Qed.

Lemma ensure_ready_Return self st st' :
  ensure_ready self st = (Return tt, st') ->
  exists c', store st' !! self = Some c' /\ _kernel_ready c' = true.
Proof.
  intros E. unfold ensure_ready in E.
  destruct (store st !! self) as [c|] eqn:H.
  2:{ rewrite (bind_Raise _ _ _ _ _ (deref_missing _ _ H)) in E.
      discriminate E. }
  rewrite (bind_Return _ _ _ _ _ (deref_spec _ _ _ H)) in E.
  destruct (_kernel_ready c) eqn:Hr.
  { inversion E; subst. exists c. split; [exact H | exact Hr]. }
  change (negb false) with true in E. cbv iota in E.
  apply bind_Return_inv in E as ([] & s1 & Ew & E).
  apply try_except_Return_inv in Ew as [Ew | (e & s2 & Ew & Er)].
  - destruct (wait_for_kernel_ready_spec _ _ _ _ _ _ H Ew) as (c1 & H1 & R1).
    rewrite (bind_Return _ _ _ _ _ (deref_spec _ _ _ H1)) in E.
    rewrite R1 in E. inversion E; subst. exists c1. split; assumption.
  - destruct (is_TimeoutError e); discriminate Er.
Qed.

(** An execution that returns has submitted the code, and leaves the
    controller ready, with its manager. *)
Lemma execute_code_Return_ready self src st out st' :
  execute_code self src st = (Return out, st') ->
  exists c' k',
    store st' !! self = Some c'
    /\ _kernel_ready c' = true
    /\ kernel_manager c' = Some k'
    /\ In (Execute self src) (trace st').
Proof.
  intros E. unfold execute_code in E.
  apply bind_Return_inv in E as ([] & s1 & E1 & E).
  apply ensure_ready_Return in E1 as (c1 & H1 & R1).
  apply bind_Return_inv in E as (alive & s2 & E2 & E).
  assert (exists k1, kernel_manager c1 = Some k1) as (k1 & Hk1).
  { unfold is_alive in E2.
    apply bind_Return_inv in E2 as (k & s & Ek & _).
    apply the_kernel_Return in Ek as (_ & c & Hc & Hk).
    rewrite (lookup_unique _ _ _ _ H1 Hc). eauto. }
  rewrite (is_alive_eq _ _ _ _ H1 Hk1) in E2.
  destruct (life k1) as [|n].
  { inversion E2; subst. discriminate E. }
  inversion E2; subst alive s2; clear E2.
  change (negb true) with false in E. cbv iota in E.
  rewrite (bind_Return (ret tt) _ _ tt _ eq_refl) in E.
  set (c2 := set_kernel_manager (set_life n k1) c1) in E.
  set (s2 := with_store <[self := c2]> s1) in E.
  assert (store s2 !! self = Some c2) as H2
    by (apply (lookup_updated _ _ _ _ H1)).
  rewrite (bind_Return _ _ _ _ _
             (clear_output_queue_eq _ _ _ _ H2 eq_refl)) in E.
  set (k3 := set_iopub (drain (iopub (set_life n k1))) (set_life n k1)) in E.
  set (c3 := set_kernel_manager k3 c2) in E.
  set (s3 := with_store <[self := c3]> s2) in E.
  assert (store s3 !! self = Some c3) as H3
    by (apply (lookup_updated _ _ _ _ H2)).
  destruct (correlate_spec self src s3 c3 k3 H3 eq_refl)
    as (s4 & c4 & k4 & H4 & Hk4 & R4 & _ & _ & E4).
  assert (In (Execute self src) (trace st')) as T.
  { unfold correlate in E.
    apply bind_Return_inv in E as (tok & s5 & Ex & E).
    rewrite (kc_execute_eq _ _ _ _ _ H3 eq_refl) in Ex.
    inversion Ex; subst tok s5; clear Ex.
    match type of E with
    | ?m ?s = _ =>
        assert (preserves trace_grows m) as G
          by (pres; apply registry_untouched_grows,
                kernel_calls_leave_registry; pres);
        specialize (G s); rewrite E in G
    end.
    apply (trace_grows_In _ _ _ G). simpl.
    apply in_or_app. right. left. reflexivity. }
  rewrite E4 in E.
  destruct (fst (consume (msg_ids k3 (submitted k3)) [] (iopub k3)))
    as [outputs|e].
  - inversion E; subst. exists c4, k4.
    split; [exact H4 |]. split; [rewrite R4; exact R1 |].
    split; [exact Hk4 | exact T].
  - destruct (is_QueueEmpty e); [| discriminate E].
    apply bind_Return_inv in E as (b & s5 & _ & E).
    destruct b; simpl in E; [discriminate E |].
    apply bind_Return_inv in E as ([] & s6 & _ & E). discriminate E.
Qed.

(** ** A creation that succeeds *)

Lemma create_session_success conversation_id st session_info st' :
  sessions st !! conversation_id = None ->
  _create_session conversation_id st = (Return session_info, st') ->
  controller session_info = length (store st)
  /\ created_at session_info = last_activity session_info
  /\ sessions st' = <[conversation_id := session_info]> (sessions st)
  /\ In (StartKernel (controller session_info)) (trace st')
  /\ In (Execute (controller session_info) setup_code) (trace st')
  /\ exists c' k',
       store st' !! controller session_info = Some c'
       /\ folder_path c' = os_path_join SESSIONS_FOLDER conversation_id
       /\ notebook_path c'
          = Some (os_path_join (os_path_join SESSIONS_FOLDER conversation_id)
                    ("notebook_" ++ conversation_id ++ ".ipynb"))
       /\ _kernel_ready c' = true
       /\ kernel_manager c' = Some k'
       /\ os_path_join (os_path_join SESSIONS_FOLDER conversation_id)
            ("notebook_" ++ conversation_id ++ ".ipynb") ∈ files st'.
Proof.
  intros Hnone E. unfold _create_session in E.
  rewrite (bind_Return get_state _ st st st eq_refl) in E. cbv beta in E.
  rewrite Hnone in E.
  rewrite (bind_Return (ret tt) _ st tt st eq_refl) in E.
  set (c0 := {| folder_path := os_path_join SESSIONS_FOLDER conversation_id;
                notebook_path := None; kernel_manager := None;
                kernel_client := false; _kernel_ready := false |}) in *.
  set (s0 := with_store (fun h => (h ++ [c0])%list) st).
  rewrite (bind_Return (new_controller _) _ st (length (store st)) s0)
    in E by reflexivity.
  set (ctl := length (store st)) in *.
  assert (store s0 !! ctl = Some c0) as H0.
  { subst s0 ctl. simpl. apply list_lookup_middle. reflexivity. }
  apply try_except_Return_inv in E as [E | (e & s & _ & E)].
  2:{ apply bind_Return_inv in E as ([] & s' & _ & E). discriminate E. }
  apply bind_Return_inv in E as (path & sa & Ea & E).
  pose proof (create_notebook_registry_untouched ctl
                ("notebook_" ++ conversation_id) s0) as [Sa _].
  rewrite Ea in Sa. simpl in Sa.
  apply create_notebook_Return in Ea
    as (c & ca & ka & Hc & Hpath & Ha & Fa & Na & _ & _ & _ & Fi & Ta).
  pose proof (lookup_unique _ _ _ _ H0 Hc) as Hcc. subst c. clear Hc.
  apply bind_Return_inv in E as (now & sb & Et & E).
  apply time_time_Return in Et as (later & _ & ->). cbv zeta in E.
  set (si := {| controller := ctl; created_at := now; last_activity := now |})
    in E.
  set (sc := with_sessions <[conversation_id := si]> (with_clock later sa))
    in E.
  rewrite (bind_Return (modify _) _ _ tt sc) in E by reflexivity.
  apply bind_Return_inv in E as ([] & sd & Ee & E).
  inversion E; subst session_info st'; clear E.
  apply try_except_Return_inv in Ee as [Ee | (e & s & _ & Ee)].
  2:{ apply bind_Return_inv in Ee as ([] & s' & _ & Ee).
      apply bind_Return_inv in Ee as ([] & s'' & _ & Ee). discriminate Ee. }
  apply bind_Return_inv in Ee as (out & sd' & Ee & Er).
  inversion Er; subst sd'; clear Er.
  pose proof (execute_code_kernel_calls ctl setup_code sc)
    as (Sd & _ & _ & Fd & ld & Td & _).
  pose proof (execute_code_persist ctl setup_code sc) as [_ Pd].
  rewrite Ee in Sd, Fd, Td, Pd. simpl in Sd, Fd, Td, Pd.
  destruct (execute_code_Return_ready _ _ _ _ _ Ee)
    as (cd & kd & Hd & Rd & Kd & Xd).
  assert (store sc !! ctl = Some ca) as Hca by exact Ha.
  destruct (Pd _ _ Hca) as (cd' & Hd' & Pf & Pn & _ & _).
  pose proof (lookup_unique _ _ _ _ Hd' Hd) as Hcc. subst cd'. clear Hd'.
  split; [reflexivity |]. split; [reflexivity |].
  split; [rewrite Sd; subst sc; simpl; rewrite Sa; reflexivity |].
  split.
  { rewrite Td. apply in_or_app. left. exact Ta. }
  split; [exact Xd |].
  exists cd, kd. split; [exact Hd |].
  split; [rewrite Pf, Fa; reflexivity |].
  split; [rewrite Pn, Na, Hpath; reflexivity |].
  split; [exact Rd |]. split; [exact Kd |].
  rewrite Fd. subst sc. simpl files. rewrite Fi.
  apply elem_of_union_l, elem_of_singleton. rewrite Hpath. reflexivity.
Qed.

(** X19 ([_create_session], the path that returns).  A creation that
    succeeds for an unregistered id registers a session on a controller of
    its own, with [last_activity] equal to the creation time; a kernel was
    started for it, the bootstrap snippet was submitted to it, the
    controller is ready, and its notebook
    [<sessions folder>/<id>/notebook_<id>.ipynb] exists. *)
Theorem created_session_is_ready_and_bootstrapped
  conversation_id st session_info st' :
  sessions st !! conversation_id = None ->
  _create_session conversation_id st = (Return session_info, st') ->
  controller session_info = length (store st)
  /\ created_at session_info = last_activity session_info
  /\ sessions st' = <[conversation_id := session_info]> (sessions st)
  /\ In (StartKernel (controller session_info)) (trace st')
  /\ In (Execute (controller session_info) setup_code) (trace st')
  /\ exists c' k',
       store st' !! controller session_info = Some c'
       /\ folder_path c' = os_path_join SESSIONS_FOLDER conversation_id
       /\ notebook_path c'
          = Some (os_path_join (os_path_join SESSIONS_FOLDER conversation_id)
                    ("notebook_" ++ conversation_id ++ ".ipynb"))
       /\ _kernel_ready c' = true
       /\ kernel_manager c' = Some k'
       /\ os_path_join (os_path_join SESSIONS_FOLDER conversation_id)
            ("notebook_" ++ conversation_id ++ ".ipynb") ∈ files st'.
Proof.
  exact (create_session_success conversation_id st session_info st').
Qed.

(** ** The controller after an access that returns *)

Lemma reset_or_remove_Return_ready
  conversation_id controller indent failure st u st' :
  reset_or_remove conversation_id controller indent failure st = (Return u, st') ->
  exists c k,
    store st' !! controller = Some c
    /\ _kernel_ready c = true
    /\ kernel_manager c = Some k.
Proof.
  unfold reset_or_remove. intros E.
  apply try_except_Return_inv in E as [E | (e & s1 & _ & E)].
  - apply bind_Return_inv in E as ([] & s1 & _ & E).
    apply bind_Return_inv in E as (o & s2 & E2 & E). inversion E; subst.
    destruct (execute_code_Return_ready _ _ _ _ _ E2)
      as (c & k & H & R & K & _).
    exists c, k. auto.
  - apply bind_Return_inv in E as ([] & s2 & _ & E).
    apply bind_Return_inv in E as ([] & s3 & _ & E). discriminate E.
Qed.

Lemma manager_and_alive_true self st st' :
  manager_and_alive self st = (Return true, st') ->
  exists c k n,
    store st !! self = Some c /\ kernel_manager c = Some k /\ life k = S n
    /\ st' = with_store <[self := set_kernel_manager (set_life n k) c]> st.
Proof.
  intros E. unfold manager_and_alive in E.
  destruct (store st !! self) as [c|] eqn:H.
  2:{ rewrite (bind_Raise _ _ _ _ _ (deref_missing _ _ H)) in E.
      discriminate E. }
  rewrite (bind_Return _ _ _ _ _ (deref_spec _ _ _ H)) in E.
  destruct (kernel_manager c) as [k|] eqn:Hk; [| discriminate E].
  rewrite (is_alive_eq _ _ _ _ H Hk) in E.
  destruct (life k) as [|n] eqn:Hl; [discriminate E |].
  inversion E; subst. exists c, k, n. auto.
Qed.

Lemma get_session_Return_ready conversation_id st session_info st' :
  get_session conversation_id st = (Return session_info, st') ->
  exists c k,
    store st' !! controller session_info = Some c
    /\ _kernel_ready c = true
    /\ kernel_manager c = Some k.
Proof.
  intros E.
  destruct (get_session_Return _ _ _ _ E)
    as (found & now & later & Hf & Hc & Hsi & _).
  unfold get_session in E.
  rewrite (bind_Return get_state _ st st st eq_refl) in E. cbv beta in E.
  rewrite Hf in E.
  assert (time_time st = (Return now, with_clock later st)) as Et
    by (unfold time_time; rewrite Hc; reflexivity).
  rewrite (bind_Return time_time _ _ _ _ Et) in E. cbv zeta in E.
  rewrite <- Hsi in E.
  set (s1 := with_sessions <[conversation_id := session_info]>
               (with_clock later st)) in E.
  rewrite (bind_Return (modify _) _ _ tt s1) in E by reflexivity.
  apply bind_Return_inv in E as (alive & s2 & Em & E).
  destruct alive; cbv beta iota delta [negb] in E.
  - apply manager_and_alive_true in Em as (c & k & n & H1 & Hk & _ & ->).
    set (c2 := set_kernel_manager (set_life n k) c) in E.
    assert (store (with_store <[controller session_info := c2]> s1)
              !! controller session_info = Some c2) as H2
      by (apply (lookup_updated _ _ _ _ H1)).
    rewrite (bind_Return _ _ _ _ _ (deref_spec _ _ _ H2)) in E.
    destruct (_kernel_ready c2) eqn:R2; cbv beta iota delta [negb] in E.
    + inversion E; subst. exists c2, (set_life n k). auto.
    + apply bind_Return_inv in E as ([] & s4 & Ew & E). inversion E; subst.
      apply try_except_Return_inv in Ew as [Ew | (e & s5 & Ew & Er)].
      * destruct (wait_for_kernel_ready_spec _ _ _ _ _ _ H2 Ew)
          as (c4 & H4 & R4).
        match type of Ew with
        | _wait_for_kernel_ready ?l _ ?s = _ =>
            pose proof (wait_for_kernel_ready_persist l 15 s) as [_ P]
        end.
        rewrite Ew in P. simpl in P.
        destruct (P _ _ H2) as (c4' & H4' & _ & _ & _ & Pm).
        pose proof (lookup_unique _ _ _ _ H4' H4) as Hcc. subst c4'.
        destruct Pm as [k4 Hk4]; [eexists; reflexivity |].
        exists c4, k4. auto.
      * destruct (is_TimeoutError e); [| discriminate Er].
        exact (reset_or_remove_Return_ready _ _ _ _ _ _ _ Er).
  - apply bind_Return_inv in E as ([] & s3 & _ & E).
    apply bind_Return_inv in E as ([] & s4 & Er & E). inversion E; subst.
    exact (reset_or_remove_Return_ready _ _ _ _ _ _ _ Er).
Qed.

(** X20 ([get_session], every path that returns).  An access that returns
    hands back the session that was registered under the id, with its
    controller and its creation time, and with [last_activity] set to the
    reading of the clock taken when the access began; that session is what
    the registry holds under the id afterwards, also when the access went
    through a restart of the kernel; and its controller is ready, with a
    manager. *)
Theorem successful_access_refreshes_last_activity
  conversation_id st session_info st' :
  get_session conversation_id st = (Return session_info, st') ->
  (exists found now later,
     sessions st !! conversation_id = Some found
     /\ clock st = now :: later
     /\ session_info = set_last_activity now found
     /\ sessions st' = <[conversation_id := session_info]> (sessions st))
  /\ exists c k,
       store st' !! controller session_info = Some c
       /\ _kernel_ready c = true
       /\ kernel_manager c = Some k.
Proof.
  intros E. split.
  - exact (get_session_Return conversation_id st session_info st' E).
  - exact (get_session_Return_ready conversation_id st session_info st' E).
Qed.

(** ** A reset, after the session was found *)

Lemma reset_session_found conversation_id st session_info s1 :
  get_session conversation_id st = (Return session_info, s1) ->
  reset_session conversation_id st
  = try_except
      (reset_kernel (controller session_info) ;;
       try_except
         (execute_code (controller session_info)
            (reset_setup_code "Re-running initial imports after manual reset."
               "        ") ;;
          ret tt)
         (fun setup_error =>
            raise (HTTPException 500 (DetailStr
              ("Kernel reset, but failed to re-initialize environment: "
                 ++ str_exn setup_error)))) ;;
       ret ("Kernel for session '" ++ conversation_id ++ "' reset successful"))
      (fun e =>
         if is_HTTPException e then raise e
         else
           raise (HTTPException 500 (DetailStr
             ("Failed to reset session '" ++ conversation_id ++ "': "
                ++ str_exn e))))
      s1.
Proof.
  intros E. unfold reset_session, try_except.
  rewrite (bind_Return _ _ _ _ _ E). reflexivity.
Qed.

Lemma reset_session_sessions conversation_id st session_info s1 :
  get_session conversation_id st = (Return session_info, s1) ->
  sessions (snd (reset_session conversation_id st)) = sessions s1.
Proof.
  intros E. rewrite (reset_session_found _ _ _ _ E).
  match goal with
  | |- sessions (snd (?m s1)) = _ =>
      assert (preserves registry_untouched m) as P
  end.
  { pres. }
  destruct (P s1) as [S _]. exact S.
Qed.

(** X21 ([reset_session], the path that returns).  A [reset] that succeeds
    has found the session, asked its kernel to restart and submitted the
    bootstrap snippet to it; the session stays registered under the id with
    the same controller, refreshed by the access, and the controller is
    ready. *)
Theorem successful_reset_restarts_and_bootstraps conversation_id st message st' :
  reset_session conversation_id st = (Return message, st') ->
  message = "Kernel for session '" ++ conversation_id ++ "' reset successful"
  /\ exists found now later,
       sessions st !! conversation_id = Some found
       /\ clock st = now :: later
       /\ sessions st'
          = <[conversation_id := set_last_activity now found]> (sessions st)
       /\ In (RestartKernel (controller found)) (trace st')
       /\ In (Execute (controller found)
                (reset_setup_code
                   "Re-running initial imports after manual reset."
                   "        "))
             (trace st')
       /\ exists c' k',
            store st' !! controller found = Some c'
            /\ _kernel_ready c' = true
            /\ kernel_manager c' = Some k'.
Proof.
  intros E.
  assert (exists session_info s1,
            get_session conversation_id st = (Return session_info, s1))
    as (si & s1 & Eg).
  { unfold reset_session in E.
    apply try_except_Return_inv in E as [E | (e & s & _ & E)].
    - apply bind_Return_inv in E as (si & s1 & Eg & _). eauto.
    - destruct (is_HTTPException e); discriminate E. }
  pose proof (reset_session_sessions _ _ _ _ Eg) as S. rewrite E in S.
  simpl in S.
  rewrite (reset_session_found _ _ _ _ Eg) in E.
  apply try_except_Return_inv in E as [E | (e & s & _ & E)].
  2:{ destruct (is_HTTPException e); discriminate E. }
  destruct (get_session_Return _ _ _ _ Eg)
    as (found & now & later & Hf & Hc & -> & S1).
  destruct (get_session_Return_ready _ _ _ _ Eg) as (c1 & k1 & H1 & _ & K1).
  change (controller (set_last_activity now found)) with (controller found)
    in *.
  apply bind_Return_inv in E as ([] & s2 & Er & E).
  pose proof (reset_kernel_restarts (controller found) s1 c1 k1 H1 K1) as T2.
  rewrite Er in T2. simpl in T2.
  apply bind_Return_inv in E as ([] & s3 & Ee & E). inversion E; subst.
  apply try_except_Return_inv in Ee as [Ee | (e & s & _ & Ee)];
    [| discriminate Ee].
  apply bind_Return_inv in Ee as (out & s4 & Ee & Eq). inversion Eq; subst s4.
  destruct (execute_code_Return_ready _ _ _ _ _ Ee)
    as (c3 & k3 & H3 & R3 & K3 & X3).
  pose proof (execute_code_kernel_calls (controller found)
                (reset_setup_code
                   "Re-running initial imports after manual reset."
                   "        ") s2) as (_ & _ & _ & _ & l & T3 & _).
  rewrite Ee in T3. simpl in T3.
  split; [reflexivity |].
  exists found, now, later. split; [exact Hf |]. split; [exact Hc |].
  split; [rewrite S; exact S1 |]. split.
  { rewrite T3. apply in_or_app. left. exact T2. }
  split; [exact X3 |]. exists c3, k3. auto.
Qed.

(** X22 ([reset_session], after the access).  Once the access at the head
    of a [reset] has returned, nothing in the handler removes the session:
    whatever the outcome of the request, the registry is as the access left
    it.  In particular, when the restart of the kernel fails, the request
    is answered with the 500 error of the handler and the session is still
    registered, on a controller whose readiness flag is unset and whose
    process [reset_kernel] has tried to shut down: it is not running if
    [shutdown_kernel] does not raise. *)
Theorem reset_never_unregisters_the_session
  conversation_id st session_info s1 :
  get_session conversation_id st = (Return session_info, s1) ->
  sessions (snd (reset_session conversation_id st)) = sessions s1
  /\ sessions (snd (reset_session conversation_id st)) !! conversation_id
     = Some session_info
  /\ forall e s2,
       reset_kernel (controller session_info) s1 = (Raise e, s2) ->
       reset_session conversation_id st
       = (Raise (HTTPException 500 (DetailStr
            ("Failed to reset session '" ++ conversation_id ++ "': "
               ++ str_exn e))), s2)
       /\ sessions s2 !! conversation_id = Some session_info
       /\ exists c',
            store s2 !! controller session_info = Some c'
            /\ _kernel_ready c' = false
            /\ (raising s1 (ShutdownKernel (controller session_info)) = false
                -> not_running c').
Proof.
  intros Eg.
  pose proof (reset_session_sessions _ _ _ _ Eg) as S.
  assert (sessions s1 !! conversation_id = Some session_info) as Hreg.
  { destruct (get_session_Return _ _ _ _ Eg) as (f & n & l & _ & _ & _ & ->).
    apply lookup_insert_eq. }
  split; [exact S |]. split; [rewrite S; exact Hreg |].
  intros e s2 Er.
  destruct (get_session_Return_ready _ _ _ _ Eg) as (c1 & k1 & H1 & _ & K1).
  destruct (reset_kernel_spec _ _ _ _ _ _ H1 K1 Er)
    as (c' & H' & _ & (cause & ->) & R' & _ & _ & D' & _).
  assert (reset_session conversation_id st
          = (Raise (HTTPException 500 (DetailStr
               ("Failed to reset session '" ++ conversation_id ++ "': "
                  ++ str_exn
                       (RuntimeError
                          ("Failed to reset kernel: " ++ str_exn cause))))),
             s2)) as E.
  { rewrite (reset_session_found _ _ _ _ Eg). unfold try_except.
    rewrite (bind_Raise _ _ _ _ _ Er). reflexivity. }
  split; [exact E |]. split.
  - rewrite E in S. simpl in S. rewrite S. exact Hreg.
  - exists c'. auto.
Qed.

(** ** Dependencies that were installed *)

Lemma install_one_Return controller p st st' :
  install_one controller p st = (Return tt, st') ->
  (exists stdout stderr, pip st (pip_runs st) p = Completed 0 stdout stderr)
  /\ In (PipInstall p) (trace st')
  /\ In (Execute controller ("import " ++ import_name_of p)) (trace st').
Proof.
  intros E. unfold install_one in E.
  apply try_except_Return_inv in E as [E | (e & s & _ & E)].
  2:{ destruct (is_TimeoutExpired e); [discriminate E |].
      destruct (is_HTTPException e); discriminate E. }
  apply bind_Return_inv in E as ([[rc out] err] & s1 & Ep & E).
  rewrite pip_install_eq in Ep.
  destruct (pip st (pip_runs st) p) as [rc' out' err'| |msg] eqn:Hp;
    inversion Ep; subst rc' out' err' s1; clear Ep.
  apply bind_Return_inv in E as ([] & s2 & Ec & E).
  destruct (rc =? 0)%Z eqn:Hrc; simpl in Ec; [| discriminate Ec].
  inversion Ec; subst s2; clear Ec.
  apply Z.eqb_eq in Hrc. subst rc.
  cbv zeta in E.
  apply try_except_Return_inv in E as [E | (e & s & _ & E)].
  2:{ destruct e; discriminate E. }
  apply bind_Return_inv in E as (o & s3 & Ee & E). inversion E; subst s3.
  destruct (execute_code_Return_ready _ _ _ _ _ Ee) as (_ & _ & _ & _ & _ & X).
  pose proof (execute_code_kernel_calls controller
                ("import " ++ import_name_of p)
                (with_pip_runs (S (pip_runs st)) (with_trace (PipInstall p) st)))
    as (_ & _ & _ & _ & l & T & _).
  rewrite Ee in T. simpl in T.
  split; [eauto |]. split; [| exact X].
  rewrite T. apply in_or_app. left. apply in_or_app. right. left. reflexivity.
Qed.

Lemma install_each_trace_grows controller dependencies :
  preserves trace_grows (install_each controller dependencies).
Proof.
  intros st.
  destruct (install_each_spec controller dependencies st)
    as (res & st' & E & _ & _ & (l & T & _) & _).
  rewrite E. exists l. exact T.
Qed.

Lemma install_each_Return controller dependencies : forall st st',
  install_each controller dependencies st = (Return tt, st') ->
  forall p, In p (named dependencies) ->
    In (PipInstall p) (trace st')
    /\ In (Execute controller ("import " ++ import_name_of p)) (trace st').
Proof.
  induction dependencies as [|x rest IH]; intros st st' E p Hp.
  - destruct Hp.
  - cbn [install_each] in E.
    destruct (truthy x) eqn:Hx; cbv beta iota delta [negb] in E.
    + rewrite (named_cons_true _ _ Hx) in Hp.
      apply bind_Return_inv in E as ([] & s1 & E1 & E).
      destruct Hp as [<- | Hp].
      * destruct (install_one_Return _ _ _ _ E1) as (_ & T1 & X1).
        pose proof (install_each_trace_grows controller rest s1) as G.
        rewrite E in G.
        split; [exact (trace_grows_In _ _ _ G T1)
               | exact (trace_grows_In _ _ _ G X1)].
      * exact (IH _ _ E p Hp).
    + rewrite (named_cons_false _ _ Hx) in Hp. exact (IH _ _ E p Hp).
Qed.

(** X23 ([_install_dependencies], the path that returns).  When the
    installation returns, every non-empty name of the list was handed to
    the installer, and its import, under the name the extraction rule
    derives from it, was submitted to the kernel of the session. *)
Theorem installed_dependencies_were_imported session_info dependencies st st' :
  _install_dependencies session_info dependencies st = (Return tt, st') ->
  forall p, In p (named dependencies) ->
    In (PipInstall p) (trace st')
    /\ In (Execute (controller session_info)
             ("import " ++ import_name_of p)) (trace st').
Proof.
  intros E. rewrite install_dependencies_each in E.
  exact (install_each_Return _ _ _ _ E).
Qed.

(** ** The background task over its cycles *)

Lemma remove_each_store : forall to_remove st,
  store (snd (remove_each to_remove st)) = store st
  /\ files (snd (remove_each to_remove st)) = files st.
Proof.
  induction to_remove as [|x ids IH]; intros st; [split; reflexivity |].
  simpl remove_each.
  rewrite (bind_Return get_state _ st st st eq_refl). cbv beta.
  destruct (sessions st !! x) as [si|].
  - set (s1 := with_trace (CleanupTask (controller si))
                 (with_sessions (delete x) st)).
    assert ((modify (with_sessions (delete x)) ;;
             emit (CleanupTask (controller si))) st = (Return tt, s1)) as E
      by reflexivity.
    rewrite (bind_Return _ _ _ _ _ E). exact (IH s1).
  - rewrite (bind_Return (ret tt) _ st tt st eq_refl). exact (IH st).
Qed.

Lemma sweep_only_removes st :
  (forall e, fst (sweep st) <> Raise e)
  /\ (forall conversation_id session_info,
        sessions (snd (sweep st)) !! conversation_id = Some session_info ->
        sessions st !! conversation_id = Some session_info)
  /\ store (snd (sweep st)) = store st
  /\ files (snd (sweep st)) = files st.
Proof.
  assert (sweep st
          = match clock st with
            | [] => (Pending, st)
            | now :: later =>
                remove_each
                  (collect now (sessions st) (keys (sessions st)) [])
                  (with_clock later st)
            end) as E.
  { unfold sweep, bind, time_time. destruct (clock st); reflexivity. }
  rewrite E. clear E.
  destruct (clock st) as [|now later].
  { split; [discriminate |]. split; [auto |]. split; reflexivity. }
  set (s1 := with_clock later st).
  set (ids := collect now (sessions st) (keys (sessions st)) []).
  destruct (remove_each_spec ids s1) as (Hr & Hs).
  destruct (remove_each_store ids s1) as (Hst & Hf).
  split; [rewrite Hr; discriminate |]. split.
  - intros cid si H. rewrite Hs in H.
    destruct (decide (cid ∈ ids)); [discriminate H | exact H].
  - split; [exact Hst | exact Hf].
Qed.

(** X24 ([cleanup_inactive_sessions], any number of cycles).  The
    background task only ever removes sessions: a session registered after
    its cycles was registered before them, unchanged.  It never raises, and
    it leaves the controllers and the notebook files as they were, the
    teardown being left to the tasks it schedules. *)
Theorem sweeps_only_remove_sessions cycles : forall st,
  (forall e, fst (cleanup_inactive_sessions cycles st) <> Raise e)
  /\ (forall conversation_id session_info,
        sessions (snd (cleanup_inactive_sessions cycles st)) !! conversation_id
        = Some session_info ->
        sessions st !! conversation_id = Some session_info)
  /\ store (snd (cleanup_inactive_sessions cycles st)) = store st
  /\ files (snd (cleanup_inactive_sessions cycles st)) = files st.
Proof.
  induction cycles as [|n IH]; intros st.
  - simpl. split; [discriminate |]. split; [auto |]. split; reflexivity.
  - simpl cleanup_inactive_sessions. unfold bind.
    destruct (sweep_only_removes st) as (Hr & Hs & Hst & Hf).
    destruct (sweep st) as [[[]|e|] s1]; simpl in Hr, Hs, Hst, Hf.
    + destruct (IH s1) as (Hr' & Hs' & Hst' & Hf').
      split; [exact Hr' |]. split; [| split; congruence].
      intros cid si H. apply Hs, Hs', H.
    + destruct (Hr e). reflexivity.
    + split; [discriminate |]. split; [exact Hs |]. split; assumption.
Qed.

(** ** A request and the controllers of the other sessions *)

Lemma install_one_only_controller controller p :
  preserves (only_controller controller) (install_one controller p).
Proof. unfold install_one, pip_install. pres. Qed.

#[local] Hint Resolve install_one_only_controller : pres.

Lemma install_each_only_controller controller dependencies :
  preserves (only_controller controller) (install_each controller dependencies).
Proof.
  induction dependencies as [|p rest IH]; cbn [install_each]; pres.
Qed.

Lemma install_dependencies_only_controller session_info dependencies :
  preserves (only_controller (controller session_info))
    (_install_dependencies session_info dependencies).
Proof.
  intros st. rewrite install_dependencies_each.
  apply install_each_only_controller.
Qed.

#[local] Hint Resolve install_dependencies_only_controller : pres.

Lemma manager_and_alive_only_controller self :
  preserves (only_controller self) (manager_and_alive self).
Proof. unfold manager_and_alive. pres. Qed.

#[local] Hint Resolve manager_and_alive_only_controller : pres.

Lemma get_session_only_controller conversation_id st found :
  sessions st !! conversation_id = Some found ->
  only_controller (controller found) st (snd (get_session conversation_id st)).
Proof.
  intros H. unfold get_session.
  rewrite (bind_Return get_state _ st st st eq_refl). cbv beta. rewrite H.
  match goal with
  | |- only_controller _ st (snd (?m st)) =>
      assert (preserves (only_controller (controller found)) m) as P
  end.
  { cbv zeta. unfold reset_or_remove, del_session. pres. }
  exact (P st).
Qed.

Lemma create_session_frame conversation_id st l :
  sessions st !! conversation_id = None ->
  l < length (store st) ->
  store (snd (_create_session conversation_id st)) !! l = store st !! l.
Proof.
  intros Hnone Hl. unfold _create_session.
  rewrite (bind_Return get_state _ st st st eq_refl). cbv beta.
  rewrite Hnone.
  rewrite (bind_Return (ret tt) _ st tt st eq_refl).
  set (c0 := {| folder_path := os_path_join SESSIONS_FOLDER conversation_id;
                notebook_path := None; kernel_manager := None;
                kernel_client := false; _kernel_ready := false |}).
  set (s0 := with_store (fun h => (h ++ [c0])%list) st).
  rewrite (bind_Return (new_controller _) _ st (length (store st)) s0)
    by reflexivity.
  match goal with
  | |- store (snd (?m s0)) !! l = _ =>
      assert (preserves (only_controller (length (store st))) m) as O by pres;
      specialize (O s0)
  end.
  etransitivity; [apply (O l); lia |].
  subst s0. simpl. apply lookup_app_l. exact Hl.
Qed.

Lemma run_rest_only_controller request session_info :
  preserves (only_controller (controller session_info))
    ((match dependencies request with
      | [] => ret tt
      | _ => _install_dependencies session_info (dependencies request)
      end) ;;
     output <- execute_code (controller session_info) (code request) ;;
     ret output).
Proof. pres. Qed.

(** X25 ([run_code_in_session] and the controllers).  A [run] works on one
    controller: that of the session registered under its id, or the one it
    makes when there is none.  Every other controller, those of the other
    sessions among them, is after the request exactly as it was before,
    whether the request succeeds or fails. *)
Theorem run_leaves_other_controllers_alone request st l c :
  store st !! l = Some c ->
  (forall found,
     sessions st !! conversation_id request = Some found ->
     controller found <> l) ->
  store (snd (run_code_in_session request st)) !! l = Some c.
Proof.
  intros Hl Hother.
  assert (l < length (store st)) as Hlt by (eapply lookup_lt_Some; exact Hl).
  rewrite <- Hl. unfold run_code_in_session.
  match goal with
  | |- store (snd (try_except ?m ?h st)) !! l = _ =>
      assert (snd (try_except m h st) = snd (m st)) as ->
  end.
  { unfold try_except.
    match goal with
    | |- snd (match ?x with _ => _ end) = _ => destruct x as [[o|e|] s]
    end; try reflexivity.
    destruct (is_HTTPException e); reflexivity. }
  rewrite (bind_Return get_state _ st st st eq_refl). cbv beta.
  destruct (sessions st !! conversation_id request) as [found|] eqn:H.
  - pose proof (get_session_only_controller _ _ _ H) as O.
    specialize (Hother found eq_refl).
    unfold bind at 1.
    destruct (get_session (conversation_id request) st) as [[si|e|] s1] eqn:Eg;
      simpl in O; try (apply (O l); congruence).
    destruct (get_session_Return _ _ _ _ Eg)
      as (found' & now & later & H' & _ & -> & _).
    rewrite H in H'. inversion H'; subst found'.
    etransitivity; [| apply (O l); congruence].
    apply (run_rest_only_controller request (set_last_activity now found) s1).
    simpl. congruence.
  - pose proof (create_session_frame _ _ _ H Hlt) as O.
    unfold bind at 1.
    destruct (_create_session (conversation_id request) st)
      as [[si|e|] s1] eqn:Ec; simpl in O; try exact O.
    destruct (create_session_Return _ _ _ _ Ec H) as (_ & Hctl).
    etransitivity; [| exact O].
    apply (run_rest_only_controller request si s1). rewrite Hctl. lia.
Qed.

(** ** Text: the output and the import name *)

Lemma lstrip_starts_nonspace s :
  match lstrip s with
  | EmptyString => True
  | String c _ => isspace c = false
  end.
Proof.
  induction s as [|c s IH]; simpl; [exact I |].
  destruct (isspace c) eqn:Hc; [exact IH | exact Hc].
Qed.

Lemma lstrip_id s :
  match s with
  | EmptyString => True
  | String c _ => isspace c = false
  end ->
  lstrip s = s.
Proof. destruct s as [|c s]; simpl; [reflexivity |]. intros ->. reflexivity. Qed.

Lemma rstrip_starts_nonspace s :
  match s with
  | EmptyString => True
  | String c _ => isspace c = false
  end ->
  match rstrip s with
  | EmptyString => True
  | String c _ => isspace c = false
  end.
Proof.
  destruct s as [|c s]; simpl; [auto |]. intros Hc.
  destruct (rstrip s); [rewrite Hc |]; exact Hc.
Qed.

Lemma rstrip_idempotent s : rstrip (rstrip s) = rstrip s.
Proof.
  induction s as [|c s IH]; simpl; [reflexivity |].
  destruct (rstrip s) as [|d r] eqn:Hr.
  - destruct (isspace c) eqn:Hc; simpl; [reflexivity |]. rewrite Hc.
    reflexivity.
  - change (rstrip (String c (String d r)))
      with (match rstrip (String d r) with
            | EmptyString =>
                if isspace c then EmptyString else String c EmptyString
            | x => String c x
            end).
    rewrite IH. reflexivity.
Qed.

Lemma strip_idempotent s :
  strip (strip s) = strip s
  /\ lstrip (strip s) = strip s
  /\ rstrip (strip s) = strip s.
Proof.
  unfold strip.
  assert (lstrip (rstrip (lstrip s)) = rstrip (lstrip s)) as L.
  { apply lstrip_id, rstrip_starts_nonspace, lstrip_starts_nonspace. }
  split; [rewrite L; apply rstrip_idempotent |].
  split; [exact L | apply rstrip_idempotent].
Qed.

(** X26 ([execute_code], the value returned).  The output of an execution
    is trimmed: it neither begins nor ends with whitespace, so trimming it
    again on either side changes nothing. *)
Theorem output_is_trimmed self src st out st' :
  execute_code self src st = (Return out, st') ->
  strip out = out /\ lstrip out = out /\ rstrip out = out.
Proof.
  intros E. apply execute_code_Return in E as (st1 & E).
  apply correlate_Return in E as (c & k & pre & m & rest & _ & _ & _ & _ & _ & ->).
  apply strip_idempotent.
Qed.

Lemma substring_prefix : forall n s,
  exists rest, s = substring 0 n s ++ rest.
Proof.
  induction n as [|n IH]; intros s.
  - exists s. destruct s; reflexivity.
  - destruct s as [|c s]; [exists ""; reflexivity |].
    destruct (IH s) as (rest & Hr). exists rest.
    change (String c s = String c (substring 0 n s ++ rest)).
    f_equal. exact Hr.
Qed.

Lemma before_prefix sep s : exists rest, s = before sep s ++ rest.
Proof.
  unfold before. destruct (index 0 sep s) as [n|].
  - apply substring_prefix.
  - exists "". induction s as [|c s IH]; [reflexivity |].
    change (String c s = String c (s ++ "")). f_equal. exact IH.
Qed.

Lemma In_append_l ch s rest :
  In ch (list_ascii_of_string s) -> In ch (list_ascii_of_string (s ++ rest)).
Proof.
  induction s as [|c s IH]; simpl; [tauto |]. intros [H | H]; auto.
Qed.

Lemma before_keeps_absent ch sep s :
  ~ In ch (list_ascii_of_string s) ->
  ~ In ch (list_ascii_of_string (before sep s)).
Proof.
  intros H Hin. apply H. destruct (before_prefix sep s) as (rest & Hr).
  rewrite Hr. apply In_append_l, Hin.
Qed.

Lemma before_char c : forall s,
  before (String c "") s
  = match s with
    | EmptyString => EmptyString
    | String b s' =>
        if Ascii.eqb c b then EmptyString
        else String b (before (String c "") s')
    end.
Proof.
  intros [|b s']; [reflexivity |]. unfold before. simpl.
  destruct (ascii_dec c b) as [->|Hne].
  - rewrite Ascii.eqb_refl.
    destruct s'; reflexivity.
  - assert (Ascii.eqb c b = false) as -> by (apply Ascii.eqb_neq; exact Hne).
    destruct (index 0 (String c "") s') as [n|]; reflexivity.
Qed.

Lemma before_char_absent c s :
  ~ In c (list_ascii_of_string (before (String c "") s)).
Proof.
  induction s as [|b s IH]; rewrite before_char; [simpl; tauto |].
  destruct (Ascii.eqb c b) eqn:Hb; [simpl; tauto |].
  simpl. intros [H | H]; [| exact (IH H)].
  apply Ascii.eqb_neq in Hb. congruence.
Qed.

Lemma dashes_to_underscores_chars ch s :
  In ch (list_ascii_of_string (dashes_to_underscores s)) ->
  ch <> "-"%char
  /\ (ch = "_"%char \/ In ch (list_ascii_of_string s)).
Proof.
  induction s as [|c s IH]; simpl; [tauto |].
  intros [H | H].
  - destruct (Ascii.eqb c "-") eqn:Hc; subst ch.
    + split; [discriminate | left; reflexivity].
    + apply Ascii.eqb_neq in Hc. split; [exact Hc | right; left; reflexivity].
  - destruct (IH H) as (Hd & [Hu | Hin]); split; auto.
Qed.

(** X27 ([_install_dependencies], the import name).  The name imported
    for a package contains no dash and none of the characters that open an
    extras list or a version bound: it is cut at the first of "[", "==",
    "<" and ">", and its dashes are underscores. *)
Theorem import_name_has_no_specifier_characters package_name ch :
  In ch (list_ascii_of_string (import_name_of package_name)) ->
  ch <> "-"%char /\ ch <> "["%char /\ ch <> "<"%char /\ ch <> ">"%char.
Proof.
  unfold import_name_of. intros H.
  apply dashes_to_underscores_chars in H as (Hd & [-> | H]).
  { repeat split; discriminate. }
  split; [exact Hd |]. repeat split; intros ->; revert H.
  - apply before_keeps_absent, before_keeps_absent, before_keeps_absent.
    apply before_char_absent.
  - apply before_keeps_absent, before_char_absent.
  - apply before_char_absent.
Qed.

(** ** An execution on a controller that is not ready *)

(** X28 ([execute_code], the guard at its head).  On a controller that is
    not ready and whose process is not running, an execution waits for
    readiness with a timeout of five seconds, and when the clock passes it
    the call fails with the not-ready error; nothing was submitted, and
    nothing but the clock has changed. *)
Theorem execute_code_on_unready_dead_kernel
  self src st c start_time before t later :
  store st !! self = Some c -> _kernel_ready c = false -> not_running c ->
  clock st = (start_time :: before ++ t :: later)%list ->
  Forall (fun x => ~ (5 < x - start_time)%Q) before ->
  (5 < t - start_time)%Q ->
  execute_code self src st
  = (Raise (RuntimeError
       "Kernel not ready. Please wait for initialization or restart session."),
     with_clock later st).
Proof.
  intros H Hr D Hc Hb Ht. unfold execute_code.
  assert (ensure_ready self st
          = (Raise (RuntimeError
               "Kernel not ready. Please wait for initialization or restart session."),
             with_clock later st)) as E.
  { unfold ensure_ready.
    rewrite (bind_Return _ _ _ _ _ (deref_spec _ _ _ H)). rewrite Hr.
    change (negb false) with true. cbv iota.
    unfold bind at 1. unfold try_except at 1.
    rewrite (wait_not_running_spec self 5 st c start_time before t later
               H Hr D Hc Hb Ht).
    reflexivity. }
  rewrite (bind_Raise _ _ _ _ _ E). reflexivity.
Qed.

(** ** An access to a session whose kernel needs attention *)

Lemma reset_kernel_restart_raises self st c k :
  store st !! self = Some c -> kernel_manager c = Some k -> restart_raises k ->
  exists e st', reset_kernel self st = (Raise e, st').
Proof.
  intros H Hk Hr. unfold reset_kernel.
  rewrite (bind_Return _ _ _ _ _ (deref_spec _ _ _ H)). rewrite Hk.
  rewrite (bind_Return _ _ _ _ _ (update_eq _ _ _ _ H)).
  set (c0 := set_kernel_ready false c).
  set (s0 := with_store <[self := c0]> st).
  assert (store s0 !! self = Some c0) as H0
    by (apply (lookup_updated _ _ _ _ H)).
  unfold try_except. unfold bind at 1.
  rewrite (restart_kernel_eq self s0 c0 k H0 Hk).
  unfold restart_raises in Hr.
  destruct (restarts k) as [|[n|] r]; [| destruct Hr |].
  - assert (store (with_trace (RestartKernel self) s0) !! self = Some c0)
      as H1 by exact H0.
    destruct (cleanup_spec self _ c0 H1) as (s2 & c2 & E2 & _).
    rewrite (bind_Return _ _ _ _ _ E2). eexists _, _. reflexivity.
  - assert (store (with_store
                     <[self := set_kernel_manager (set_restarts r k) c0]>
                     (with_trace (RestartKernel self) s0)) !! self
            = Some (set_kernel_manager (set_restarts r k) c0)) as H1
      by (apply (lookup_updated _ _ _ _ H0)).
    destruct (cleanup_spec self _ _ H1) as (s2 & c2 & E2 & _).
    rewrite (bind_Return _ _ _ _ _ E2). eexists _, _. reflexivity.
Qed.

(** X29 ([get_session], the dead-kernel branch when the restart fails).
    An access to a registered session whose kernel process is dead asks for
    a restart; when the restart raises, the access is answered with the 500
    error that tells the caller to start a new session, and the session is
    removed from the registry.  Its controller is left with the readiness
    flag unset, and its teardown has been attempted: the process is not
    running if [shutdown_kernel] does not raise, and the notebook file is
    gone if [os.remove] does not raise. *)
Theorem access_to_dead_session_removes_it_when_restart_fails
  conversation_id st found c k now later :
  sessions st !! conversation_id = Some found ->
  store st !! controller found = Some c ->
  kernel_manager c = Some k -> life k = 0 -> restart_raises k ->
  clock st = now :: later ->
  exists st' c',
    get_session conversation_id st
    = (Raise (HTTPException 500 (DetailStr
         ("Kernel for session '" ++ conversation_id
            ++ "' died and could not be reset. Please start a new session."))),
       st')
    /\ sessions st' = delete conversation_id (sessions st)
    /\ store st' !! controller found = Some c'
    /\ _kernel_ready c' = false
    /\ In (RestartKernel (controller found)) (trace st')
    /\ (raising st (ShutdownKernel (controller found)) = false ->
        not_running c')
    /\ (forall p, notebook_path c = Some p ->
          raising st (RemoveNotebook p) = false -> p ∉ files st').
Proof.
  intros H Hc Hk Hl Hr Hclock. unfold get_session.
  rewrite (bind_Return get_state _ st st st eq_refl). cbv beta. rewrite H.
  assert (time_time st = (Return now, with_clock later st)) as Et
    by (unfold time_time; rewrite Hclock; reflexivity).
  rewrite (bind_Return time_time _ _ _ _ Et). cbv zeta.
  set (si := set_last_activity now found).
  set (s1 := with_sessions <[conversation_id := si]> (with_clock later st)).
  rewrite (bind_Return (modify _) _ _ tt s1) by reflexivity.
  change (controller si) with (controller found).
  set (ctl := controller found) in *.
  assert (store s1 !! ctl = Some c) as Hc1 by exact Hc.
  assert (manager_and_alive ctl s1 = (Return false, s1)) as Em.
  { unfold manager_and_alive.
    rewrite (bind_Return _ _ _ _ _ (deref_spec _ _ _ Hc1)). rewrite Hk.
    rewrite (is_alive_eq _ _ _ _ Hc1 Hk), Hl. reflexivity. }
  rewrite (bind_Return _ _ _ _ _ Em). change (negb false) with true.
  cbv iota.
  rewrite (bind_Return _ _ _ _ _ (update_eq _ _ _ _ Hc1)).
  set (c2 := set_kernel_ready false c).
  set (s2 := with_store <[ctl := c2]> s1).
  assert (store s2 !! ctl = Some c2) as H2
    by (apply (lookup_updated _ _ _ _ Hc1)).
  destruct (reset_kernel_restart_raises ctl s2 c2 k H2 Hk Hr)
    as (e & s3 & E3).
  destruct (reset_kernel_spec ctl s2 c2 k _ _ H2 Hk E3)
    as (c3 & H3 & T3 & _ & R3 & _ & _ & _ & F3).
  pose proof (reset_kernel_registry_untouched ctl s2) as [S3 _].
  rewrite E3 in S3. simpl in S3.
  pose proof (reset_kernel_raising_kept ctl s2) as O3.
  rewrite E3 in O3. simpl in O3. unfold raising_kept in O3.
  change (raising s2) with (raising st) in O3.
  destruct (cleanup_spec ctl s3 c3 H3)
    as (s4 & c4 & E4 & H4 & R4 & _ & S4 & _ & _ & G4 & _ & D4 & _).
  pose proof (cleanup_registry_untouched ctl s3) as [_ (l4 & T4)].
  rewrite E4 in T4. simpl in T4.
  assert (sessions s4 !! conversation_id = Some si) as Hreg.
  { rewrite S4, S3. subst s2 s1. simpl. apply lookup_insert_eq. }
  eexists _, c4. split.
  - unfold bind at 1. unfold reset_or_remove at 1. unfold try_except at 1.
    rewrite (bind_Raise _ _ _ _ _ E3).
    rewrite (bind_Return _ _ _ _ _ E4).
    unfold del_session. unfold bind at 1.
    rewrite (bind_Return get_state _ s4 s4 s4 eq_refl). cbv beta.
    rewrite Hreg. reflexivity.
  - simpl. split.
    { rewrite S4, S3. subst s2 s1. simpl. apply delete_insert_eq. }
    split; [exact H4 |].
    split; [rewrite R4; exact R3 |]. split.
    { rewrite T4. apply in_or_app. left. exact T3. }
    split; [intros Hf; apply D4; rewrite O3; exact Hf |].
    intros p Hp Hf Hin. apply (F3 p Hp Hf). apply G4. exact Hin.
Qed.

(** X30 ([get_session], the branch that waits).  An access to a
    registered session whose process is alive but whose controller is not
    ready waits for readiness: when the timeout of fifteen seconds allows
    the first turn of the wait, the access returns the refreshed session
    and the controller is ready; the probe "1+1" is the only thing that
    was submitted. *)
Theorem access_waits_for_unready_live_kernel
  conversation_id st found c k n now start_time t later :
  sessions st !! conversation_id = Some found ->
  store st !! controller found = Some c -> _kernel_ready c = false ->
  kernel_manager c = Some k -> life k = S (S n) ->
  Forall (fun o => from_option lacks_state false o = false) (iopub k) ->
  clock st = now :: start_time :: t :: later ->
  ~ (15 < t - start_time)%Q ->
  exists st' c' k',
    get_session conversation_id st
    = (Return (set_last_activity now found), st')
    /\ sessions st'
       = <[conversation_id := set_last_activity now found]> (sessions st)
    /\ store st' !! controller found = Some c'
    /\ _kernel_ready c' = true
    /\ kernel_manager c' = Some k'
    /\ life k' = n
    /\ submitted k' = S (submitted k)
    /\ trace st' = (trace st ++ [Execute (controller found) "1+1"])%list
    /\ clock st' = later.
Proof.
  intros H Hc Hr Hk Hl Hq Hclock Ht. unfold get_session.
  rewrite (bind_Return get_state _ st st st eq_refl). cbv beta. rewrite H.
  assert (time_time st
          = (Return now, with_clock (start_time :: t :: later) st)) as Et
    by (unfold time_time; rewrite Hclock; reflexivity).
  rewrite (bind_Return time_time _ _ _ _ Et). cbv zeta.
  set (si := set_last_activity now found).
  set (s1 := with_sessions <[conversation_id := si]>
               (with_clock (start_time :: t :: later) st)).
  rewrite (bind_Return (modify _) _ _ tt s1) by reflexivity.
  change (controller si) with (controller found).
  set (ctl := controller found) in *.
  assert (store s1 !! ctl = Some c) as Hc1 by exact Hc.
  set (k2 := set_life (S n) k). set (c2 := set_kernel_manager k2 c).
  set (s2 := with_store <[ctl := c2]> s1).
  assert (manager_and_alive ctl s1 = (Return true, s2)) as Em.
  { unfold manager_and_alive.
    rewrite (bind_Return _ _ _ _ _ (deref_spec _ _ _ Hc1)). rewrite Hk.
    rewrite (is_alive_eq _ _ _ _ Hc1 Hk), Hl. reflexivity. }
  rewrite (bind_Return _ _ _ _ _ Em). change (negb true) with false.
  cbv iota.
  assert (store s2 !! ctl = Some c2) as H2
    by (apply (lookup_updated _ _ _ _ Hc1)).
  rewrite (bind_Return _ _ _ _ _ (deref_spec _ _ _ H2)).
  change (_kernel_ready c2) with (_kernel_ready c). rewrite Hr.
  change (negb false) with true. cbv iota.
  destruct (wait_live_spec ctl 15 s2 c2 k2 n start_time t later
              H2 Hr eq_refl eq_refl Hq eq_refl Ht)
    as (st' & c' & k' & Ew & H' & R' & K' & L' & S' & _ & T' & C').
  pose proof (wait_for_kernel_ready_kernel_calls ctl 15 s2) as [Ss _].
  rewrite Ew in Ss. simpl in Ss.
  exists st', c', k'. split.
  - unfold bind at 1. unfold try_except at 1. rewrite Ew. reflexivity.
  - split; [rewrite Ss; reflexivity |]. repeat split; assumption.
Qed.

End Server.

(** * The statements at concrete inputs *)

Import Scenario.

(** ** Text helpers *)

Example import_names :
  import_name_of "scikit-learn==1.0" = "scikit_learn"
  /\ import_name_of "uvicorn[standard]>=0.20" = "uvicorn"
  /\ import_name_of "pip" = "pip".
Proof. repeat split; reflexivity. Qed.

Example strip_trims_both_ends :
  strip ("  a b " ++ LF) = "a b" /\ strip (LF ++ " ") = ""
  /\ join LF ["a"; "b"] = "a" ++ LF ++ "b".
Proof. repeat split; reflexivity. Qed.

(** ** C1 *)



(** ** C2 *)

Lemma output_is_joined_and_trimmed_witness :
  (exists pre,
     "x" ++ LF ++ LF ++ "2" = strip (join LF (flat_map rendered pre)))
  /\ fst (execute_code str_exn 0 "print('x'); 1+1"
            (serving prints_then_value []))
     = Return ("x" ++ LF ++ LF ++ "2")
  /\ fst (execute_code str_exn 0 "print('x'); 1+1"
            (serving prints_then_value []))
     = Return (joined_output "msg-0" two_outputs).
Proof.
  split; [| split].
  - destruct (proj1 (output_is_joined_and_trimmed str_exn 0 "print('x'); 1+1")
                (serving prints_then_value [])
                ("x" ++ LF ++ LF ++ "2")
                (snd (execute_code str_exn 0 "print('x'); 1+1"
                        (serving prints_then_value []))))
      as (st1 & c & k & pre & m & rest & _ & _ & _ & _ & _ & _ & Hout & _).
    + vm_compute. reflexivity.
    + exists pre. exact Hout.
  - exact (proj1 (proj2 (output_is_joined_and_trimmed str_exn 0
                           "print('x'); 1+1"))
             (serving prints_then_value [])
             (ready_controller prints_then_value) prints_then_value 4
             two_outputs (status_msg "msg-0" "idle") []
             eq_refl eq_refl eq_refl eq_refl eq_refl eq_refl eq_refl).
  - exact (proj2 (proj2 (output_is_joined_and_trimmed str_exn 0
                           "print('x'); 1+1"))
             (serving prints_then_value [])
             (ready_controller prints_then_value) prints_then_value 4
             two_outputs (status_msg "msg-0" "idle") []
             eq_refl eq_refl eq_refl eq_refl eq_refl eq_refl eq_refl eq_refl).
Defined.

(** C2 as the specification states it fails when the process prints a
    line, shows a figure and then shows a value, all three for the request
    "msg-0".  The concatenation of the stream and result texts, trimmed, is
    "x", a line feed, "2".  The output has the placeholder of the figure
    between them, and a line feed after each text, the separator of the
    join: it is neither the concatenation, nor the stream and result texts
    joined with line feeds, nor the concatenation of the three texts. *)
Lemma output_is_not_the_plain_concatenation :
  fst (execute_code str_exn 0 "print('x'); display(fig); 1+1"
         (serving prints_shows_and_values []))
  = Return ("x" ++ LF ++ LF ++ "[Image data: base64 PNG omitted]" ++ LF ++ "2")
  /\ concatenated_output "msg-0" three_outputs = "x" ++ LF ++ "2"
  /\ fst (execute_code str_exn 0 "print('x'); display(fig); 1+1"
            (serving prints_shows_and_values []))
     <> Return (concatenated_output "msg-0" three_outputs)
  /\ fst (execute_code str_exn 0 "print('x'); display(fig); 1+1"
            (serving prints_shows_and_values []))
     <> Return (strip (join LF
                  (flat_map (stream_or_result_text "msg-0") three_outputs)))
  /\ fst (execute_code str_exn 0 "print('x'); display(fig); 1+1"
            (serving prints_shows_and_values []))
     <> Return (strip (String.concat ""
                  (flat_map (output_text "msg-0") three_outputs)))
  /\ fst (execute_code str_exn 0 "print('x'); display(fig); 1+1"
            (serving prints_shows_and_values []))
     = Return (joined_output "msg-0" three_outputs).
Proof.
  split; [vm_compute; reflexivity |]. split; [vm_compute; reflexivity |].
  split; [vm_compute; discriminate |]. split; [vm_compute; discriminate |].
  split; [vm_compute; discriminate |]. vm_compute. reflexivity.
Qed.

(** ** C3 *)

(** C3 at the failing input: a [reset] of the registered session "c" whose
    kernel restart raises.  The request fails with a 500 answer; the
    controller has been torn down (channels stopped, process shut down,
    readiness flag cleared), and the session is still registered. *)
Theorem failed_restart_in_reset_leaves_session_registered :
  forall render : exn -> string,
    let r := reset_session render "c" (serving restart_fails [200%Q]) in
    fst r
    = Raise (HTTPException 500 (DetailStr
        ("Failed to reset session 'c': "
           ++ render (RuntimeError
                ("Failed to reset kernel: "
                   ++ render (OSError "restart_kernel"))))))
    /\ sessions (snd r) !! "c"
       = Some {| controller := 0; created_at := 100; last_activity := 200 |}
    /\ (_kernel_ready <$> store (snd r) !! 0) = Some false
    /\ (kernel_manager <$> store (snd r) !! 0)
       = Some (Some (kernel 0 [] []))
    /\ trace (snd r)
       = [ RestartKernel 0; StopChannels 0; ShutdownKernel 0;
           RemoveNotebook "/mnt/jupyter_sessions/c/notebook_c.ipynb" ].
Proof. intros render. repeat split; vm_compute; reflexivity. Qed.

(** The sibling path: when the restart fails during an access, the session
    is removed from the registry. *)
Example failed_restart_in_access_removes_session :
  forall render : exn -> string,
    let r := get_session render "c" (serving dead_beyond_restart [200%Q]) in
    answered_status (fst r) = Some 500%Z
    /\ sessions (snd r) !! "c" = None.
Proof. intros render. split; vm_compute; reflexivity. Qed.

(** A creation whose bootstrap fails leaves nothing registered. *)
Example failed_bootstrap_leaves_nothing_registered :
  forall render : exn -> string,
    let r := _create_session render "c" bootstrap_fails in
    answered_status (fst r) = Some 500%Z
    /\ sessions (snd r) !! "c" = None.
Proof. intros render. split; vm_compute; reflexivity. Qed.

(** ** C4 *)

Lemma success_only_on_idle_for_own_token_witness :
  fst (kc_execute 0 "x" (serving stale_idle_first [])) = Return "msg-0"
  /\ (exists pre m rest,
        [ Some (stream_msg "msg-0" "done"); Some (status_msg "msg-0" "idle") ]
        = (arrivals pre ++ Some m :: rest)%list
        /\ is_idle_for "msg-0" m = true)
  /\ (exists pre m rest,
        drain (iopub stale_idle_first) = (arrivals pre ++ Some m :: rest)%list
        /\ forallb (ordinary "msg-0") pre = true
        /\ is_idle_for "msg-0" m = true)
  /\ (forall out,
        fst (correlate str_exn 0 "x"
               (serving (kernel 5 [Some (status_msg "msg-earlier" "idle")] [])
                  []))
        <> Return out)
  /\ (forall out,
        fst (execute_code str_exn 0 "x" (serving foreign_idle_only []))
        <> Return out)
  /\ consume "msg-0" []
       [ Some (status_msg "msg-earlier" "idle");
         Some (stream_msg "msg-0" "done");
         Some (status_msg "msg-0" "idle") ]
     = consume "msg-0" []
         [ Some (stream_msg "msg-0" "done");
           Some (status_msg "msg-0" "idle") ]
  /\ fst (execute_code str_exn 0 "x" (serving stale_idle_first []))
     = Return "done".
Proof.
  pose proof (success_only_on_idle_for_own_token str_exn 0 "x")
    as (Htoken & Hloop & Hrun & Hnone & Hnone' & Hskip & Hgoes_on).
  split; [| split; [| split; [| split; [| split; [| split]]]]].
  - apply (Htoken (serving stale_idle_first [])
             (ready_controller stale_idle_first) stale_idle_first);
      reflexivity.
  - destruct (Hloop
                (serving (kernel 5 [ Some (stream_msg "msg-0" "done");
                                     Some (status_msg "msg-0" "idle") ] []) [])
                "done"
                (snd (correlate str_exn 0 "x"
                        (serving
                           (kernel 5 [ Some (stream_msg "msg-0" "done");
                                       Some (status_msg "msg-0" "idle") ] [])
                           []))))
      as (c & k & pre & m & rest & c' & k' & Hc & Hk & Hq & _ & Hm & _).
    + vm_compute. reflexivity.
    + injection Hc as <-. injection Hk as <-.
      exists pre, m, rest. split; [exact Hq | exact Hm].
  - destruct (Hrun (serving stale_idle_first [])
                (ready_controller stale_idle_first) stale_idle_first 4 "done"
                (snd (execute_code str_exn 0 "x" (serving stale_idle_first [])))
                eq_refl eq_refl eq_refl eq_refl)
      as (pre & m & rest & c' & k' & Hq & Hpre & Hm & _).
    + vm_compute. reflexivity.
    + exists pre, m, rest. repeat split; assumption.
  - apply (Hnone (serving (kernel 5 [Some (status_msg "msg-earlier" "idle")]
                             []) [])
             (ready_controller
                (kernel 5 [Some (status_msg "msg-earlier" "idle")] []))
             (kernel 5 [Some (status_msg "msg-earlier" "idle")] []));
      try reflexivity.
    intros m [H | []]. inversion H. reflexivity.
  - apply (Hnone' (serving foreign_idle_only [])
             (ready_controller foreign_idle_only) foreign_idle_only 4);
      try reflexivity.
    intros m [H | [H | []]]; inversion H; reflexivity.
  - apply (Hskip "msg-0" [] (status_msg "msg-earlier" "idle")
             [ Some (stream_msg "msg-0" "done");
               Some (status_msg "msg-0" "idle") ] []);
      reflexivity.
  - apply (Hgoes_on (serving stale_idle_first [])
             (ready_controller stale_idle_first) stale_idle_first 4
             [] (status_msg "msg-earlier" "idle")
             [stream_msg "msg-0" "done"] (status_msg "msg-0" "idle") []);
      reflexivity.
Defined.

(** ** C5 *)

(** C5 at the failing input: the session "c" is registered and ready, and
    the code raises a [NameError].  The request ends at the error message,
    without an output, but what the caller receives is the 500 answer whose
    detail is a text; the [ename], [evalue] and [traceback] fields are in
    the 400 exception that the catch-all clause of the loop has caught. *)
Theorem interpreter_error_reaches_caller_as_500 :
  forall (render : exn -> string) (render_detail : detail -> string),
    fst (run_code_in_session render render_detail
           {| conversation_id := "c"; code := "print(non_existent_variable)";
              dependencies := [] |}
           (serving raises_name_error [200%Q]))
    = Raise (HTTPException 500 (DetailStr
        ("Internal error processing kernel output: "
           ++ render (HTTPException 400
                (DetailError "Execution error" "NameError"
                   "name 'non_existent_variable' is not defined"
                   ["Traceback (most recent call last)";
                    "NameError: name 'non_existent_variable' is not defined"]))))).
Proof. intros render render_detail. vm_compute. reflexivity. Qed.

(** ** C6 *)

Lemma silence_means_timeout_or_engine_dead_witness :
  (exists st' c',
     store st' !! 0 = Some c'
     /\ correlate str_exn 0 "x" (serving dead [])
        = (Raise (RuntimeError
             "Kernel died during execution. Please restart session."), st')
     /\ _kernel_ready c' = false
     /\ exists k', kernel_manager c' = Some k' /\ life k' = 0)
  /\ (exists st' c',
        store st' !! 0 = Some c'
        /\ sessions st' = sessions (serving silent_dying [])
        /\ execute_code str_exn 0 "x" (serving silent_dying [])
           = (Raise (RuntimeError
                "Kernel died during execution. Please restart session."), st')
        /\ _kernel_ready c' = false
        /\ exists k', kernel_manager c' = Some k' /\ life k' = 0)
  /\ (exists st' c',
        store st' !! 0 = Some c'
        /\ sessions st' = sessions (serving silent_alive [])
        /\ execute_code str_exn 0 "x" (serving silent_alive [])
           = (Raise (HTTPException 408 (DetailStr
                "Code execution timed out waiting for response from kernel.")),
              st')
        /\ _kernel_ready c' = true)
  /\ In (RestartKernel 0)
        (trace (snd (get_session str_exn "c" (serving dead [300%Q])))).
Proof.
  split; [| split; [| split]].
  - apply (proj1 (silence_means_timeout_or_engine_dead str_exn 0 "x")
             (serving dead []) (ready_controller dead) dead [] []);
      try reflexivity.
    left. reflexivity.
  - apply (proj1 (proj2 (silence_means_timeout_or_engine_dead str_exn 0 "x"))
             (serving silent_dying []) (ready_controller silent_dying)
             silent_dying 0 [] []);
      try reflexivity.
    left. reflexivity.
  - apply (proj1 (proj2 (silence_means_timeout_or_engine_dead str_exn 0 "x"))
             (serving silent_alive []) (ready_controller silent_alive)
             silent_alive 4 [] []);
      try reflexivity.
    left. reflexivity.
  - apply (proj2 (proj2 (silence_means_timeout_or_engine_dead str_exn 0 "x"))
             "c" (serving dead [300%Q]) registered (ready_controller dead)
             dead 300%Q []);
      reflexivity.
Defined.

(** ** C7 *)

Lemma sweep_removes_exactly_the_inactive_witness :
  (fst (sweep (two_sessions [4700%Q])) = Return tt
   /\ sessions (snd (sweep (two_sessions [4700%Q]))) !! "old" = None
   /\ sessions (snd (sweep (two_sessions [4700%Q]))) !! "recent"
      = Some {| controller := 1; created_at := 900; last_activity := 5000 |})
  /\ remove_each ["gone"; "old"] (two_sessions [])
     = remove_each ["old"] (two_sessions [])
  /\ collect 4700 (sessions (two_sessions [])) ["gone"; "old"] []
     = collect 4700 (sessions (two_sessions [])) ["old"] [].
Proof.
  split; [| split].
  - destruct (proj1 sweep_removes_exactly_the_inactive
                (two_sessions [4700%Q]) 4700%Q [] eq_refl)
      as (Hr & Hgone & _ & Hkept & _).
    split; [exact Hr |]. split.
    + apply (Hgone "old"
               {| controller := 0; created_at := 900; last_activity := 1000 |});
        reflexivity.
    + apply (Hkept "recent"
               {| controller := 1; created_at := 900; last_activity := 5000 |});
        reflexivity.
  - apply (proj1 (proj2 sweep_removes_exactly_the_inactive)). reflexivity.
  - apply (proj2 (proj2 sweep_removes_exactly_the_inactive)). reflexivity.
Defined.

(** A session idle for exactly the threshold is kept. *)
Example idle_for_exactly_an_hour_is_kept :
  sessions (snd (sweep (two_sessions [4600%Q]))) !! "old"
  = Some {| controller := 0; created_at := 900; last_activity := 1000 |}.
Proof. vm_compute. reflexivity. Qed.

(** ** C8 *)

(** C8 at the failing input: the session "c" is registered and ready, the
    install of "requests" succeeds, and the kernel dies while the import
    runs.  The import was submitted, so the stage that failed is the
    import; [execute_code] raises a [RuntimeError], which the clause for
    import failures ([except HTTPException]) does not catch, and the caller
    receives the 500 answer of the catch-all clause: it names the package,
    in the words of an unexpected error while installing, not in those of
    the import failure. *)
Theorem import_failure_reported_as_unexpected_install_error :
  forall (render : exn -> string) (render_detail : detail -> string),
    let r := _install_dependencies render render_detail registered
               ["requests"] (serving silent_dying []) in
    pip (serving silent_dying []) 0 "requests"
    = Completed 0 "Successfully installed" ""
    /\ trace (snd r) = [PipInstall "requests"; Execute 0 "import requests"]
    /\ fst r
       = Raise (HTTPException 500 (DetailStr
           ("Unexpected error installing dependency 'requests': "
              ++ render (RuntimeError
                   "Kernel died during execution. Please restart session."))))
    /\ ~ speaks_of ImportStage "requests"
           (HTTPException 500 (DetailStr
              ("Unexpected error installing dependency 'requests': "
                 ++ render (RuntimeError
                      "Kernel died during execution. Please restart session."))))
    /\ sessions (snd r) !! "c" = Some registered.
Proof.
  intros render render_detail.
  split; [reflexivity |]. split; [vm_compute; reflexivity |].
  split; [vm_compute; reflexivity |]. split.
  - intros [why H]. discriminate H.
  - vm_compute. reflexivity.
Qed.

(** The sibling path: when the import fails with an [HTTPException] (here
    the time-out of the execution), the error is the import failure. *)
Example import_timeout_reported_as_import_failure :
  forall (render : exn -> string) (render_detail : detail -> string),
    fst (_install_dependencies render render_detail registered ["requests"]
           (serving silent_alive []))
    = Raise (import_failed "requests"
               (render_detail (DetailStr
                  "Code execution timed out waiting for response from kernel.")))
    /\ speaks_of ImportStage "requests"
         (import_failed "requests"
            (render_detail (DetailStr
               "Code execution timed out waiting for response from kernel."))).
Proof.
  intros render render_detail. split; [vm_compute; reflexivity |].
  eexists. reflexivity.
Qed.

(** The run of C8 at a concrete input: the second of three names fails to
    install, the third is never handed to the installer, and the session
    stays registered. *)
Example second_package_fails_third_is_not_tried :
  let st :=
    {| sessions := {[ "c" := registered ]};
       store := [ready_controller
                   (kernel 9 [None; Some (status_msg "msg-0" "idle")] [])];
       clock := []; spawn := [];
       pip := fun n _ =>
                match n with
                | 0 => Completed 0 "ok" ""
                | _ => Completed 1 "" "No matching distribution"
                end;
       pip_runs := 0; files := ∅; trace := [];
       raising := fun _ => false |} in
  let r := _install_dependencies str_exn str_detail registered
             ["six"; ""; "no-such-package"; "attrs"] st in
  fst r = Raise (install_failed "no-such-package" "No matching distribution")
  /\ installs (trace (snd r)) = ["six"; "no-such-package"]
  /\ sessions (snd r) !! "c" = Some registered.
Proof. repeat split; vm_compute; reflexivity. Qed.

(** ** C9 *)

(** C9 at the failing input: two [run] requests on the registered, ready
    session "c".  A handler does not yield while it waits for a message, so
    the second request is served when the first has been answered.  The
    first request is submitted under the token "msg-0" and is answered with
    the 408 time-out after twenty seconds of silence; its output arrives
    later.  The second request clears the queue, is submitted under the
    token "msg-1", and its loop reads the late stream message of the first
    execution before its own: the result of the second request holds the
    text of a message of the first, where the messages that belong to the
    second execution give "B" alone. *)
Theorem late_output_of_one_request_reaches_the_next :
  forall (render : exn -> string) (render_detail : detail -> string),
    let a :=
      run_code_in_session render render_detail
        {| conversation_id := "c";
           code := "import time; time.sleep(25); print('A')";
           dependencies := [] |}
        (serving answers_late [200; 230]%Q) in
    let b :=
      run_code_in_session render render_detail
        {| conversation_id := "c"; code := "print('B')"; dependencies := [] |}
        (snd a) in
    fst a
    = Raise (HTTPException 408 (DetailStr
        "Code execution timed out waiting for response from kernel."))
    /\ trace (snd b)
       = [ Execute 0 "import time; time.sleep(25); print('A')";
           Execute 0 "print('B')" ]
    /\ msg_ids answers_late 0 = "msg-0" /\ msg_ids answers_late 1 = "msg-1"
    /\ fst b = Return ("A" ++ LF ++ LF ++ "B")
    /\ joined_output "msg-1" late_messages = "B"
    /\ fst b <> Return (joined_output "msg-1" late_messages).
Proof.
  intros render render_detail.
  split; [vm_compute; reflexivity |]. split; [vm_compute; reflexivity |].
  split; [reflexivity |]. split; [reflexivity |].
  split; [vm_compute; reflexivity |]. split; [vm_compute; reflexivity |].
  vm_compute. discriminate.
Qed.

(** * Further properties at concrete inputs *)

Import Lifecycle.

(** ** Ending a session *)

Lemma end_session_unregisters_and_schedules_teardown_witness :
  exists st',
    end_session "c" (serving silent_alive [])
    = (Return "Session 'c' ended successfully and cleanup initiated.", st')
    /\ sessions st' = delete "c" (sessions (serving silent_alive []))
    /\ store st' = store (serving silent_alive [])
    /\ files st' = files (serving silent_alive [])
    /\ trace st' = [CleanupTask 0]
    /\ answered_status (fst (end_session "c" st')) = Some 404%Z
    /\ answered_status (fst (reset_session str_exn "c" st')) = Some 404%Z
    /\ answered_status (fst (get_session str_exn "c" st')) = Some 404%Z.
Proof.
  apply (end_session_unregisters_and_schedules_teardown str_exn "c"
           (serving silent_alive []) registered).
  reflexivity.
Defined.

(** ** Dead and live kernels *)

Lemma execute_code_on_dead_kernel_witness :
  execute_code str_exn 0 "1+1" (serving dead [])
  = (Raise (RuntimeError "Kernel died. Please restart session."),
     with_store <[0 := set_kernel_ready false (ready_controller dead)]>
       (serving dead [])).
Proof.
  apply (execute_code_on_dead_kernel str_exn 0 "1+1" (serving dead [])
           (ready_controller dead) dead); reflexivity.
Defined.

Lemma get_session_on_healthy_session_witness :
  exists st',
    get_session str_exn "c" (serving silent_alive [200%Q])
    = (Return (set_last_activity 200 registered), st')
    /\ sessions st'
       = <["c" := set_last_activity 200 registered]>
           (sessions (serving silent_alive [200%Q]))
    /\ store st'
       = <[0 := set_kernel_manager (set_life 4 silent_alive)
                  (ready_controller silent_alive)]>
           (store (serving silent_alive [200%Q]))
    /\ clock st' = []
    /\ trace st' = []
    /\ files st' = files (serving silent_alive [200%Q]).
Proof.
  apply (get_session_on_healthy_session str_exn "c"
           (serving silent_alive [200%Q]) registered
           (ready_controller silent_alive) silent_alive 4 200%Q []);
    reflexivity.
Defined.

Lemma cleanup_is_best_effort_witness :
  exists st' c',
    cleanup 0 (serving silent_alive []) = (Return tt, st')
    /\ store st' !! 0 = Some c'
    /\ _kernel_ready c' = true
    /\ sessions st' = sessions (serving silent_alive [])
    /\ not_running c'
    /\ "/mnt/jupyter_sessions/c/notebook_c.ipynb" ∉ files st'.
Proof.
  destruct (cleanup_is_best_effort 0 (serving silent_alive [])
              (ready_controller silent_alive) eq_refl)
    as (st' & c' & E & L & R & _ & S & _ & _ & _ & D & G).
  exists st', c'. split; [exact E |]. split; [exact L |].
  split; [exact R |]. split; [exact S |].
  split; [apply D; reflexivity |].
  apply (G _ eq_refl). reflexivity.
Defined.

(** On a server whose teardown calls raise, [cleanup] returns all the same:
    every step was attempted, the process still answers and the notebook
    file is still there. *)
Example swallowed_failures_leave_process_and_file :
  fst (cleanup 0 (teardown_raises silent_alive)) = Return tt
  /\ trace (snd (cleanup 0 (teardown_raises silent_alive)))
     = [ StopChannels 0; ShutdownKernel 0;
         RemoveNotebook "/mnt/jupyter_sessions/c/notebook_c.ipynb" ]
  /\ (life <$> (store (snd (cleanup 0 (teardown_raises silent_alive))) !! 0
                ≫= kernel_manager)) = Some 4
  /\ files (snd (cleanup 0 (teardown_raises silent_alive)))
     = {[ "/mnt/jupyter_sessions/c/notebook_c.ipynb" ]}.
Proof. repeat split; vm_compute; reflexivity. Qed.

(** ** Waiting for a kernel *)

Lemma wait_returns_ready_or_times_out_witness :
  exists c',
    store (snd (_wait_for_kernel_ready 0 5 (waiting silent_alive [0; 1]%Q)))
      !! 0 = Some c'
    /\ match fst (_wait_for_kernel_ready 0 5 (waiting silent_alive [0; 1]%Q))
       with
       | Return _ => _kernel_ready c' = true
       | Raise e =>
           e = TimeoutError "Kernel failed to start within timeout period"
           /\ _kernel_ready c' = false
       | Pending => True
       end.
Proof.
  apply (wait_returns_ready_or_times_out 0 5 (waiting silent_alive [0; 1]%Q)
           (unready_controller silent_alive)).
  reflexivity.
Defined.

Lemma wait_on_dead_kernel_times_out_witness :
  _wait_for_kernel_ready 0 5 (waiting dead [0; 2; 4; 6; 8]%Q)
  = (Raise (TimeoutError "Kernel failed to start within timeout period"),
     with_clock [8%Q] (waiting dead [0; 2; 4; 6; 8]%Q)).
Proof.
  apply (wait_on_dead_kernel_times_out 0 5 (waiting dead [0; 2; 4; 6; 8]%Q)
           (unready_controller dead) 0 [2; 4]%Q 6 [8%Q]);
    try reflexivity.
  repeat constructor; unfold Qlt; simpl; lia.
Defined.

Lemma wait_declares_live_kernel_ready_witness :
  exists st' c' k',
    _wait_for_kernel_ready 0 5 (waiting silent_alive [0; 1; 9]%Q)
    = (Return tt, st')
    /\ store st' !! 0 = Some c'
    /\ _kernel_ready c' = true
    /\ kernel_manager c' = Some k'
    /\ life k' = 4
    /\ submitted k' = 1
    /\ iopub k' = []
    /\ trace st' = [Execute 0 "1+1"]
    /\ clock st' = [9%Q].
Proof.
  apply (wait_declares_live_kernel_ready 0 5
           (waiting silent_alive [0; 1; 9]%Q)
           (unready_controller silent_alive) silent_alive 4 0 1 [9%Q]);
    try reflexivity.
  - constructor.
  - unfold Qlt. simpl. lia.
Defined.

Lemma create_notebook_result_witness :
  exists c c' k',
    store bringing_up !! 0 = Some c
    /\ "/mnt/jupyter_sessions/c/notebook_c.ipynb"
       = os_path_join (folder_path c) ("notebook_c" ++ ".ipynb")
    /\ store (snd (create_notebook 0 "notebook_c" bringing_up)) !! 0 = Some c'
    /\ folder_path c' = folder_path c
    /\ notebook_path c' = Some "/mnt/jupyter_sessions/c/notebook_c.ipynb"
    /\ kernel_client c' = true
    /\ _kernel_ready c' = true
    /\ kernel_manager c' = Some k'
    /\ files (snd (create_notebook 0 "notebook_c" bringing_up))
       = {[ "/mnt/jupyter_sessions/c/notebook_c.ipynb" ]} ∪ files bringing_up
    /\ In (StartKernel 0)
          (trace (snd (create_notebook 0 "notebook_c" bringing_up))).
Proof.
  apply (create_notebook_result 0 "notebook_c" bringing_up
           "/mnt/jupyter_sessions/c/notebook_c.ipynb"
           (snd (create_notebook 0 "notebook_c" bringing_up))).
  vm_compute. reflexivity.
Defined.

Lemma reset_kernel_restarts_or_attempts_teardown_witness :
  exists c',
    store (snd (reset_kernel str_exn 0 (serving restart_fails []))) !! 0
    = Some c'
    /\ In (RestartKernel 0)
          (trace (snd (reset_kernel str_exn 0 (serving restart_fails []))))
    /\ match fst (reset_kernel str_exn 0 (serving restart_fails [])) with
       | Return _ =>
           _kernel_ready c' = true
           /\ notebook_path c' = notebook_path (ready_controller restart_fails)
           /\ files (snd (reset_kernel str_exn 0 (serving restart_fails [])))
              = files (serving restart_fails [])
       | Raise e =>
           (exists cause,
              e = RuntimeError
                    ("Failed to reset kernel: " ++ str_exn cause))
           /\ _kernel_ready c' = false
           /\ notebook_path c' = notebook_path (ready_controller restart_fails)
           /\ (forall p,
                 p ∈ files (snd (reset_kernel str_exn 0
                                   (serving restart_fails []))) ->
                 p ∈ files (serving restart_fails []))
           /\ (raising (serving restart_fails []) (ShutdownKernel 0) = false ->
               not_running c')
           /\ (forall p,
                 notebook_path (ready_controller restart_fails) = Some p ->
                 raising (serving restart_fails []) (RemoveNotebook p) = false ->
                 p ∉ files (snd (reset_kernel str_exn 0
                                   (serving restart_fails []))))
       | Pending => True
       end.
Proof.
  apply (reset_kernel_restarts_or_attempts_teardown str_exn 0
           (serving restart_fails []) (ready_controller restart_fails)).
  reflexivity.
Defined.

(** ** A creation that fails *)

Lemma failed_creation_leaves_nothing_registered_witness :
  exists e st',
    _create_session str_exn "c" bootstrap_fails = (Raise e, st')
    /\ (exists cause,
          e = HTTPException 500 (DetailStr
                ("Failed to create session: " ++ str_exn cause)))
    /\ sessions st' = sessions bootstrap_fails
    /\ (forall l, l < length (store bootstrap_fails) ->
          store st' !! l = store bootstrap_fails !! l)
    /\ exists c',
         store st' !! length (store bootstrap_fails) = Some c'
         /\ (raising bootstrap_fails
               (ShutdownKernel (length (store bootstrap_fails))) = false ->
             not_running c')
         /\ (forall p, notebook_path c' = Some p ->
               raising bootstrap_fails (RemoveNotebook p) = false ->
               p ∉ files st').
Proof.
  eexists _, _. split; [vm_compute; reflexivity |].
  apply (failed_creation_leaves_nothing_registered str_exn "c" bootstrap_fails);
    [reflexivity | vm_compute; reflexivity].
Defined.

(** ** Requests and the other sessions *)

Lemma requests_leave_other_sessions_alone_witness :
  let request :=
    {| conversation_id := "old"; code := "1+1"; dependencies := [] |} in
  sessions (snd (run_code_in_session str_exn str_detail request
                   (two_sessions [200%Q]))) !! "recent"
  = sessions (two_sessions [200%Q]) !! "recent"
  /\ sessions (snd (reset_session str_exn "old" (two_sessions [200%Q])))
       !! "recent"
     = sessions (two_sessions [200%Q]) !! "recent"
  /\ sessions (snd (end_session "old" (two_sessions [200%Q]))) !! "recent"
     = sessions (two_sessions [200%Q]) !! "recent".
Proof.
  apply (requests_leave_other_sessions_alone str_exn str_detail
           {| conversation_id := "old"; code := "1+1"; dependencies := [] |}
           "recent" (two_sessions [200%Q])).
  discriminate.
Defined.

(** ** The teardown tasks of a sweep *)

Lemma sweep_schedules_one_teardown_per_removed_session_witness :
  exists removed,
    NoDup removed
    /\ (forall conversation_id,
          conversation_id ∈ removed
          <-> exists session_info,
                sessions (two_sessions [4700%Q]) !! conversation_id
                = Some session_info
                /\ (3600 < 4700 - last_activity session_info)%Q)
    /\ trace (snd (sweep (two_sessions [4700%Q])))
       = (trace (two_sessions [4700%Q])
            ++ teardown_tasks (sessions (two_sessions [4700%Q])) removed)%list
    /\ store (snd (sweep (two_sessions [4700%Q])))
       = store (two_sessions [4700%Q])
    /\ files (snd (sweep (two_sessions [4700%Q])))
       = files (two_sessions [4700%Q]).
Proof.
  apply (sweep_schedules_one_teardown_per_removed_session
           (two_sessions [4700%Q]) 4700%Q []).
  reflexivity.
Defined.

(** ** Accesses and requests that succeed *)

Lemma successful_access_refreshes_last_activity_witness :
  (exists found now later,
     sessions (serving silent_alive [200%Q]) !! "c" = Some found
     /\ clock (serving silent_alive [200%Q]) = now :: later
     /\ set_last_activity 200 registered = set_last_activity now found
     /\ sessions (snd (get_session str_exn "c" (serving silent_alive [200%Q])))
        = <["c" := set_last_activity 200 registered]>
            (sessions (serving silent_alive [200%Q])))
  /\ exists c k,
       store (snd (get_session str_exn "c" (serving silent_alive [200%Q])))
         !! controller (set_last_activity 200 registered) = Some c
       /\ _kernel_ready c = true
       /\ kernel_manager c = Some k.
Proof.
  apply (successful_access_refreshes_last_activity str_exn "c"
           (serving silent_alive [200%Q]) (set_last_activity 200 registered)
           (snd (get_session str_exn "c" (serving silent_alive [200%Q])))).
  vm_compute. reflexivity.
Defined.

Lemma stale_messages_do_not_reach_the_outcome_witness :
  fst (execute_code str_exn 0 "1+1" (serving stale_then_answer []))
  = outcome_of_loop str_exn true (fst (consume "msg-0" [] answer))
  /\ outcome_of_loop str_exn true (fst (consume "msg-0" [] answer))
     = Return "fresh".
Proof.
  split; [| reflexivity].
  apply (proj2 (stale_messages_do_not_reach_the_outcome str_exn 0 "1+1"
                  (serving stale_then_answer [])
                  (ready_controller stale_then_answer) stale_then_answer 4
                  eq_refl eq_refl eq_refl eq_refl)
           late_output answer).
  reflexivity.
Defined.

Lemma run_on_healthy_session_witness :
  let request :=
    {| conversation_id := "c"; code := "print('x'); 1+1";
       dependencies := [] |} in
  exists st',
    run_code_in_session str_exn str_detail request
      (serving prints_then_value [200%Q])
    = (Return (strip (join LF (flat_map rendered two_outputs))), st')
    /\ sessions st'
       = <["c" := set_last_activity 200 registered]>
           (sessions (serving prints_then_value [200%Q]))
    /\ files st' = files (serving prints_then_value [200%Q])
    /\ exists l,
         trace st' = (trace (serving prints_then_value [200%Q]) ++ l)%list
         /\ Forall is_Execute l.
Proof.
  apply (run_on_healthy_session str_exn str_detail
           {| conversation_id := "c"; code := "print('x'); 1+1";
              dependencies := [] |}
           (serving prints_then_value [200%Q]) registered
           (ready_controller prints_then_value) prints_then_value 3 200%Q []
           two_outputs (status_msg "msg-0" "idle") []);
    reflexivity.
Defined.

Lemma session_used_within_the_hour_survives_the_sweep_witness :
  let request :=
    {| conversation_id := "c"; code := "print('x'); 1+1";
       dependencies := [] |} in
  let st1 :=
    snd (run_code_in_session str_exn str_detail request
           (serving prints_then_value [200; 3000]%Q)) in
  exists now,
    head (clock (serving prints_then_value [200; 3000]%Q)) = Some now
    /\ sessions st1 !! "c" = Some (set_last_activity now registered)
    /\ (~ (3600 < 3000 - now)%Q ->
        sessions (snd (sweep st1)) !! "c"
        = Some (set_last_activity now registered)).
Proof.
  apply (session_used_within_the_hour_survives_the_sweep str_exn str_detail
           {| conversation_id := "c"; code := "print('x'); 1+1";
              dependencies := [] |}
           (serving prints_then_value [200; 3000]%Q) registered
           ("x" ++ LF ++ LF ++ "2")
           (snd (run_code_in_session str_exn str_detail
                   {| conversation_id := "c"; code := "print('x'); 1+1";
                      dependencies := [] |}
                   (serving prints_then_value [200; 3000]%Q)))
           3000%Q []).
  - reflexivity.
  - vm_compute. reflexivity.
  - vm_compute. reflexivity.
Defined.

(** ** Creation, reset and installation *)

Lemma created_session_is_ready_and_bootstrapped_witness :
  let session_info :=
    {| controller := 0; created_at := 102; last_activity := 102 |} in
  let st' := snd (_create_session str_exn "c" fresh_server) in
  controller session_info = length (store fresh_server)
  /\ created_at session_info = last_activity session_info
  /\ sessions st' = <["c" := session_info]> (sessions fresh_server)
  /\ In (StartKernel (controller session_info)) (trace st')
  /\ In (Execute (controller session_info) setup_code) (trace st')
  /\ exists c' k',
       store st' !! controller session_info = Some c'
       /\ folder_path c' = os_path_join SESSIONS_FOLDER "c"
       /\ notebook_path c'
          = Some (os_path_join (os_path_join SESSIONS_FOLDER "c")
                    ("notebook_" ++ "c" ++ ".ipynb"))
       /\ _kernel_ready c' = true
       /\ kernel_manager c' = Some k'
       /\ os_path_join (os_path_join SESSIONS_FOLDER "c")
            ("notebook_" ++ "c" ++ ".ipynb") ∈ files st'.
Proof.
  apply (created_session_is_ready_and_bootstrapped str_exn "c" fresh_server
           {| controller := 0; created_at := 102; last_activity := 102 |}
           (snd (_create_session str_exn "c" fresh_server))).
  - reflexivity.
  - vm_compute. reflexivity.
Defined.

Lemma successful_reset_restarts_and_bootstraps_witness :
  let st' :=
    snd (reset_session str_exn "c" (serving restartable [200; 201; 202]%Q)) in
  "Kernel for session 'c' reset successful"
  = "Kernel for session '" ++ "c" ++ "' reset successful"
  /\ exists found now later,
       sessions (serving restartable [200; 201; 202]%Q) !! "c" = Some found
       /\ clock (serving restartable [200; 201; 202]%Q) = now :: later
       /\ sessions st'
          = <["c" := set_last_activity now found]>
              (sessions (serving restartable [200; 201; 202]%Q))
       /\ In (RestartKernel (controller found)) (trace st')
       /\ In (Execute (controller found)
                (reset_setup_code
                   "Re-running initial imports after manual reset."
                   "        "))
             (trace st')
       /\ exists c' k',
            store st' !! controller found = Some c'
            /\ _kernel_ready c' = true
            /\ kernel_manager c' = Some k'.
Proof.
  apply (successful_reset_restarts_and_bootstraps str_exn "c"
           (serving restartable [200; 201; 202]%Q)
           "Kernel for session 'c' reset successful"
           (snd (reset_session str_exn "c"
                   (serving restartable [200; 201; 202]%Q)))).
  vm_compute. reflexivity.
Defined.

Lemma reset_never_unregisters_the_session_witness :
  let st := serving restart_fails [200%Q] in
  let s1 := snd (get_session str_exn "c" st) in
  sessions (snd (reset_session str_exn "c" st)) = sessions s1
  /\ sessions (snd (reset_session str_exn "c" st)) !! "c"
     = Some (set_last_activity 200 registered)
  /\ forall e s2,
       reset_kernel str_exn (controller (set_last_activity 200 registered)) s1
       = (Raise e, s2) ->
       reset_session str_exn "c" st
       = (Raise (HTTPException 500 (DetailStr
            ("Failed to reset session '" ++ "c" ++ "': " ++ str_exn e))), s2)
       /\ sessions s2 !! "c" = Some (set_last_activity 200 registered)
       /\ exists c',
            store s2 !! controller (set_last_activity 200 registered)
            = Some c'
            /\ _kernel_ready c' = false
            /\ (raising s1
                  (ShutdownKernel
                     (controller (set_last_activity 200 registered)))
                = false -> not_running c').
Proof.
  apply (reset_never_unregisters_the_session str_exn "c"
           (serving restart_fails [200%Q]) (set_last_activity 200 registered)
           (snd (get_session str_exn "c" (serving restart_fails [200%Q])))).
  vm_compute. reflexivity.
Defined.

Lemma installed_dependencies_were_imported_witness :
  In (PipInstall "six")
     (trace (snd (_install_dependencies str_exn str_detail registered
                    ["six"; ""] (serving answers_once []))))
  /\ In (Execute (controller registered) ("import " ++ import_name_of "six"))
        (trace (snd (_install_dependencies str_exn str_detail registered
                       ["six"; ""] (serving answers_once [])))).
Proof.
  apply (installed_dependencies_were_imported str_exn str_detail registered
           ["six"; ""] (serving answers_once [])
           (snd (_install_dependencies str_exn str_detail registered
                   ["six"; ""] (serving answers_once [])))).
  - vm_compute. reflexivity.
  - left. reflexivity.
Defined.

(** ** The other controllers, the output and the import name *)

Lemma run_leaves_other_controllers_alone_witness :
  store (snd (run_code_in_session str_exn str_detail
                {| conversation_id := "old"; code := "1+1";
                   dependencies := [] |}
                (two_sessions [200%Q]))) !! 1
  = Some (ready_controller silent_alive).
Proof.
  apply (run_leaves_other_controllers_alone str_exn str_detail
           {| conversation_id := "old"; code := "1+1"; dependencies := [] |}
           (two_sessions [200%Q]) 1 (ready_controller silent_alive)).
  - reflexivity.
  - intros found H. vm_compute in H. inversion H. discriminate.
Defined.

Lemma output_is_trimmed_witness :
  fst (execute_code str_exn 0 "print('x'); 1+1" (serving prints_then_value []))
  = Return ("x" ++ LF ++ LF ++ "2")
  /\ strip ("x" ++ LF ++ LF ++ "2") = "x" ++ LF ++ LF ++ "2"
  /\ lstrip ("x" ++ LF ++ LF ++ "2") = "x" ++ LF ++ LF ++ "2"
  /\ rstrip ("x" ++ LF ++ LF ++ "2") = "x" ++ LF ++ LF ++ "2".
Proof.
  split; [vm_compute; reflexivity |].
  apply (output_is_trimmed str_exn 0 "print('x'); 1+1"
           (serving prints_then_value []) ("x" ++ LF ++ LF ++ "2")
           (snd (execute_code str_exn 0 "print('x'); 1+1"
                   (serving prints_then_value [])))).
  vm_compute. reflexivity.
Defined.

Lemma import_name_has_no_specifier_characters_witness :
  import_name_of "scikit-learn[extra]>=1.0" = "scikit_learn"
  /\ "_"%char <> "-"%char /\ "_"%char <> "["%char
  /\ "_"%char <> "<"%char /\ "_"%char <> ">"%char.
Proof.
  split; [reflexivity |].
  apply (import_name_has_no_specifier_characters "scikit-learn[extra]>=1.0").
  vm_compute. do 6 right. left. reflexivity.
Defined.

Lemma execute_code_on_unready_dead_kernel_witness :
  execute_code str_exn 0 "1+1" (waiting dead [0; 2; 4; 6; 8]%Q)
  = (Raise (RuntimeError
       "Kernel not ready. Please wait for initialization or restart session."),
     with_clock [8%Q] (waiting dead [0; 2; 4; 6; 8]%Q)).
Proof.
  apply (execute_code_on_unready_dead_kernel str_exn 0 "1+1"
           (waiting dead [0; 2; 4; 6; 8]%Q) (unready_controller dead)
           0 [2; 4]%Q 6 [8%Q]);
    try reflexivity.
  repeat constructor; unfold Qlt; simpl; lia.
Defined.

(** ** Accesses to a session whose kernel needs attention *)

Lemma access_to_dead_session_removes_it_when_restart_fails_witness :
  exists st' c',
    get_session str_exn "c" (serving dead_beyond_restart [200%Q])
    = (Raise (HTTPException 500 (DetailStr
         "Kernel for session 'c' died and could not be reset. Please start a new session.")),
       st')
    /\ sessions st'
       = delete "c" (sessions (serving dead_beyond_restart [200%Q]))
    /\ store st' !! controller registered = Some c'
    /\ _kernel_ready c' = false
    /\ In (RestartKernel (controller registered)) (trace st')
    /\ (raising (serving dead_beyond_restart [200%Q])
          (ShutdownKernel (controller registered)) = false ->
        not_running c')
    /\ (forall p,
          notebook_path (ready_controller dead_beyond_restart) = Some p ->
          raising (serving dead_beyond_restart [200%Q]) (RemoveNotebook p)
          = false ->
          p ∉ files st').
Proof.
  apply (access_to_dead_session_removes_it_when_restart_fails str_exn "c"
           (serving dead_beyond_restart [200%Q]) registered
           (ready_controller dead_beyond_restart) dead_beyond_restart
           200%Q []);
    first [reflexivity | exact I].
Defined.

Lemma access_waits_for_unready_live_kernel_witness :
  exists st' c' k',
    get_session str_exn "c" (waiting silent_alive [200; 201; 202; 300]%Q)
    = (Return (set_last_activity 200 registered), st')
    /\ sessions st'
       = <["c" := set_last_activity 200 registered]>
           (sessions (waiting silent_alive [200; 201; 202; 300]%Q))
    /\ store st' !! controller registered = Some c'
    /\ _kernel_ready c' = true
    /\ kernel_manager c' = Some k'
    /\ life k' = 3
    /\ submitted k' = 1
    /\ trace st' = [Execute (controller registered) "1+1"]
    /\ clock st' = [300%Q].
Proof.
  apply (access_waits_for_unready_live_kernel str_exn "c"
           (waiting silent_alive [200; 201; 202; 300]%Q) registered
           (unready_controller silent_alive) silent_alive 3
           200%Q 201%Q 202%Q [300%Q]);
    try reflexivity.
  - constructor.
  - unfold Qlt. simpl. lia.
Defined.
